(** * Alto bundler: validation and gas-price pipeline

    A shallow embedding of [GasPriceManager] (the gas price manager) and of
    [UnsafeValidator] (src/rpc/validation/UnsafeValidator.ts), followed by
    the properties the specification states about them.

    Conventions of the embedding:
    - a TypeScript [bigint] is a [Z]; [a / b] on bigints is [Z.quot]
      (truncation toward zero) and throws on a zero divisor;
    - a TypeScript [number] that only ever holds an integer below 2^53
      (timestamps in ms, u48 validity bounds, queue lengths) is a [Z];
    - a rejected promise or a thrown exception is [None] (gas price manager)
      or [inl e] (validator);
    - the answers of the outside world (JSON-RPC node, gas station, clock)
      during one call are collected in a record passed as an argument;
    - mutable fields of an object are threaded through as an explicit
      state. *)

From Stdlib Require Import ZArith QArith Bool List String Ascii Lia.
From Stdlib Require HexString.
From Stdlib Require Import Nnat.
Import ListNotations.

#[local] Open Scope Z_scope.

(** ** Small error monad for code that may throw *)

Definition bindOpt {A B : Type} (m : option A) (k : A -> option B) : option B :=
  match m with
  | Some a => k a
  | None => None
  end.

Notation "'let?' x ':=' m 'in' k" := (bindOpt m (fun x => k))
  (at level 10, x name, m at level 100, k at level 200).

(** ** Helpers of [@alto/utils] and [viem] *)

(** Modelled from the spec: [maxBigInt] of [@alto/utils] is not under src/;
    the spec uses it to "raise" a fee to another one, i.e. the larger of
    its two arguments. *)
Definition maxBigInt (a b : Z) : Z := if a >? b then a else b.

(** Modelled from the spec: [minBigInt] of [@alto/utils] is not under src/;
    the spec's [min(avgReward, maxFeePerGas ?? 0)], i.e. the smaller of its
    two arguments. *)
Definition minBigInt (a b : Z) : Z := if a <? b then a else b.

(** [parseGwei("n")] of viem for a whole number of gwei. *)
Definition parseGwei (n : Z) : Z := n * 1000000000.

(** bigint division [a / b]: a RangeError on a zero divisor. *)
Definition bigDiv (a b : Z) : option Z :=
  if b =? 0 then None else Some (a ÷ b).

(** Chain identifiers of [viem/chains] that the source refers to. *)
Module chains.
Definition mainnet : Z := 1.
Definition polygon : Z := 137.
Definition mantle : Z := 5000.
Definition base : Z := 8453.
Definition celoCannoli : Z := 17323.
Definition arbitrum : Z := 42161.
Definition celo : Z := 42220.
Definition avalanche : Z := 43114.
Definition celoAlfajores : Z := 44787.
Definition dfk : Z := 53935.
Definition polygonMumbai : Z := 80001.
Definition arbitrumGoerli : Z := 421613.
Definition scrollSepolia : Z := 534351.
Definition scroll : Z := 534352.
Definition sepolia : Z := 11155111.
End chains.

(** ** Hex strings of [viem]

    [Hex] values are JavaScript strings ["0x..."]; the functions below are
    the ones [parseValidationData] calls, on strings as the library has
    them. *)

Module viem.

Definition Hex := string.
Definition Address := string.

Definition zeroAddress : Address :=
  "0x0000000000000000000000000000000000000000"%string.

Definition hexDigit (d : Z) : ascii :=
  match d with
  | 0 => "0" | 1 => "1" | 2 => "2" | 3 => "3"
  | 4 => "4" | 5 => "5" | 6 => "6" | 7 => "7"
  | 8 => "8" | 9 => "9" | 10 => "a" | 11 => "b"
  | 12 => "c" | 13 => "d" | 14 => "e" | _ => "f"
  end%char.

(** [value.toString(16)] for a bigint [value >= 0]. *)
Definition toString16 (value : Z) : string :=
  match value with
  | Zpos p => HexString.Raw.of_pos p EmptyString
  | _ => "0"%string
  end.

(** [toHex(value)] for a bigint without a [size]: ["0x" + toString(16)];
    an IntegerOutOfRangeError ([None]) on a negative value. *)
Definition toHex (value : Z) : option Hex :=
  if value <? 0 then None
  else Some (String "0" (String "x" (toString16 value))).

(** [hex.replace("0x", empty)]: the first occurrence of ["0x"] is
    removed. *)
Fixpoint replace0x (s : string) : string :=
  match s with
  | EmptyString => EmptyString
  | String c rest =>
      match rest with
      | String "x" rest' =>
          if Ascii.eqb c "0" then rest' else String c (replace0x rest)
      | _ => String c (replace0x rest)
      end
  end.

Fixpoint zeros (n : nat) : string :=
  match n with
  | O => EmptyString
  | S n' => String "0" (zeros n')
  end.

(** [s.padStart(targetLength, "0")] *)
Definition padStart (s : string) (targetLength : nat) : string :=
  (zeros (targetLength - String.length s) ++ s)%string.

(** [pad(hex, { size })], left padding; a SizeExceedsPaddingSizeError
    ([None]) when [hex] is longer than [size] bytes. *)
Definition pad (hex_ : Hex) (size : nat) : option Hex :=
  let hex := replace0x hex_ in
  if (size * 2 <? String.length hex)%nat then None
  else Some (String "0" (String "x" (padStart hex (size * 2)))).

(** [size(hex)]: [Math.ceil((hex.length - 2) / 2)] *)
Definition size (value : Hex) : Z :=
  (Z.of_nat (String.length value) - 2 + 1) / 2.

(** [str.slice(from, to)] for [0 <= from], [0 <= to]. *)
Definition jsSlice (str : string) (from to : nat) : string :=
  substring from (to - from) str.

(** [slice(value, start, end)] on a hex string, [end] optional, not
    strict; a SliceOffsetOutOfBoundsError ([None]) when [start] lies
    beyond the last byte. *)
Definition slice (value_ : Hex) (start : nat) (end_ : option nat)
    : option Hex :=
  if (0 <? Z.of_nat start) && (size value_ - 1 <? Z.of_nat start) then None
  else
    let to := match end_ with
              | Some e => e
              | None => String.length value_
              end in
    Some (String "0" (String "x"
            (jsSlice (replace0x value_) (start * 2) (to * 2)))).

(** The hexadecimal digits at the head of a string, read left to right
    into [acc]; the second component tells whether a digit was read. *)
Fixpoint parseDigits (s : string) (acc : Z) (seen : bool) : Z * bool :=
  match s with
  | EmptyString => (acc, seen)
  | String c rest =>
      match HexString.ascii_to_digit c with
      | Some v => parseDigits rest (acc * 16 + Z.of_N v) true
      | None => (acc, seen)
      end
  end.

(** [Number.parseInt(s, 16)] on a string without leading blanks or sign:
    an optional ["0x"] or ["0X"] prefix, then as many hexadecimal digits
    as there are; [None] is NaN (no digit at all).  The strings parsed
    here have at most 12 digits, so the result is an exact integer. *)
Definition parseInt16 (s : string) : option Z :=
  let digits :=
    match s with
    | String "0" (String "x" rest) => rest
    | String "0" (String "X" rest) => rest
    | _ => s
    end in
  match parseDigits digits 0 false with
  | (n, true) => Some n
  | (_, false) => None
  end.

End viem.

(** ** Big-endian digits

    The digits of a natural number in a given base, most significant first,
    on a fixed width; base 16 gives the hex digits of a padded hex string,
    base 256 the bytes of a word as the specification views it. *)

Fixpoint digitsBE (base : Z) (width : nat) (n : Z) : list Z :=
  match width with
  | O => []
  | S width' => digitsBE base width' (n / base) ++ [n mod base]
  end.

Fixpoint valueBE (base : Z) (digits : list Z) (acc : Z) : Z :=
  match digits with
  | [] => acc
  | d :: rest => valueBE base rest (acc * base + d)
  end.

(** The string of the hex digits [ds]. *)
Definition hexString (ds : list Z) : string :=
  string_of_list_ascii (map viem.hexDigit ds).

(** ** GasPriceManager *)

Module GasPriceManager.

Record GasPriceParameters := {
  maxFeePerGas : Z;
  maxPriorityFeePerGas : Z
}.

(** [enum ChainId] *)
Module ChainId.
Definition Goerli : Z := 5.
Definition Polygon : Z := 137.
Definition Mumbai : Z := 80001.
Definition LineaTestnet : Z := 59140.
Definition Linea : Z := 59144.
End ChainId.

Definition MIN_POLYGON_GAS_PRICE : Z := parseGwei 31.
Definition MIN_MUMBAI_GAS_PRICE : Z := parseGwei 1.

(** One element of [queueMaxFeePerGas] / [queueMaxPriorityFeePerGas]:
    the field [price] stands for [maxFeePerGas], resp.
    [maxPriorityFeePerGas], of the source's two object shapes. *)
Record Entry := {
  price : Z;
  timestamp : Z
}.

(** The fields of the class that the methods read or write; the public
    client and the logger are replaced by the [World] below. *)
Record t := {
  chain_id : Z;
  noEip1559Support : bool;
  queueMaxFeePerGas : list Entry;
  queueMaxPriorityFeePerGas : list Entry;
  maxQueueSize : Z
}.

(** [new GasPriceManager(chain, publicClient, noEip1559Support, logger,
    gasPriceTimeValidityInSeconds = 10)] *)
Definition constructor (chain : Z) (noEip1559 : bool)
    (gasPriceTimeValidityInSeconds : option Z) : t :=
  {| chain_id := chain;
     noEip1559Support := noEip1559;
     queueMaxFeePerGas := [];
     queueMaxPriorityFeePerGas := [];
     maxQueueSize := match gasPriceTimeValidityInSeconds with
                     | Some w => w
                     | None => 10
                     end |}.

Definition set_queueMaxFeePerGas (this : t) (q : list Entry) : t :=
  {| chain_id := chain_id this;
     noEip1559Support := noEip1559Support this;
     queueMaxFeePerGas := q;
     queueMaxPriorityFeePerGas := queueMaxPriorityFeePerGas this;
     maxQueueSize := maxQueueSize this |}.

Definition set_queueMaxPriorityFeePerGas (this : t) (q : list Entry) : t :=
  {| chain_id := chain_id this;
     noEip1559Support := noEip1559Support this;
     queueMaxFeePerGas := queueMaxFeePerGas this;
     queueMaxPriorityFeePerGas := q;
     maxQueueSize := maxQueueSize this |}.

(** What [publicClient.getBlock] returns, as far as it is read. *)
Record Block := {
  baseFeePerGas : option Z;
  gasUsed : Z;
  gasLimit : Z
}.

(** What [publicClient.estimateFeesPerGas] returns. *)
Record FeeValues := {
  fees_gasPrice : option Z;
  fees_maxFeePerGas : option Z;
  fees_maxPriorityFeePerGas : option Z
}.

(** The answers the outside world gives during one [getGasPrice] call.
    Each of them is requested at most once per call.  An outer [None] is a
    rejected promise. *)
Record World := {
  (** [fetch(gasStationUrl)] then [gasStationResult.parse(data).fast] *)
  gasStation : option GasPriceParameters;
  (** [estimateFeesPerGas({ chain, type: "legacy" })] *)
  estimateFeesPerGasLegacy : option FeeValues;
  (** [estimateFeesPerGas({ chain })] *)
  estimateFeesPerGas : option FeeValues;
  (** [publicClient.getGasPrice()] *)
  rpcGasPrice : option Z;
  (** [publicClient.getFeeHistory(...)], with its optional [reward] *)
  getFeeHistory : option (option (list (list Z)));
  (** [publicClient.getBlock({ blockTag: "latest" })] *)
  getBlock : option Block;
  (** [Date.now()], in milliseconds *)
  Date_now : Z
}.

Definition getDefaultGasFee (chainId : Z) : Z :=
  if chainId =? ChainId.Polygon then MIN_POLYGON_GAS_PRICE
  else if chainId =? ChainId.Mumbai then MIN_MUMBAI_GAS_PRICE
  else 0.

Definition getPolygonGasPriceParameters (w : World)
    : option GasPriceParameters :=
  gasStation w.

Definition getBumpAmount (chainId : Z) : Z :=
  if chainId =? chains.sepolia then 120
  else if chainId =? chains.celo then 150
  else if (chainId =? chains.arbitrum)
       || (chainId =? chains.scroll)
       || (chainId =? chains.scrollSepolia)
       || (chainId =? chains.arbitrumGoerli)
       || (chainId =? chains.mainnet)
       || (chainId =? chains.mantle)
       || (chainId =? 22222)
       || (chainId =? chains.sepolia)
       || (chainId =? chains.base)
       || (chainId =? chains.dfk)
       || (chainId =? chains.celoAlfajores)
       || (chainId =? chains.celoCannoli)
       || (chainId =? chains.avalanche)
  then 111
  else 100.

Definition bumpTheGasPrice (this : t) (gasPriceParameters : GasPriceParameters)
    : GasPriceParameters :=
  let bumpAmount := getBumpAmount (chain_id this) in
  let maxPriorityFeePerGas' :=
    maxBigInt (maxPriorityFeePerGas gasPriceParameters)
              (getDefaultGasFee (chain_id this)) in
  let maxFeePerGas' :=
    maxBigInt (maxFeePerGas gasPriceParameters) maxPriorityFeePerGas' in
  let result :=
    {| maxFeePerGas := (maxFeePerGas' * bumpAmount) ÷ 100;
       maxPriorityFeePerGas := (maxPriorityFeePerGas' * bumpAmount) ÷ 100 |} in
  if (chain_id this =? chains.celo)
     || (chain_id this =? chains.celoAlfajores)
     || (chain_id this =? chains.celoCannoli)
  then
    let maxFee :=
      maxBigInt (maxFeePerGas result) (maxPriorityFeePerGas result) in
    {| maxFeePerGas := maxFee; maxPriorityFeePerGas := maxFee |}
  else result.

(** [feeHistory.reward.reduce((acc, cur) => cur[0] + acc, 0n)]: adding
    [undefined] (an empty [cur]) to a bigint throws. *)
Fixpoint sumFirstRewards (reward : list (list Z)) (acc : Z) : option Z :=
  match reward with
  | [] => Some acc
  | cur :: rest =>
      match cur with
      | [] => None
      | r :: _ => sumFirstRewards rest (r + acc)
      end
  end.

Definition getFallBackMaxPriorityFeePerGas (w : World) (gasPrice : Z)
    : option Z :=
  let? feeHistory := getFeeHistory w in
  match feeHistory with
  | None => Some gasPrice
  | Some reward =>
      let? total := sumFirstRewards reward 0 in
      let feeAverage := total ÷ 10 in
      Some (minBigInt feeAverage gasPrice)
  end.

Definition getNextBaseFee (w : World) : option Z :=
  let? block := getBlock w in
  let? currentBaseFeePerGas :=
    match baseFeePerGas block with
    | Some b => if b =? 0 then rpcGasPrice w else Some b
    | None => rpcGasPrice w
    end in
  let currentGasUsed := gasUsed block in
  let gasTarget := gasLimit block ÷ 2 in
  if currentGasUsed =? gasTarget then Some currentBaseFeePerGas
  else if currentGasUsed >? gasTarget then
    let gasUsedDelta := currentGasUsed - gasTarget in
    let? q := bigDiv (currentBaseFeePerGas * gasUsedDelta) gasTarget in
    let baseFeePerGasDelta := maxBigInt (q ÷ 8) 1 in
    Some (currentBaseFeePerGas + baseFeePerGasDelta)
  else
    let gasUsedDelta := currentGasUsed - gasTarget in
    let? q := bigDiv (currentBaseFeePerGas * gasUsedDelta) gasTarget in
    let baseFeePerGasDelta := q ÷ 8 in
    Some (currentBaseFeePerGas - baseFeePerGasDelta).

Definition getNoEip1559SupportGasPrice (w : World)
    : option GasPriceParameters :=
  let gasPrice :=
    match estimateFeesPerGasLegacy w with
    | Some gasInfo => fees_gasPrice gasInfo
    | None => None
    end in
  let? gasPrice' :=
    match gasPrice with
    | Some g => Some g
    | None => rpcGasPrice w
    end in
  Some {| maxFeePerGas := gasPrice'; maxPriorityFeePerGas := gasPrice' |}.

Definition estimateGasPrice (w : World) : option GasPriceParameters :=
  let '(maxFee, maxPriority) :=
    match estimateFeesPerGas w with
    | Some fees => (fees_maxFeePerGas fees, fees_maxPriorityFeePerGas fees)
    | None => (None, None)
    end in
  let? maxPriority1 :=
    match maxPriority with
    | Some p => Some p
    | None =>
        getFallBackMaxPriorityFeePerGas w
          (match maxFee with Some f => f | None => 0 end)
    end in
  let? maxFee1 :=
    match maxFee with
    | Some f => Some f
    | None =>
        let? nextBaseFee := getNextBaseFee w in
        Some (nextBaseFee + maxPriority1)
    end in
  let maxPriority2 :=
    if maxPriority1 =? 0 then maxFee1 ÷ 200 else maxPriority1 in
  Some {| maxFeePerGas := maxFee1; maxPriorityFeePerGas := maxPriority2 |}.

(** [queue.shift()]: drops the front entry, does nothing on []. *)
Definition shift (queue : list Entry) : list Entry := tl queue.

(** [queue.push(e)] *)
Definition push (queue : list Entry) (e : Entry) : list Entry :=
  queue ++ [e].

(** [queue.length > 0 ? queue[queue.length - 1] : null] *)
Fixpoint lastEntry (queue : list Entry) : option Entry :=
  match queue with
  | [] => None
  | [e] => Some e
  | _ :: rest => lastEntry rest
  end.

(** Assignment to the fields of [last], the object that sits at the end of
    the array: the queue's tail is overwritten in place. *)
Definition overwriteLast (queue : list Entry) (e : Entry) : list Entry :=
  removelast queue ++ [e].

Definition saveMaxFeePerGas (this : t) (gasPrice timestamp' : Z) : t :=
  let queue := queueMaxFeePerGas this in
  let pushed :=
    let queue1 :=
      if Z.of_nat (List.length queue) >=? maxQueueSize this
      then shift queue else queue in
    push queue1 {| price := gasPrice; timestamp := timestamp' |} in
  match lastEntry queue with
  | None => set_queueMaxFeePerGas this pushed
  | Some last =>
      if timestamp' - timestamp last >=? 1000
      then set_queueMaxFeePerGas this pushed
      else if gasPrice <? price last
      then set_queueMaxFeePerGas this
             (overwriteLast queue
                {| price := gasPrice; timestamp := timestamp' |})
      else this
  end.

Definition saveMaxPriorityFeePerGas (this : t) (gasPrice timestamp' : Z) : t :=
  let queue := queueMaxPriorityFeePerGas this in
  let pushed :=
    let queue1 :=
      if Z.of_nat (List.length queue) >=? maxQueueSize this
      then shift queue else queue in
    push queue1 {| price := gasPrice; timestamp := timestamp' |} in
  match lastEntry queue with
  | None => set_queueMaxPriorityFeePerGas this pushed
  | Some last =>
      if timestamp' - timestamp last >=? 1000
      then set_queueMaxPriorityFeePerGas this pushed
      else if gasPrice <? price last
      then set_queueMaxPriorityFeePerGas this
             (overwriteLast queue
                {| price := gasPrice; timestamp := timestamp' |})
      else this
  end.

(** The executor of the promise runs synchronously, so both queues are
    written before [saveGasPrice] returns. *)
Definition saveGasPrice (this : t) (gasPrice : GasPriceParameters)
    (timestamp' : Z) : t :=
  let this1 := saveMaxFeePerGas this (maxFeePerGas gasPrice) timestamp' in
  saveMaxPriorityFeePerGas this1 (maxPriorityFeePerGas gasPrice) timestamp'.

(** The value recorded in the queues by every branch of [getGasPrice]. *)
Definition floored (gasPrice : GasPriceParameters)
    (maxFeeFloor maxPriorityFeeFloor : Z) : GasPriceParameters :=
  {| maxFeePerGas := maxBigInt (maxFeePerGas gasPrice) maxFeeFloor;
     maxPriorityFeePerGas :=
       maxBigInt (maxPriorityFeePerGas gasPrice) maxPriorityFeeFloor |}.

(** [getGasPrice()]: the returned parameters and the manager afterwards;
    [None] when the call throws (the queues are then untouched). *)
Definition getGasPrice (this : t) (w : World)
    : option (GasPriceParameters * t) :=
  let maxFeeFloor :=
    if chain_id this =? chains.dfk then 5000000000 else 0 in
  let maxPriorityFeeFloor :=
    if chain_id this =? chains.dfk then 5000000000 else 0 in
  let finish (gasPrice : GasPriceParameters) :=
    Some (gasPrice,
          saveGasPrice this
            (floored gasPrice maxFeeFloor maxPriorityFeeFloor)
            (Date_now w)) in
  let rest :=
    if noEip1559Support this then
      let? fees := getNoEip1559SupportGasPrice w in
      finish (bumpTheGasPrice this fees)
    else
      let? fees := estimateGasPrice w in
      finish (bumpTheGasPrice this
                {| maxFeePerGas := maxFeePerGas fees;
                   maxPriorityFeePerGas := maxPriorityFeePerGas fees |}) in
  if (chain_id this =? chains.polygon)
     || (chain_id this =? chains.polygonMumbai)
  then
    match getPolygonGasPriceParameters w with
    | Some polygonEstimate =>
        finish (bumpTheGasPrice this
                  {| maxFeePerGas := maxFeePerGas polygonEstimate;
                     maxPriorityFeePerGas :=
                       maxPriorityFeePerGas polygonEstimate |})
    | None => rest
    end
  else rest.

(** [queue.reduce((acc, cur) => minBigInt(cur.price, acc), queue[0].price)];
    reading [queue[0].price] on an empty queue throws. *)
Definition queueMinimum (queue : list Entry) : option Z :=
  match queue with
  | [] => None
  | first :: _ =>
      Some (fold_left (fun acc cur => minBigInt (price cur) acc)
                      queue (price first))
  end.

Definition getMinMaxFeePerGas (this : t) (w : World) : option (Z * t) :=
  let? this1 :=
    match queueMaxFeePerGas this with
    | [] => let? r := getGasPrice this w in Some (snd r)
    | _ => Some this
    end in
  let? m := queueMinimum (queueMaxFeePerGas this1) in
  Some (m, this1).

Definition getMinMaxPriorityFeePerGas (this : t) (w : World)
    : option (Z * t) :=
  let? this1 :=
    match queueMaxPriorityFeePerGas this with
    | [] => let? r := getGasPrice this w in Some (snd r)
    | _ => Some this
    end in
  let? m := queueMinimum (queueMaxPriorityFeePerGas this1) in
  Some (m, this1).

Inductive GasPriceVerdict :=
| Accepted
| MaxFeePerGasTooLow (lowest current : Z)
| MaxPriorityFeePerGasTooLow (lowest current : Z).

(** [validateGasPrice(gasPrice)]: the verdict ([RpcError]s are the two
    "too low" cases) and the manager afterwards. *)
Definition validateGasPrice (this : t) (w : World)
    (gasPrice : GasPriceParameters) : option (GasPriceVerdict * t) :=
  let? r1 := getMinMaxFeePerGas this w in
  let '(lowestMaxFeePerGas, this1) := r1 in
  let? r2 := getMinMaxPriorityFeePerGas this1 w in
  let '(lowestMaxPriorityFeePerGas, this2) := r2 in
  if maxFeePerGas gasPrice <? lowestMaxFeePerGas then
    Some (MaxFeePerGasTooLow lowestMaxFeePerGas (maxFeePerGas gasPrice), this2)
  else if maxPriorityFeePerGas gasPrice <? lowestMaxPriorityFeePerGas then
    Some (MaxPriorityFeePerGasTooLow lowestMaxPriorityFeePerGas
            (maxPriorityFeePerGas gasPrice), this2)
  else Some (Accepted, this2).

(** The managers that exist at run time: a freshly constructed one, and
    whatever the two public methods leave behind. *)
Inductive reachable (chain : Z) (noEip1559 : bool)
    (gasPriceTimeValidityInSeconds : option Z) : t -> Prop :=
| reach_constructor :
    reachable chain noEip1559 gasPriceTimeValidityInSeconds
      (constructor chain noEip1559 gasPriceTimeValidityInSeconds)
| reach_getGasPrice (this this' : t) (w : World) (gp : GasPriceParameters) :
    reachable chain noEip1559 gasPriceTimeValidityInSeconds this ->
    getGasPrice this w = Some (gp, this') ->
    reachable chain noEip1559 gasPriceTimeValidityInSeconds this'
| reach_validateGasPrice (this this' : t) (w : World)
    (gasPrice : GasPriceParameters) (v : GasPriceVerdict) :
    reachable chain noEip1559 gasPriceTimeValidityInSeconds this ->
    validateGasPrice this w gasPrice = Some (v, this') ->
    reachable chain noEip1559 gasPriceTimeValidityInSeconds this'.

(** The insertion rule of the rolling-minimum queues (spec 4.5), as a
    relation between the queue before, the incoming [(price, t_ms)] and
    the queue after. *)
Definition followsInsertionRule (W : Z) (queue : list Entry)
    (p t_ms : Z) (queue' : list Entry) : Prop :=
  let incoming := {| price := p; timestamp := t_ms |} in
  let atCapacity := W <= Z.of_nat (List.length queue) in
  match lastEntry queue with
  | None => queue' = [incoming]
  | Some tail =>
      (1000 <= t_ms - timestamp tail ->
         (atCapacity -> queue' = tl queue ++ [incoming]) /\
         (~ atCapacity -> queue' = queue ++ [incoming])) /\
      (t_ms - timestamp tail < 1000 -> p < price tail ->
         queue' = removelast queue ++ [incoming]) /\
      (t_ms - timestamp tail < 1000 -> price tail <= p ->
         queue' = queue)
  end.

(** The next base-fee projection in the words of the specification
    (4.5, "Next base-fee projection"), with [target = gasLimit / 2]. *)
Definition nextBaseFeeSpec (base gasUsed' gasLimit' : Z) : Z :=
  let target := gasLimit' ÷ 2 in
  if gasUsed' =? target then base
  else if gasUsed' >? target then
    base + Z.max (base * (gasUsed' - target) ÷ target ÷ 8) 1
  else base - base * (target - gasUsed') ÷ target ÷ 8.

(** The queue invariant: each queue holds at most [max W 1] entries,
    which is [W] itself as soon as [W >= 1]. *)
Definition queuesBounded (this : t) : Prop :=
  Z.of_nat (List.length (queueMaxFeePerGas this))
    <= Z.max (maxQueueSize this) 1
  /\ Z.of_nat (List.length (queueMaxPriorityFeePerGas this))
    <= Z.max (maxQueueSize this) 1.

(** *** Sample answers of the outside world *)

(** A node that supports EIP-1559 and quotes 1 gwei for both fees. *)
Definition oneGweiWorld : World :=
  {| gasStation := None;
     estimateFeesPerGasLegacy := None;
     estimateFeesPerGas :=
       Some {| fees_gasPrice := None;
               fees_maxFeePerGas := Some 1000000000;
               fees_maxPriorityFeePerGas := Some 1000000000 |};
     rpcGasPrice := Some 1000000000;
     getFeeHistory := Some None;
     getBlock := None;
     Date_now := 1700000000000 |}.

(** A node whose latest block is empty: base fee 1000 wei, no gas used,
    gas limit 30 000 000. *)
Definition emptyBlockWorld : World :=
  {| gasStation := None;
     estimateFeesPerGasLegacy := None;
     estimateFeesPerGas := None;
     rpcGasPrice := Some 1000;
     getFeeHistory := Some None;
     getBlock :=
       Some {| baseFeePerGas := Some 1000;
               gasUsed := 0;
               gasLimit := 30000000 |};
     Date_now := 1700000000000 |}.

(** The Polygon gas station quoting a priority fee above its max fee. *)
Definition invertedStationWorld : World :=
  {| gasStation :=
       Some {| maxFeePerGas := parseGwei 40;
               maxPriorityFeePerGas := parseGwei 50 |};
     estimateFeesPerGasLegacy := None;
     estimateFeesPerGas := None;
     rpcGasPrice := None;
     getFeeHistory := None;
     getBlock := None;
     Date_now := 1700000000000 |}.

(** Consecutive entries of a queue are at least 1000 ms apart: at most one
    entry per second. *)
Fixpoint spaced (queue : list Entry) : Prop :=
  match queue with
  | [] => True
  | e :: rest =>
      match rest with
      | [] => True
      | next :: _ => 1000 <= timestamp next - timestamp e
      end /\ spaced rest
  end.

(** No entry of the queue is younger than [ts]. *)
Definition notAfter (queue : list Entry) (ts : Z) : Prop :=
  forall last, lastEntry queue = Some last -> timestamp last <= ts.

(** A node quoting half a gwei, 400 ms after [oneGweiWorld]. *)
Definition halfGweiWorld : World :=
  {| gasStation := None;
     estimateFeesPerGasLegacy := None;
     estimateFeesPerGas :=
       Some {| fees_gasPrice := None;
               fees_maxFeePerGas := Some 500000000;
               fees_maxPriorityFeePerGas := Some 500000000 |};
     rpcGasPrice := Some 500000000;
     getFeeHistory := Some None;
     getBlock := None;
     Date_now := 1700000000400 |}.

(** A legacy node: no EIP-1559 estimate, a gas price of 3 gwei. *)
Definition legacyWorld : World :=
  {| gasStation := None;
     estimateFeesPerGasLegacy :=
       Some {| fees_gasPrice := Some 3000000000;
               fees_maxFeePerGas := None;
               fees_maxPriorityFeePerGas := None |};
     estimateFeesPerGas := None;
     rpcGasPrice := Some 3000000000;
     getFeeHistory := None;
     getBlock := None;
     Date_now := 1700000000000 |}.

(** A node that only knows its max fee (2 gwei) and a fee history with
    rewards of 1 and 5 gwei. *)
Definition noPriorityWorld : World :=
  {| gasStation := None;
     estimateFeesPerGasLegacy := None;
     estimateFeesPerGas :=
       Some {| fees_gasPrice := None;
               fees_maxFeePerGas := Some 2000000000;
               fees_maxPriorityFeePerGas := None |};
     rpcGasPrice := None;
     getFeeHistory := Some (Some [[1000000000]; [5000000000]]);
     getBlock := None;
     Date_now := 1700000000000 |}.

(** A node whose fee estimate fails; its fee history has rewards of 1 and
    5 gwei and its latest block is exactly half full at a base fee of
    1000 wei. *)
Definition noEstimateWorld : World :=
  {| gasStation := None;
     estimateFeesPerGasLegacy := None;
     estimateFeesPerGas := None;
     rpcGasPrice := None;
     getFeeHistory := Some (Some [[1000000000]; [5000000000]]);
     getBlock :=
       Some {| baseFeePerGas := Some 1000;
               gasUsed := 15000000;
               gasLimit := 30000000 |};
     Date_now := 1700000000000 |}.

End GasPriceManager.

(** ** UnsafeValidator *)

Module UnsafeValidator.
Import viem.

(** *** Types of [@alto/types], as far as the validator reads them *)

Module V06.
Record UserOperation := {
  sender : Address;
  nonce : Z;
  initCode : Hex;
  callData : Hex;
  callGasLimit : Z;
  verificationGasLimit : Z;
  preVerificationGas : Z;
  maxFeePerGas : Z;
  maxPriorityFeePerGas : Z;
  paymasterAndData : Hex;
  signature : Hex
}.
End V06.

Module V07.
Record UserOperation := {
  sender : Address;
  nonce : Z;
  factory : option Address;
  factoryData : option Hex;
  callData : Hex;
  callGasLimit : Z;
  verificationGasLimit : Z;
  preVerificationGas : Z;
  maxFeePerGas : Z;
  maxPriorityFeePerGas : Z;
  paymaster : option Hex;
  paymasterVerificationGasLimit : option Z;
  paymasterPostOpGasLimit : option Z;
  paymasterData : option Hex;
  signature : Hex
}.
End V07.

(** The two shapes of a user operation; [isVersion06] and [isVersion07]
    of [@alto/utils] tell them apart by the fields that are present. *)
Inductive UserOperation :=
| UserOperationV06 (op : V06.UserOperation)
| UserOperationV07 (op : V07.UserOperation).

Definition isVersion06 (userOperation : UserOperation) : bool :=
  match userOperation with
  | UserOperationV06 _ => true
  | UserOperationV07 _ => false
  end.

Definition isVersion07 (userOperation : UserOperation) : bool :=
  match userOperation with
  | UserOperationV06 _ => false
  | UserOperationV07 _ => true
  end.

(** [userOperation.preVerificationGas], a field of both shapes. *)
Definition preVerificationGas (userOperation : UserOperation) : Z :=
  match userOperation with
  | UserOperationV06 op => V06.preVerificationGas op
  | UserOperationV07 op => V07.preVerificationGas op
  end.

(** JavaScript truthiness of a string: every string but the empty one. *)
Definition truthy (s : string) : bool := negb (String.eqb s EmptyString).

(** Truthiness of a string that may be [null] / [undefined]. *)
Definition truthyOpt (s : option string) : bool :=
  match s with
  | Some s' => truthy s'
  | None => false
  end.

Record StakeInfo := {
  addr : option Address;
  stake : Z;
  unstakeDelaySec : Z
}.

Record AggregatorStakeInfo := {
  aggregator_addr : Address;
  aggregator_stakeInfo : StakeInfo
}.

(** [StorageMap]: always the empty object [{}] in this validator. *)
Definition StorageMap := list (Address * Hex).

(** The v0.6 [ValidationResult] / [ValidationResultWithAggregation]
    (the latter has [aggregatorInfo]), plus [storageMap]. *)
Record ReturnInfoV06 := {
  preOpGas06 : Z;
  prefund06 : Z;
  sigFailed : bool;
  validAfter06 : Z;
  validUntil06 : Z;
  paymasterContext06 : Hex
}.

(** The arguments of the custom error the v0.6 entry point reverts
    with. *)
Record SimulatedValidationResultV06 := {
  returnInfo06 : ReturnInfoV06;
  senderInfo06 : StakeInfo;
  factoryInfo06 : StakeInfo;
  paymasterInfo06 : StakeInfo;
  aggregatorInfo06 : option AggregatorStakeInfo
}.

(** [{ ...simulationResult, storageMap: {} }] *)
Record ValidationResultV06 := {
  simulated06 : SimulatedValidationResultV06;
  storageMap06 : StorageMap
}.

(** What the v0.7 EntryPointSimulations contract returns. *)
Record SimulatedReturnInfoV07 := {
  sim_preOpGas : Z;
  sim_prefund : Z;
  accountValidationData : Z;
  paymasterValidationData : Z;
  sim_paymasterContext : Hex
}.

Record SimulatedValidationResultV07 := {
  sim_returnInfo : SimulatedReturnInfoV07;
  sim_senderInfo : StakeInfo;
  sim_factoryInfo : option StakeInfo;
  sim_paymasterInfo : option StakeInfo;
  sim_aggregatorInfo : option AggregatorStakeInfo
}.

(** [res] of [getValidationResultV07]: the simulated return info spread,
    plus the four merged fields. *)
Record ReturnInfoV07 := {
  simulated : SimulatedReturnInfoV07;
  accountSigFailed : bool;
  paymasterSigFailed : bool;
  validUntil07 : option Z;
  validAfter07 : Z
}.

Record ValidationResultV07 := {
  returnInfo07 : ReturnInfoV07;
  senderInfo07 : StakeInfo;
  factoryInfo07 : option StakeInfo;
  paymasterInfo07 : option StakeInfo;
  aggregatorInfo07 : option AggregatorStakeInfo;
  storageMap07 : StorageMap
}.

Inductive ValidationResult :=
| ResultV06 (r : ValidationResultV06)
| ResultV07 (r : ValidationResultV07).

(** [validationResult.returnInfo.prefund] *)
Definition prefund (r : ValidationResult) : Z :=
  match r with
  | ResultV06 r06 => prefund06 (returnInfo06 (simulated06 r06))
  | ResultV07 r07 => sim_prefund (simulated (returnInfo07 r07))
  end.

(** [validationResult.returnInfo.preOpGas] *)
Definition preOpGas (r : ValidationResult) : Z :=
  match r with
  | ResultV06 r06 => preOpGas06 (returnInfo06 (simulated06 r06))
  | ResultV07 r07 => sim_preOpGas (simulated (returnInfo07 r07))
  end.

(** *** Errors *)

(** The members of [ValidationErrors] that this file throws. *)
Inductive ValidationErrors :=
| InvalidSignature
| SimulateValidation
| ExpiresShortly.

(** Error messages; a template literal is a constructor that carries the
    interpolated values. *)
Inductive Message :=
| Literal (text : string)
| RevertedDuringSimulation (reason : option string)
| RevertedWithReason (data : string)
| UnexpectedInvalidResponse
| NotValidYet (validAfter now : Z)
| ExpiresTooSoon (validUntil : option Z) (now : Z)
| PreVerificationGasNotEnough (required got : Z)
| PrefundNotEnough (required got : Z).

Inductive Exception :=
| RpcError (message : Message) (code : ValidationErrors)
| Error (message : Message).

Definition Result (A : Type) : Type := Exception + A.

Definition bindErr {A B : Type} (m : Result A) (k : A -> Result B)
    : Result B :=
  match m with
  | inl e => inl e
  | inr a => k a
  end.

Definition throw {A : Type} (e : Exception) : Result A := inl e.
Definition ok {A : Type} (a : A) : Result A := inr a.

(** [isExpiresShortly r]: the call was rejected with an [RpcError] of
    code [ExpiresShortly]. *)
Definition isExpiresShortly {A : Type} (r : Result A) : bool :=
  match r with
  | inl (RpcError _ ExpiresShortly) => true
  | _ => false
  end.

(** [isSimulateValidation r]: rejected with code [SimulateValidation]. *)
Definition isSimulateValidation {A : Type} (r : Result A) : bool :=
  match r with
  | inl (RpcError _ SimulateValidation) => true
  | _ => false
  end.

Notation "'let!' x ':=' m 'in' k" := (bindErr m (fun x => k))
  (at level 10, x name, m at level 100, k at level 200).

(** *** The validator object and the outside world *)

Record Metrics := {
  userOperationsValidationSuccess : Z;
  userOperationsValidationFailure : Z
}.

Record t := {
  usingTenderly : bool;
  balanceOverrideEnabled : bool;
  disableExpirationCheck : bool;
  apiVersion : string;
  chainId : Z;
  entryPointSimulationsAddress : option Address;
  metrics : Metrics
}.

Definition set_metrics (this : t) (m : Metrics) : t :=
  {| usingTenderly := usingTenderly this;
     balanceOverrideEnabled := balanceOverrideEnabled this;
     disableExpirationCheck := disableExpirationCheck this;
     apiVersion := apiVersion this;
     chainId := chainId this;
     entryPointSimulationsAddress := entryPointSimulationsAddress this;
     metrics := m |}.

Definition orDefault (o : option bool) (d : bool) : bool :=
  match o with
  | Some b => b
  | None => d
  end.

(** [new UnsafeValidator(publicClient, logger, metrics, utilityWallet,
    apiVersion, gasPriceManager, entryPointSimulationsAddress?,
    usingTenderly = false, balanceOverrideEnabled = false,
    disableExpirationCheck = false)] *)
Definition constructor (publicClient_chain_id : Z) (apiVersion' : string)
    (entryPointSimulationsAddress' : option Address)
    (usingTenderly' balanceOverrideEnabled' disableExpirationCheck'
       : option bool) : t :=
  {| usingTenderly := orDefault usingTenderly' false;
     balanceOverrideEnabled := orDefault balanceOverrideEnabled' false;
     disableExpirationCheck := orDefault disableExpirationCheck' false;
     apiVersion := apiVersion';
     chainId := publicClient_chain_id;
     entryPointSimulationsAddress := entryPointSimulationsAddress';
     metrics := {| userOperationsValidationSuccess := 0;
                   userOperationsValidationFailure := 0 |} |}.

(** [errorResult] of the v0.6 [simulateValidation] call, as the entry
    point error schema sees it. *)
Inductive ErrorResult :=
| Unparsed (isBaseError : bool) (reason : option string)
| FailedOp (reason : string)
| ValidationResultError (args : SimulatedValidationResultV06)
| ExecutionResultError.

(** [simulateValidationResult] of the v0.7 [simulateValidation] call. *)
Inductive SimulateValidationResult :=
| failed (data : string)
| validation (data : SimulatedValidationResultV07).

(** The answers of the outside world during one [validateUserOperation]
    call. *)
Record World := {
  simulateValidationV06 : ErrorResult;
  simulateValidationV07 : SimulateValidationResult;
  (** [Date.now()], in milliseconds *)
  Date_now : Z
}.

Inductive SimulationType := forValidation | forExecution.

Inductive SimulationResult :=
| ValidationArgs (args : SimulatedValidationResultV06)
| ExecutionArgs.

Definition getSimulationResult (isVersion06' : bool)
    (errorResult : ErrorResult) (simulationType : SimulationType)
    (usingTenderly' : bool) : Result SimulationResult :=
  match errorResult with
  | Unparsed true reason =>
      throw (RpcError (RevertedDuringSimulation reason) SimulateValidation)
  | Unparsed false _ => throw (Error UnexpectedInvalidResponse)
  | FailedOp reason =>
      throw (RpcError (RevertedDuringSimulation (Some reason))
               SimulateValidation)
  | ValidationResultError args =>
      match simulationType with
      | forValidation => ok (ValidationArgs args)
      | forExecution =>
          throw (Error (Literal
            "Unexpected error - errorName is not ExecutionResult"))
      end
  | ExecutionResultError =>
      match simulationType with
      | forValidation =>
          throw (Error (Literal
            "Unexpected error - errorName is not ValidationResult or ValidationResultWithAggregation"))
      | forExecution => ok ExecutionArgs
      end
  end.

(** *** Comparisons of JavaScript numbers

    [Date.now() / 1000] is not an integer; it is kept as an exact
    rational.  For the magnitudes at hand (milliseconds since 1970,
    u48 bounds) the double nearest to [ms / 1000] lies strictly between
    the same two neighbouring integers as the rational, and so do
    [now - 5] and [now + 30]; comparing them with an integer gives the
    same answer on doubles and on rationals. *)

Definition Qgtb (a b : Q) : bool := negb (Qle_bool a b).
Definition Qltb (a b : Q) : bool := negb (Qle_bool b a).

(** *** Methods *)

Definition getValidationResultV06 (this : t) (w : World)
    (userOperation : V06.UserOperation) (entryPoint : Address)
    : Result ValidationResultV06 :=
  let errorResult := simulateValidationV06 w in
  let! simulationResult :=
    getSimulationResult (isVersion06 (UserOperationV06 userOperation))
      errorResult forValidation (usingTenderly this) in
  match simulationResult with
  | ExecutionArgs =>
      (* no [returnInfo] on such an object: a TypeError *)
      throw (Error (Literal "TypeError"))
  | ValidationArgs args =>
      let validationResult :=
        {| simulated06 := args; storageMap06 := [] |} in
      let returnInfo := returnInfo06 (simulated06 validationResult) in
      if sigFailed returnInfo then
        throw (RpcError
                 (Literal "Invalid UserOp signature or  paymaster signature")
                 InvalidSignature)
      else
        let now : Q := (inject_Z (Date_now w) / 1000)%Q in
        if Qgtb (inject_Z (validAfter06 returnInfo)) (now - 5)%Q
           && negb (disableExpirationCheck this)
        then
          throw (RpcError (Literal "User operation is not valid yet")
                   ExpiresShortly)
        else if Qltb (inject_Z (validUntil06 returnInfo)) (now + 30)%Q
                && negb (disableExpirationCheck this)
        then throw (RpcError (Literal "expires too soon") ExpiresShortly)
        else ok validationResult
  end.

Record ValidationData := {
  aggregator : string;
  validAfter : Z;
  validUntil : Z
}.

(** [None] stands for the runs that leave this model: [toHex], [pad] or
    [slice] throwing, or [parseInt] yielding NaN.  None of them happens
    on a u256 word. *)
Definition parseValidationData (validationData : Z)
    : option ValidationData :=
  let maxUint48 := 2 ^ 48 - 1 in
  let? hex := toHex validationData in
  let? data := pad hex 32 in
  let? aggregator' := slice data (32 - 20) None in
  let? validUntilHex := slice data (32 - 26) (Some (32 - 20)%nat) in
  let? validUntil0 := parseInt16 validUntilHex in
  let validUntil' :=
    if validUntil0 =? 0 then maxUint48 else validUntil0 in
  let? validAfterHex := slice data 0 (Some 6%nat) in
  let? validAfter' := parseInt16 validAfterHex in
  Some {| aggregator := aggregator';
          validAfter := validAfter';
          validUntil := validUntil' |}.

Record MergedValidationData := {
  merged_paymasterSigFailed : bool;
  merged_accountSigFailed : bool;
  merged_validAfter : Z;
  merged_validUntil : Z
}.

Definition mergeValidationData
    (accountValidationData' paymasterValidationData' : ValidationData)
    : MergedValidationData :=
  {| merged_paymasterSigFailed :=
       negb (String.eqb (aggregator paymasterValidationData') zeroAddress);
     merged_accountSigFailed :=
       negb (String.eqb (aggregator accountValidationData') zeroAddress);
     merged_validAfter :=
       Z.max (validAfter accountValidationData')
             (validAfter paymasterValidationData');
     merged_validUntil :=
       Z.min (validUntil accountValidationData')
             (validUntil paymasterValidationData') |}.

Definition mergeValidationDataValues
    (accountValidationData' paymasterValidationData' : Z)
    : option MergedValidationData :=
  let? account := parseValidationData accountValidationData' in
  let? paymaster' := parseValidationData paymasterValidationData' in
  Some (mergeValidationData account paymaster').

(** [{ ...info, addr }] *)
Definition withAddr (info : StakeInfo) (a : Address) : StakeInfo :=
  {| addr := Some a;
     stake := stake info;
     unstakeDelaySec := unstakeDelaySec info |}.

Definition getValidationResultV07 (this : t) (w : World)
    (userOperation : V07.UserOperation) (entryPoint : Address)
    : Result ValidationResultV07 :=
  if negb (truthyOpt (entryPointSimulationsAddress this)) then
    throw (Error (Literal "entryPointSimulationsAddress is not set"))
  else
    match simulateValidationV07 w with
    | failed data =>
        throw (RpcError (RevertedWithReason data) SimulateValidation)
    | validation validationResult =>
        let! mergedValidation :=
          match mergeValidationDataValues
                  (accountValidationData (sim_returnInfo validationResult))
                  (paymasterValidationData (sim_returnInfo validationResult))
          with
          | Some m => ok m
          | None => throw (Error (Literal "validationData out of range"))
          end in
        let res :=
          {| returnInfo07 :=
               {| simulated := sim_returnInfo validationResult;
                  accountSigFailed :=
                    merged_accountSigFailed mergedValidation;
                  paymasterSigFailed :=
                    merged_paymasterSigFailed mergedValidation;
                  validUntil07 := Some (merged_validUntil mergedValidation);
                  validAfter07 := merged_validAfter mergedValidation |};
             senderInfo07 :=
               withAddr (sim_senderInfo validationResult)
                        (V07.sender userOperation);
             factoryInfo07 :=
               match V07.factory userOperation,
                     sim_factoryInfo validationResult with
               | Some f, Some info =>
                   if truthy f then Some (withAddr info f) else None
               | _, _ => None
               end;
             paymasterInfo07 :=
               match V07.paymaster userOperation,
                     sim_paymasterInfo validationResult with
               | Some pm, Some info =>
                   if truthy pm then Some (withAddr info pm) else None
               | _, _ => None
               end;
             aggregatorInfo07 := sim_aggregatorInfo validationResult;
             storageMap07 := [] |} in
        if accountSigFailed (returnInfo07 res) then
          throw (RpcError (Literal "Invalid UserOp signature")
                   InvalidSignature)
        else if paymasterSigFailed (returnInfo07 res) then
          throw (RpcError (Literal "Invalid UserOp paymasterData")
                   InvalidSignature)
        else
          let now := Date_now w / 1000 in
          if validAfter07 (returnInfo07 res) >? now - 5 then
            throw (RpcError
                     (NotValidYet (validAfter07 (returnInfo07 res)) now)
                     ExpiresShortly)
          else if match validUntil07 (returnInfo07 res) with
                  | None => true
                  | Some validUntil' => validUntil' <? now + 30
                  end
          then
            throw (RpcError
                     (ExpiresTooSoon (validUntil07 (returnInfo07 res)) now)
                     ExpiresShortly)
          else ok res
    end.

Definition getValidationResult (this : t) (w : World)
    (userOperation : UserOperation) (entryPoint : Address)
    : Result ValidationResult :=
  match userOperation with
  | UserOperationV06 op =>
      let! r := getValidationResultV06 this w op entryPoint in
      ok (ResultV06 r)
  | UserOperationV07 op =>
      let! r := getValidationResultV07 this w op entryPoint in
      ok (ResultV07 r)
  end.

(** The multiplier [mul] of [validateUserOperation]. *)
Definition mul (userOperation : UserOperation) : Z :=
  let mul0 := 1 in
  let mul1 :=
    match userOperation with
    | UserOperationV06 op =>
        if truthy (V06.paymasterAndData op) then 3 else mul0
    | UserOperationV07 _ => mul0
    end in
  match userOperation with
  | UserOperationV07 op =>
      match V07.paymaster op with
      | Some pm => if String.eqb pm "0x" then 3 else mul1
      | None => mul1
      end
  | UserOperationV06 _ => mul1
  end.

Section GasHelpers.

(** [calcPreVerificationGas(publicClient, userOperation, entryPoint,
    chainId)] of [@alto/utils], not under src/. *)
Variable calcPreVerificationGas : UserOperation -> Address -> Z -> Z.

(** [calcVerificationGasAndCallGasLimit(userOperation,
    { preOpGas, paid }, chainId)] of [@alto/utils], not under src/:
    the pair [(verificationGasLimit, callGasLimit)]. *)
Variable calcVerificationGasAndCallGasLimit :
  UserOperation -> Z -> Z -> Z -> Z * Z.

Definition validatePreVerificationGas (this : t)
    (userOperation : UserOperation) (entryPoint : Address)
    : Result unit :=
  if negb (String.eqb (apiVersion this) "v1") then
    let preVerificationGas' :=
      calcPreVerificationGas userOperation entryPoint (chainId this) in
    if preVerificationGas' >? preVerificationGas userOperation then
      throw (RpcError
               (PreVerificationGasNotEnough preVerificationGas'
                  (preVerificationGas userOperation))
               SimulateValidation)
    else ok tt
  else ok tt.

(** [requiredPreFund] of [validateUserOperation]. *)
Definition requiredPreFund (this : t) (userOperation : UserOperation)
    (validationResult : ValidationResult) : Z :=
  let '(verificationGasLimit, callGasLimit) :=
    calcVerificationGasAndCallGasLimit userOperation
      (preOpGas validationResult) (prefund validationResult)
      (chainId this) in
  callGasLimit + verificationGasLimit * mul userOperation
  + preVerificationGas userOperation.

(** The body of the [try] block of [validateUserOperation]. *)
Definition validateUserOperation_try (this : t) (w : World)
    (userOperation : UserOperation) (entryPoint : Address)
    : Result ValidationResult :=
  let! validationResult :=
    getValidationResult this w userOperation entryPoint in
  if negb (String.eqb (apiVersion this) "v1") then
    let prefund' := prefund validationResult in
    let requiredPreFund' :=
      requiredPreFund this userOperation validationResult in
    if requiredPreFund' >? prefund' then
      throw (RpcError (PrefundNotEnough requiredPreFund' prefund')
               SimulateValidation)
    else ok validationResult
  else ok validationResult.

(** [validateUserOperation]: the outcome and the validator afterwards
    (one of the two metrics counters is incremented). *)
Definition validateUserOperation (this : t) (w : World)
    (userOperation : UserOperation) (entryPoint : Address)
    : Result ValidationResult * t :=
  match validateUserOperation_try this w userOperation entryPoint with
  | inr validationResult =>
      (ok validationResult,
       set_metrics this
         {| userOperationsValidationSuccess :=
              userOperationsValidationSuccess (metrics this) + 1;
            userOperationsValidationFailure :=
              userOperationsValidationFailure (metrics this) |})
  | inl e =>
      (throw e,
       set_metrics this
         {| userOperationsValidationSuccess :=
              userOperationsValidationSuccess (metrics this);
            userOperationsValidationFailure :=
              userOperationsValidationFailure (metrics this) + 1 |})
  end.

End GasHelpers.

(** *** The specification's wording *)

(** "The operation declares a paymaster" (spec 4.4, step 5): v0.6, a
    non-empty [paymasterAndData]; v0.7, a [paymaster] field that is
    present and not ["0x"]. *)
Definition declaresPaymaster (userOperation : UserOperation) : bool :=
  match userOperation with
  | UserOperationV06 op =>
      negb (String.eqb (V06.paymasterAndData op) "0x")
      && negb (String.eqb (V06.paymasterAndData op) EmptyString)
  | UserOperationV07 op =>
      match V07.paymaster op with
      | Some pm => negb (String.eqb pm "0x")
      | None => false
      end
  end.

(** [callGasLimit + m * verificationGasLimit + preVerificationGas] with
    [m = 3] when a paymaster is declared and [m = 1] otherwise. *)
Definition requiredPrefundSpec (userOperation : UserOperation)
    (verificationGasLimit callGasLimit : Z) : Z :=
  let m := if declaresPaymaster userOperation then 3 else 1 in
  callGasLimit + m * verificationGasLimit + preVerificationGas userOperation.

(** The time-window rule (spec 4.4, step 3) with
    [now = floor (Date.now() / 1000)]. *)
Definition expiresShortlySpec (validAfter' : Z) (validUntil' : option Z)
    (Date_now' : Z) : bool :=
  let now := Date_now' / 1000 in
  (validAfter' >? now - 5)
  || match validUntil' with
     | None => true
     | Some u => u <? now + 30
     end.

(** The validation-data word viewed as 32 big-endian bytes (spec 4.2):
    bytes [0..6) hold [validAfter], bytes [6..12) [validUntil], bytes
    [12..32) the aggregator. *)
Definition wordBytes (w : Z) : list Z := digitsBE 256 32 w.

(** The bytes [from..to). *)
Definition bytesRange (from to : nat) (bytes : list Z) : list Z :=
  firstn (to - from) (skipn from bytes).

(** The unsigned integer that a big-endian byte string denotes. *)
Definition bytesToZ (bytes : list Z) : Z := valueBE 256 bytes 0.

(** The bytes as a hex string: ["0x"], then two digits per byte. *)
Definition bytesToHex (bytes : list Z) : Hex :=
  String "0" (String "x"
    (hexString (flat_map (fun b => [b / 16; b mod 16]) bytes))).

(** "Unpack: read the three fields; if [validUntil == 0], substitute
    [2^48 - 1]." *)
Definition unpackSpec (w : Z) : ValidationData :=
  let bytes := wordBytes w in
  let validUntilField := bytesToZ (bytesRange 6 12 bytes) in
  {| aggregator := bytesToHex (bytesRange 12 32 bytes);
     validAfter := bytesToZ (bytesRange 0 6 bytes);
     validUntil :=
       if validUntilField =? 0 then 2 ^ 48 - 1 else validUntilField |}.

(** *** Sample operations, validators and worlds *)

Definition entryPoint06 : Address :=
  "0x5FF137D4b0FDCD49DcA30c7CF57E578a026d2789"%string.
Definition entryPoint07 : Address :=
  "0x0000000071727De22E5E9d8BAf0edAc6f37da032"%string.
Definition sampleSender : Address :=
  "0x1111111111111111111111111111111111111111"%string.
Definition samplePaymaster : Address :=
  "0x2222222222222222222222222222222222222222"%string.

(** A v0.7 operation sponsored by [samplePaymaster]. *)
Definition sponsoredOpV07 : V07.UserOperation :=
  {| V07.sender := sampleSender;
     V07.nonce := 0;
     V07.factory := None;
     V07.factoryData := None;
     V07.callData := "0x"%string;
     V07.callGasLimit := 100000;
     V07.verificationGasLimit := 100000;
     V07.preVerificationGas := 50000;
     V07.maxFeePerGas := 1000000000;
     V07.maxPriorityFeePerGas := 1000000000;
     V07.paymaster := Some samplePaymaster;
     V07.paymasterVerificationGasLimit := Some 100000;
     V07.paymasterPostOpGasLimit := Some 50000;
     V07.paymasterData := Some "0x"%string;
     V07.signature := "0x"%string |}.

(** A v0.6 operation without a paymaster ([paymasterAndData] is the
    empty byte string ["0x"]). *)
Definition plainOpV06 : V06.UserOperation :=
  {| V06.sender := sampleSender;
     V06.nonce := 0;
     V06.initCode := "0x"%string;
     V06.callData := "0x"%string;
     V06.callGasLimit := 100000;
     V06.verificationGasLimit := 100000;
     V06.preVerificationGas := 50000;
     V06.maxFeePerGas := 1000000000;
     V06.maxPriorityFeePerGas := 1000000000;
     V06.paymasterAndData := "0x"%string;
     V06.signature := "0x"%string |}.

(** Gas limits as the operation declares them. *)
Definition declaredLimits (userOperation : UserOperation)
    (preOpGas' paid chainId' : Z) : Z * Z :=
  match userOperation with
  | UserOperationV06 op => (V06.verificationGasLimit op, V06.callGasLimit op)
  | UserOperationV07 op => (V07.verificationGasLimit op, V07.callGasLimit op)
  end.

(** A pre-verification gas estimate of 60 000 for every operation. *)
Definition sixtyThousand (userOperation : UserOperation)
    (entryPoint : Address) (chainId' : Z) : Z := 60000.

Definition noStake : StakeInfo :=
  {| addr := None; stake := 0; unstakeDelaySec := 0 |}.

(** The v0.7 simulation answering with the given prefund and packed
    validation data words. *)
Definition simulatedV07 (prefund' account paymaster' : Z)
    : SimulateValidationResult :=
  validation
    {| sim_returnInfo :=
         {| sim_preOpGas := 50000;
            sim_prefund := prefund';
            accountValidationData := account;
            paymasterValidationData := paymaster';
            sim_paymasterContext := "0x"%string |};
       sim_senderInfo := noStake;
       sim_factoryInfo := None;
       sim_paymasterInfo := Some noStake;
       sim_aggregatorInfo := None |}.

(** The v0.6 simulation reverting with a [ValidationResult] that has the
    given prefund and validity window. *)
Definition simulatedV06 (prefund' validAfter' validUntil' : Z)
    : ErrorResult :=
  ValidationResultError
    {| returnInfo06 :=
         {| preOpGas06 := 50000;
            prefund06 := prefund';
            sigFailed := false;
            validAfter06 := validAfter';
            validUntil06 := validUntil';
            paymasterContext06 := "0x"%string |};
       senderInfo06 := noStake;
       factoryInfo06 := noStake;
       paymasterInfo06 := noStake;
       aggregatorInfo06 := None |}.

Definition worldOf (v06 : ErrorResult) (v07 : SimulateValidationResult)
    (Date_now' : Z) : World :=
  {| simulateValidationV06 := v06;
     simulateValidationV07 := v07;
     Date_now := Date_now' |}.

(** A validator on mainnet with API version ["v2"]. *)
Definition validatorV2 (disableExpirationCheck' : bool) : t :=
  constructor chains.mainnet "v2" (Some entryPoint07) None None
    (Some disableExpirationCheck').

(** The packed word [(aggregator = 0, validUntil, validAfter)]. *)
Definition packWindow (validAfter' validUntil' : Z) : Z :=
  validAfter' * 2 ^ 208 + validUntil' * 2 ^ 160.

(** *** The fields of a packed word, as numbers *)

(** The low 160 bits: the aggregator. *)
Definition aggregatorBits (w : Z) : Z := w mod 2 ^ 160.

(** The next 48 bits: [validUntil] as packed. *)
Definition validUntilBits (w : Z) : Z := (w / 2 ^ 160) mod 2 ^ 48.

(** The top 48 bits: [validAfter]. *)
Definition validAfterBits (w : Z) : Z := w / 2 ^ 208.

(** A packed [validUntil] of zero stands for "never expires". *)
Definition neverIfZero (validUntil' : Z) : Z :=
  if validUntil' =? 0 then 2 ^ 48 - 1 else validUntil'.

End UnsafeValidator.

(** * Properties of the gas price manager *)

Section GasPriceManagerFacts.
Import GasPriceManager.

Lemma maxBigInt_max (a b : Z) : maxBigInt a b = Z.max a b.
Proof. unfold maxBigInt. destruct (Z.gtb_spec a b); lia. Qed.

Lemma minBigInt_min (a b : Z) : minBigInt a b = Z.min a b.
Proof. unfold minBigInt. destruct (Z.ltb_spec a b); lia. Qed.

Lemma getBumpAmount_pos (chainId : Z) : 0 < getBumpAmount chainId.
Proof.
  unfold getBumpAmount.
  repeat match goal with
         | |- context [if ?b then _ else _] => destruct b
         end; lia.
Qed.

(** [bumpTheGasPrice] never puts the priority fee above the max fee. *)
Lemma bumpTheGasPrice_ordered (this : t) (p : GasPriceParameters) :
  maxPriorityFeePerGas (bumpTheGasPrice this p)
  <= maxFeePerGas (bumpTheGasPrice this p).
Proof.
  unfold bumpTheGasPrice.
  pose proof (getBumpAmount_pos (chain_id this)) as Hb.
  set (prio := maxBigInt (maxPriorityFeePerGas p) _).
  set (fee := maxBigInt (maxFeePerGas p) prio).
  assert (Hle : prio <= fee) by (subst fee; rewrite maxBigInt_max; lia).
  destruct (_ || _ || _); cbn [maxFeePerGas maxPriorityFeePerGas]; [lia|].
  apply Z.quot_le_mono; [lia|].
  apply Z.mul_le_mono_nonneg_r; lia.
Qed.

(** Every return path of [getGasPrice] hands out a value produced by
    [bumpTheGasPrice]. *)
Lemma getGasPrice_returns_bumped (this this' : t) (w : World)
    (gp : GasPriceParameters) :
  getGasPrice this w = Some (gp, this') ->
  exists p, gp = bumpTheGasPrice this p.
Proof.
  unfold getGasPrice, getPolygonGasPriceParameters.
  destruct (_ || _); [destruct (gasStation w) as [est|]|];
    try (intros [= <- _]; eexists; reflexivity);
    (destruct (noEip1559Support this);
     [destruct (getNoEip1559SupportGasPrice w) | destruct (estimateGasPrice w)];
     cbn [bindOpt]; try discriminate;
     intros [= <- _]; eexists; reflexivity).
Qed.

(** ** The rolling-minimum queues *)

Lemma lastEntry_nonempty (queue : list Entry) (e : Entry) :
  lastEntry queue = Some e -> queue <> [].
Proof. destruct queue; [discriminate | congruence]. Qed.

Lemma lastEntry_none (queue : list Entry) :
  lastEntry queue = None -> queue = [].
Proof.
  induction queue as [|a [|b rest] IH]; cbn; try congruence.
  intros H. apply IH in H. discriminate.
Qed.

Lemma overwriteLast_length (queue : list Entry) (e : Entry) :
  queue <> [] ->
  List.length (overwriteLast queue e) = List.length queue.
Proof.
  unfold overwriteLast. intros Hne.
  induction queue as [|a [|b rest] IH]; [congruence | reflexivity |].
  change (removelast (a :: b :: rest)) with (a :: removelast (b :: rest)).
  cbn [app List.length]. f_equal. apply IH. discriminate.
Qed.

(** Pushing behind the capacity guard keeps the queue within
    [max W 1] entries. *)
Lemma guarded_push_length (W : Z) (queue : list Entry) (e : Entry) :
  Z.of_nat (List.length queue) <= Z.max W 1 ->
  Z.of_nat (List.length
              (push (if Z.of_nat (List.length queue) >=? W
                     then shift queue else queue) e))
  <= Z.max W 1.
Proof.
  intros Hlen. unfold push, shift.
  destruct (Z.geb_spec (Z.of_nat (List.length queue)) W);
    rewrite length_app; destruct queue; cbn [tl List.length] in *; lia.
Qed.

Ltac save_cases this :=
  let last := fresh "last" in
  let E := fresh "E" in
  match goal with
  | |- context [lastEntry ?q] => destruct (lastEntry q) as [last|] eqn:E
  end;
  [ destruct (_ - timestamp last >=? 1000) eqn:?;
    [ | destruct (_ <? price last) eqn:? ] | ].

Lemma saveMaxFeePerGas_bounded (this : t) (gasPrice ts : Z) :
  queuesBounded this -> queuesBounded (saveMaxFeePerGas this gasPrice ts).
Proof.
  intros [Hf Hp]. unfold saveMaxFeePerGas.
  save_cases this; split; cbn; trivial;
    try (apply guarded_push_length; exact Hf).
  rewrite overwriteLast_length by (eapply lastEntry_nonempty; eassumption).
  exact Hf.
Qed.

Lemma saveMaxPriorityFeePerGas_bounded (this : t) (gasPrice ts : Z) :
  queuesBounded this ->
  queuesBounded (saveMaxPriorityFeePerGas this gasPrice ts).
Proof.
  intros [Hf Hp]. unfold saveMaxPriorityFeePerGas.
  save_cases this; split; cbn; trivial;
    try (apply guarded_push_length; exact Hp).
  rewrite overwriteLast_length by (eapply lastEntry_nonempty; eassumption).
  exact Hp.
Qed.

Lemma saveGasPrice_bounded (this : t) (gp : GasPriceParameters) (ts : Z) :
  queuesBounded this -> queuesBounded (saveGasPrice this gp ts).
Proof.
  intros H. unfold saveGasPrice.
  now apply saveMaxPriorityFeePerGas_bounded, saveMaxFeePerGas_bounded.
Qed.

Lemma saveMaxFeePerGas_maxQueueSize (this : t) (gasPrice ts : Z) :
  maxQueueSize (saveMaxFeePerGas this gasPrice ts) = maxQueueSize this.
Proof. unfold saveMaxFeePerGas. save_cases this; reflexivity. Qed.

Lemma saveMaxPriorityFeePerGas_maxQueueSize (this : t) (gasPrice ts : Z) :
  maxQueueSize (saveMaxPriorityFeePerGas this gasPrice ts)
  = maxQueueSize this.
Proof. unfold saveMaxPriorityFeePerGas. save_cases this; reflexivity. Qed.

Lemma saveGasPrice_maxQueueSize (this : t) (gp : GasPriceParameters)
    (ts : Z) :
  maxQueueSize (saveGasPrice this gp ts) = maxQueueSize this.
Proof.
  unfold saveGasPrice.
  now rewrite saveMaxPriorityFeePerGas_maxQueueSize,
              saveMaxFeePerGas_maxQueueSize.
Qed.

(** [getGasPrice] changes the manager only through [saveGasPrice]. *)
Lemma getGasPrice_saves (this this' : t) (w : World)
    (gp : GasPriceParameters) :
  getGasPrice this w = Some (gp, this') ->
  exists recorded, this' = saveGasPrice this recorded (Date_now w).
Proof.
  unfold getGasPrice, getPolygonGasPriceParameters.
  destruct (_ || _); [destruct (gasStation w) as [est|]|];
    try (intros [= _ <-]; eexists; reflexivity);
    (destruct (noEip1559Support this);
     [destruct (getNoEip1559SupportGasPrice w) | destruct (estimateGasPrice w)];
     cbn [bindOpt]; try discriminate;
     intros [= _ <-]; eexists; reflexivity).
Qed.

Lemma getGasPrice_bounded (this this' : t) (w : World)
    (gp : GasPriceParameters) :
  getGasPrice this w = Some (gp, this') ->
  queuesBounded this ->
  queuesBounded this' /\ maxQueueSize this' = maxQueueSize this.
Proof.
  intros Hget Hb. apply getGasPrice_saves in Hget as [recorded ->].
  split; [now apply saveGasPrice_bounded | apply saveGasPrice_maxQueueSize].
Qed.

Lemma getMinMaxFeePerGas_bounded (this this' : t) (w : World) (m : Z) :
  getMinMaxFeePerGas this w = Some (m, this') ->
  queuesBounded this ->
  queuesBounded this' /\ maxQueueSize this' = maxQueueSize this.
Proof.
  unfold getMinMaxFeePerGas. intros H Hb.
  destruct (queueMaxFeePerGas this) eqn:Eq.
  - destruct (getGasPrice this w) as [[gp st]|] eqn:Eg;
      cbn [bindOpt snd] in H; [|discriminate].
    destruct (queueMinimum (queueMaxFeePerGas st));
      cbn [bindOpt] in H; [|discriminate].
    injection H as _ <-. eapply getGasPrice_bounded; eassumption.
  - cbn [bindOpt] in H.
    destruct (queueMinimum (queueMaxFeePerGas this));
      cbn [bindOpt] in H; [|discriminate].
    injection H as _ <-. now split.
Qed.

Lemma getMinMaxPriorityFeePerGas_bounded (this this' : t) (w : World)
    (m : Z) :
  getMinMaxPriorityFeePerGas this w = Some (m, this') ->
  queuesBounded this ->
  queuesBounded this' /\ maxQueueSize this' = maxQueueSize this.
Proof.
  unfold getMinMaxPriorityFeePerGas. intros H Hb.
  destruct (queueMaxPriorityFeePerGas this) eqn:Eq.
  - destruct (getGasPrice this w) as [[gp st]|] eqn:Eg;
      cbn [bindOpt snd] in H; [|discriminate].
    destruct (queueMinimum (queueMaxPriorityFeePerGas st));
      cbn [bindOpt] in H; [|discriminate].
    injection H as _ <-. eapply getGasPrice_bounded; eassumption.
  - cbn [bindOpt] in H.
    destruct (queueMinimum (queueMaxPriorityFeePerGas this));
      cbn [bindOpt] in H; [|discriminate].
    injection H as _ <-. now split.
Qed.

Lemma validateGasPrice_bounded (this this' : t) (w : World)
    (gasPrice : GasPriceParameters) (v : GasPriceVerdict) :
  validateGasPrice this w gasPrice = Some (v, this') ->
  queuesBounded this ->
  queuesBounded this' /\ maxQueueSize this' = maxQueueSize this.
Proof.
  unfold validateGasPrice. intros H Hb.
  destruct (getMinMaxFeePerGas this w) as [[m1 st1]|] eqn:E1;
    cbn [bindOpt] in H; [|discriminate].
  destruct (getMinMaxPriorityFeePerGas st1 w) as [[m2 st2]|] eqn:E2;
    cbn [bindOpt] in H; [|discriminate].
  destruct (getMinMaxFeePerGas_bounded _ _ _ _ E1 Hb) as [Hb1 Hq1].
  destruct (getMinMaxPriorityFeePerGas_bounded _ _ _ _ E2 Hb1) as [Hb2 Hq2].
  assert (st2 = this') as <-.
  { destruct (_ <? m1); [|destruct (_ <? m2)]; congruence. }
  split; [exact Hb2 | congruence].
Qed.

Lemma reachable_bounded (chain : Z) (noEip1559 : bool) (W : option Z)
    (this : t) :
  reachable chain noEip1559 W this ->
  queuesBounded this
  /\ maxQueueSize this = match W with Some w => w | None => 10 end.
Proof.
  induction 1 as [|this this' w gp _ [IHb IHq] Hget
                   |this this' w gasPrice v _ [IHb IHq] Hval].
  - split; [split; cbn; lia | reflexivity].
  - destruct (getGasPrice_bounded _ _ _ _ Hget IHb). split; congruence.
  - destruct (validateGasPrice_bounded _ _ _ _ _ Hval IHb).
    split; congruence.
Qed.

Lemma saveMaxFeePerGas_rule (this : t) (gasPrice ts : Z) :
  followsInsertionRule (maxQueueSize this) (queueMaxFeePerGas this)
    gasPrice ts (queueMaxFeePerGas (saveMaxFeePerGas this gasPrice ts)).
Proof.
  unfold followsInsertionRule, saveMaxFeePerGas, push, shift.
  save_cases this; cbn [queueMaxFeePerGas set_queueMaxFeePerGas].
  - repeat split; try lia.
    + intros Hcap. destruct (Z.geb_spec (Z.of_nat (List.length
        (queueMaxFeePerGas this))) (maxQueueSize this)); [reflexivity|lia].
    + intros Hcap. destruct (Z.geb_spec (Z.of_nat (List.length
        (queueMaxFeePerGas this))) (maxQueueSize this)); [lia|reflexivity].
  - repeat split; lia.
  - repeat split; lia.
  - apply lastEntry_none in E. rewrite E. cbn.
    destruct (_ >=? _); reflexivity.
Qed.

Lemma saveMaxPriorityFeePerGas_rule (this : t) (gasPrice ts : Z) :
  followsInsertionRule (maxQueueSize this) (queueMaxPriorityFeePerGas this)
    gasPrice ts
    (queueMaxPriorityFeePerGas (saveMaxPriorityFeePerGas this gasPrice ts)).
Proof.
  unfold followsInsertionRule, saveMaxPriorityFeePerGas, push, shift.
  save_cases this;
    cbn [queueMaxPriorityFeePerGas set_queueMaxPriorityFeePerGas].
  - repeat split; try lia.
    + intros Hcap. destruct (Z.geb_spec (Z.of_nat (List.length
        (queueMaxPriorityFeePerGas this))) (maxQueueSize this));
        [reflexivity|lia].
    + intros Hcap. destruct (Z.geb_spec (Z.of_nat (List.length
        (queueMaxPriorityFeePerGas this))) (maxQueueSize this));
        [lia|reflexivity].
  - repeat split; lia.
  - repeat split; lia.
  - apply lastEntry_none in E. rewrite E. cbn.
    destruct (_ >=? _); reflexivity.
Qed.

(** ** Next base-fee projection *)

(** With a known, non-zero base fee the projection depends on the block
    alone. *)
Lemma getNextBaseFee_block (w : World) (base used limit : Z) :
  getBlock w = Some {| baseFeePerGas := Some base;
                       gasUsed := used; gasLimit := limit |} ->
  base <> 0 ->
  limit ÷ 2 <> 0 ->
  getNextBaseFee w =
    Some (if used =? limit ÷ 2 then base
          else if used >? limit ÷ 2
          then base + Z.max (base * (used - limit ÷ 2) ÷ (limit ÷ 2) ÷ 8) 1
          else base + base * (limit ÷ 2 - used) ÷ (limit ÷ 2) ÷ 8).
Proof.
  intros Hb Hbase Htarget. unfold getNextBaseFee, bigDiv.
  rewrite Hb. cbn [bindOpt baseFeePerGas gasUsed gasLimit].
  destruct (Z.eqb_spec base 0); [contradiction|]. cbn [bindOpt].
  destruct (Z.eqb_spec (limit ÷ 2) 0); [contradiction|].
  destruct (used =? limit ÷ 2); [reflexivity|].
  destruct (used >? limit ÷ 2); cbn [bindOpt].
  - now rewrite maxBigInt_max.
  - f_equal.
    replace (base * (used - limit ÷ 2)) with (- (base * (limit ÷ 2 - used)))
      by ring.
    rewrite !Z.quot_opp_l by lia. ring.
Qed.

(** At and above the target the code follows the specification. *)
Lemma getNextBaseFee_agrees_from_target (w : World) (base used limit : Z) :
  getBlock w = Some {| baseFeePerGas := Some base;
                       gasUsed := used; gasLimit := limit |} ->
  base <> 0 ->
  limit ÷ 2 <> 0 ->
  limit ÷ 2 <= used ->
  getNextBaseFee w = Some (nextBaseFeeSpec base used limit).
Proof.
  intros Hb Hbase Htarget Hge.
  rewrite (getNextBaseFee_block w base used limit) by assumption.
  unfold nextBaseFeeSpec.
  destruct (Z.eqb_spec used (limit ÷ 2)); [reflexivity|].
  destruct (Z.gtb_spec used (limit ÷ 2)); [reflexivity|lia].
Qed.

(** Below the target the code adds the delta that the specification
    subtracts: the projected fee is never below the current base fee. *)
Lemma getNextBaseFee_below_target (w : World) (base used limit : Z) :
  getBlock w = Some {| baseFeePerGas := Some base;
                       gasUsed := used; gasLimit := limit |} ->
  0 < base ->
  0 <= used < limit ÷ 2 ->
  exists delta,
    0 <= delta
    /\ getNextBaseFee w = Some (base + delta)
    /\ nextBaseFeeSpec base used limit = base - delta.
Proof.
  intros Hb Hbase Hlt.
  exists (base * (limit ÷ 2 - used) ÷ (limit ÷ 2) ÷ 8).
  split; [|split].
  - apply Z.quot_pos; [|lia]. apply Z.quot_pos; [|lia].
    apply Z.mul_nonneg_nonneg; lia.
  - rewrite (getNextBaseFee_block w base used limit) by (assumption || lia).
    destruct (Z.eqb_spec used (limit ÷ 2)); [lia|].
    destruct (Z.gtb_spec used (limit ÷ 2)); [lia|reflexivity].
  - unfold nextBaseFeeSpec.
    destruct (Z.eqb_spec used (limit ÷ 2)); [lia|].
    destruct (Z.gtb_spec used (limit ÷ 2)); [lia|reflexivity].
Qed.

(** C5 (the code departs from the claim): for an empty latest block
    (base fee 1000, gas used 0, gas limit 30 000 000, so target
    15 000 000) [getNextBaseFee] returns 1125, above the base fee, where
    the claimed projection [base - base * (target - gasUsed) / target / 8]
    is 875. *)
Theorem getNextBaseFee_empty_block_raises :
  getNextBaseFee emptyBlockWorld = Some 1125
  /\ nextBaseFeeSpec 1000 0 30000000 = 875.
Proof. split; reflexivity. Qed.

(** ** Fees handed out by [getGasPrice] *)

(** C4 (the code departs from the claim): on DFK, whose floor is 5 gwei
    for both fees, a node quoting 1 gwei makes [getGasPrice] return
    1.11 gwei for both fees, below the floor; the floored value is only
    written to the two queues. *)
Theorem getGasPrice_dfk_returns_below_floor :
  getGasPrice (constructor chains.dfk false None) oneGweiWorld
  = Some ({| maxFeePerGas := 1110000000;
             maxPriorityFeePerGas := 1110000000 |},
          {| chain_id := chains.dfk;
             noEip1559Support := false;
             queueMaxFeePerGas :=
               [{| price := 5000000000; timestamp := 1700000000000 |}];
             queueMaxPriorityFeePerGas :=
               [{| price := 5000000000; timestamp := 1700000000000 |}];
             maxQueueSize := 10 |})
  /\ 1110000000 < 5000000000.
Proof. split; reflexivity. Qed.

(** The fees [getGasPrice] has just returned on DFK are refused by
    [validateGasPrice] of the same manager. *)
Lemma dfk_quote_refused_by_validateGasPrice :
  exists gp this',
    getGasPrice (constructor chains.dfk false None) oneGweiWorld
    = Some (gp, this')
    /\ validateGasPrice this' oneGweiWorld gp
       = Some (MaxFeePerGasTooLow 5000000000 1110000000, this').
Proof. do 2 eexists. split; reflexivity. Qed.

(** C10: every [GasPriceParameters] returned by [getGasPrice] has
    [maxFeePerGas >= maxPriorityFeePerGas]; it is the result of
    [bumpTheGasPrice], and on the Celo chains both fees are equal. *)
Theorem getGasPrice_maxFee_ge_maxPriorityFee (this this' : t) (w : World)
    (gp : GasPriceParameters) :
  getGasPrice this w = Some (gp, this') ->
  maxPriorityFeePerGas gp <= maxFeePerGas gp
  /\ (chain_id this = chains.celo
      \/ chain_id this = chains.celoAlfajores
      \/ chain_id this = chains.celoCannoli ->
      maxFeePerGas gp = maxPriorityFeePerGas gp).
Proof.
  intros Hget. apply getGasPrice_returns_bumped in Hget as [p ->].
  split; [apply bumpTheGasPrice_ordered|].
  intros Hcelo. unfold bumpTheGasPrice.
  assert ((chain_id this =? chains.celo)
          || (chain_id this =? chains.celoAlfajores)
          || (chain_id this =? chains.celoCannoli) = true) as ->.
  { destruct Hcelo as [-> | [-> | ->]]; reflexivity. }
  reflexivity.
Qed.

Lemma getGasPrice_maxFee_ge_maxPriorityFee_witness :
  getGasPrice (constructor chains.polygon false None) invertedStationWorld
  = Some ({| maxFeePerGas := 50000000000;
             maxPriorityFeePerGas := 50000000000 |},
          saveGasPrice (constructor chains.polygon false None)
            {| maxFeePerGas := 50000000000;
               maxPriorityFeePerGas := 50000000000 |} 1700000000000)
  /\ 50000000000 <= 50000000000.
Proof.
  split; [reflexivity|].
  apply (getGasPrice_maxFee_ge_maxPriorityFee
           (constructor chains.polygon false None)
           (saveGasPrice (constructor chains.polygon false None)
              {| maxFeePerGas := 50000000000;
                 maxPriorityFeePerGas := 50000000000 |} 1700000000000)
           invertedStationWorld
           {| maxFeePerGas := 50000000000;
              maxPriorityFeePerGas := 50000000000 |}).
  reflexivity.
Defined.

(** C9, as amended: in every manager that can exist at run time each of
    the two queues holds at most [max W 1] entries, hence at most
    [W = gasPriceTimeValidityInSeconds] (default 10) whenever [W >= 1];
    and every insertion into either queue follows the rule: push when
    the queue is empty or the new timestamp is at least 1000 ms after
    the tail's (dropping the front entry first when the queue is at
    capacity), otherwise overwrite the tail when the new price is
    strictly lower, otherwise leave the queue as it is. *)
Theorem queues_bounded_and_insertion_rule (chain : Z) (noEip1559 : bool)
    (W : option Z) (this : t) (gasPrice ts : Z) :
  reachable chain noEip1559 W this ->
  (maxQueueSize this = match W with Some w => w | None => 10 end
   /\ Z.of_nat (List.length (queueMaxFeePerGas this))
      <= Z.max (maxQueueSize this) 1
   /\ Z.of_nat (List.length (queueMaxPriorityFeePerGas this))
      <= Z.max (maxQueueSize this) 1)
  /\ followsInsertionRule (maxQueueSize this) (queueMaxFeePerGas this)
       gasPrice ts (queueMaxFeePerGas (saveMaxFeePerGas this gasPrice ts))
  /\ followsInsertionRule (maxQueueSize this)
       (queueMaxPriorityFeePerGas this) gasPrice ts
       (queueMaxPriorityFeePerGas
          (saveMaxPriorityFeePerGas this gasPrice ts)).
Proof.
  intros Hreach.
  destruct (reachable_bounded _ _ _ _ Hreach) as [[Hf Hp] Hw].
  split; [now repeat split|].
  split; [apply saveMaxFeePerGas_rule | apply saveMaxPriorityFeePerGas_rule].
Qed.

Lemma queues_bounded_and_insertion_rule_witness :
  exists gp this',
    getGasPrice (constructor chains.mainnet false None) oneGweiWorld
    = Some (gp, this')
    /\ Z.of_nat (List.length (queueMaxFeePerGas this'))
       <= Z.max (maxQueueSize this') 1.
Proof.
  do 2 eexists. split; [reflexivity|].
  refine (proj1 (proj2 (proj1
            (queues_bounded_and_insertion_rule chains.mainnet false None
               _ 7 0
               (reach_getGasPrice _ _ _ _ _ oneGweiWorld _
                  (reach_constructor _ _ _) _))))).
  reflexivity.
Defined.

(** Scenario S5 of the specification: 10 gwei at 0 ms, 8 gwei at 500 ms
    (overwrites the tail), 12 gwei at 1500 ms (pushed).  The minimum is
    8 gwei; 7 gwei is refused and 8 gwei accepted. *)
Lemma rolling_minimum_scenario :
  let gwei n := {| maxFeePerGas := parseGwei n;
                   maxPriorityFeePerGas := parseGwei n |} in
  let this :=
    saveGasPrice
      (saveGasPrice
         (saveGasPrice (constructor chains.mainnet false None) (gwei 10) 0)
         (gwei 8) 500)
      (gwei 12) 1500 in
  queueMaxFeePerGas this
  = [{| price := parseGwei 8; timestamp := 500 |};
     {| price := parseGwei 12; timestamp := 1500 |}]
  /\ validateGasPrice this oneGweiWorld (gwei 7)
     = Some (MaxFeePerGasTooLow (parseGwei 8) (parseGwei 7), this)
  /\ validateGasPrice this oneGweiWorld (gwei 8) = Some (Accepted, this).
Proof. repeat split. Qed.

(** C9 as stated fails for [W = 0]: after one [getGasPrice] call each
    queue of a manager built with [gasPriceTimeValidityInSeconds = 0]
    holds one entry. *)
Lemma queue_exceeds_zero_capacity :
  exists gp this',
    getGasPrice (constructor chains.mainnet false (Some 0)) oneGweiWorld
    = Some (gp, this')
    /\ maxQueueSize this' = 0
    /\ List.length (queueMaxFeePerGas this') = 1%nat
    /\ List.length (queueMaxPriorityFeePerGas this') = 1%nat
    /\ ~ Z.of_nat (List.length (queueMaxFeePerGas this'))
         <= maxQueueSize this'.
Proof.
  do 2 eexists. split; [reflexivity|]. cbn. repeat split. lia.
Qed.

End GasPriceManagerFacts.

(** * Big-endian digits and hex strings *)

Section BigEndianDigits.

Variable base : Z.
Hypothesis base_pos : 0 < base.

Lemma digitsBE_length (width : nat) (n : Z) :
  List.length (digitsBE base width n) = width.
Proof.
  revert n. induction width as [|width IH]; intros n; cbn; [reflexivity|].
  rewrite length_app, IH. cbn. lia.
Qed.

(** The [i + j] digits of [n] are the [i] digits of [n / base^j] followed
    by the [j] digits of [n]. *)
Lemma digitsBE_app (i j : nat) (n : Z) :
  digitsBE base (i + j) n
  = digitsBE base i (n / base ^ Z.of_nat j) ++ digitsBE base j n.
Proof.
  revert n. induction j as [|j IH]; intros n.
  - rewrite Nat.add_0_r. cbn [digitsBE Z.of_nat].
    now rewrite Z.pow_0_r, Z.div_1_r, app_nil_r.
  - rewrite Nat.add_succ_r. cbn [digitsBE].
    rewrite IH, <- app_assoc. do 2 f_equal.
    rewrite Nat2Z.inj_succ, Z.pow_succ_r by lia.
    rewrite Z.div_div by (try apply Z.pow_pos_nonneg; lia).
    reflexivity.
Qed.

Lemma firstn_digitsBE (i j : nat) (n : Z) :
  firstn i (digitsBE base (i + j) n)
  = digitsBE base i (n / base ^ Z.of_nat j).
Proof.
  rewrite digitsBE_app, firstn_app, digitsBE_length, Nat.sub_diag.
  rewrite firstn_all2 by (rewrite digitsBE_length; lia).
  cbn. apply app_nil_r.
Qed.

Lemma skipn_digitsBE (i j : nat) (n : Z) :
  skipn i (digitsBE base (i + j) n) = digitsBE base j n.
Proof.
  rewrite digitsBE_app, skipn_app, digitsBE_length, Nat.sub_diag.
  rewrite skipn_all2 by (rewrite digitsBE_length; lia).
  reflexivity.
Qed.

Lemma digitsBE_slice (i j k : nat) (n : Z) :
  firstn j (skipn i (digitsBE base (i + j + k) n))
  = digitsBE base j (n / base ^ Z.of_nat k).
Proof.
  rewrite <- Nat.add_assoc, skipn_digitsBE. apply firstn_digitsBE.
Qed.

Lemma valueBE_app (l1 l2 : list Z) (acc : Z) :
  valueBE base (l1 ++ l2) acc = valueBE base l2 (valueBE base l1 acc).
Proof.
  revert acc. induction l1 as [|d l1 IH]; intros acc; cbn; [reflexivity|].
  apply IH.
Qed.

(** Reading the [width] digits of [n] back gives [n mod base^width]. *)
Lemma valueBE_digitsBE (width : nat) (n acc : Z) :
  valueBE base (digitsBE base width n) acc
  = acc * base ^ Z.of_nat width + n mod base ^ Z.of_nat width.
Proof.
  revert n acc. induction width as [|width IH]; intros n acc.
  - cbn. rewrite Z.mod_1_r. lia.
  - cbn [digitsBE]. rewrite valueBE_app, IH. cbn [valueBE].
    rewrite Nat2Z.inj_succ, Z.pow_succ_r by lia.
    rewrite (Z.rem_mul_r n base (base ^ Z.of_nat width))
      by (try apply Z.pow_pos_nonneg; lia).
    ring.
Qed.

Lemma digitsBE_range (width : nat) (n : Z) :
  Forall (fun d => 0 <= d < base) (digitsBE base width n).
Proof.
  revert n. induction width as [|width IH]; intros n; cbn; [constructor|].
  apply Forall_app. split; [apply IH|].
  constructor; [|constructor]. apply Z.mod_pos_bound, base_pos.
Qed.

Lemma digitsBE_zero (width : nat) :
  digitsBE base width 0 = repeat 0 width.
Proof.
  induction width as [|width IH]; cbn; [reflexivity|].
  rewrite IH. symmetry. apply (repeat_cons width 0).
Qed.

(** Only the residue modulo [base^width] matters. *)
Lemma digitsBE_mod (width : nat) (n : Z) :
  digitsBE base width (n mod base ^ Z.of_nat width) = digitsBE base width n.
Proof.
  revert n. induction width as [|width IH]; intros n; [reflexivity|].
  cbn [digitsBE]. rewrite Nat2Z.inj_succ, Z.pow_succ_r by lia.
  assert (0 < base ^ Z.of_nat width) as Hpow
    by (apply Z.pow_pos_nonneg; lia).
  rewrite (Z.rem_mul_r n base (base ^ Z.of_nat width)) by lia.
  f_equal.
  - rewrite <- (IH (n / base)). f_equal.
    rewrite (Z.mul_comm base), Z.div_add by lia.
    rewrite (Z.div_small (n mod base)) by (apply Z.mod_pos_bound; lia).
    reflexivity.
  - f_equal.
    rewrite (Z.mul_comm base), Z.mod_add by lia.
    apply Z.mod_mod. lia.
Qed.

End BigEndianDigits.

Section HexStrings.
Import viem.

Lemma str_app_nil_r (s : string) : (s ++ EmptyString)%string = s.
Proof. induction s as [|c s IH]; cbn; [reflexivity | now rewrite IH]. Qed.

Lemma str_app_assoc (a b c : string) :
  ((a ++ b) ++ c)%string = (a ++ (b ++ c))%string.
Proof. induction a as [|x a IH]; cbn; [reflexivity | now rewrite IH]. Qed.

Lemma str_length_app (a b : string) :
  String.length (a ++ b) = (String.length a + String.length b)%nat.
Proof. induction a as [|x a IH]; cbn; [reflexivity | now rewrite IH]. Qed.

Lemma string_of_list_ascii_app (l1 l2 : list ascii) :
  string_of_list_ascii (l1 ++ l2)
  = (string_of_list_ascii l1 ++ string_of_list_ascii l2)%string.
Proof. induction l1 as [|c l1 IH]; cbn; [reflexivity | now rewrite IH]. Qed.

Lemma string_of_list_ascii_length (l : list ascii) :
  String.length (string_of_list_ascii l) = List.length l.
Proof. induction l as [|c l IH]; cbn; [reflexivity | now rewrite IH]. Qed.

Lemma substring_string_of_list_ascii (i j : nat) (l : list ascii) :
  substring i j (string_of_list_ascii l)
  = string_of_list_ascii (firstn j (skipn i l)).
Proof.
  revert i j. induction l as [|c l IH]; intros i j.
  - destruct i, j; reflexivity.
  - destruct i as [|i].
    + destruct j as [|j]; cbn; [reflexivity|].
      f_equal. apply (IH 0%nat j).
    + cbn. apply IH.
Qed.

Lemma hexString_app (l1 l2 : list Z) :
  hexString (l1 ++ l2) = (hexString l1 ++ hexString l2)%string.
Proof. unfold hexString. now rewrite map_app, string_of_list_ascii_app. Qed.

Lemma hexString_length (l : list Z) :
  String.length (hexString l) = List.length l.
Proof.
  unfold hexString. now rewrite string_of_list_ascii_length, length_map.
Qed.

Lemma substring_hexString (i j : nat) (l : list Z) :
  substring i j (hexString l) = hexString (firstn j (skipn i l)).
Proof.
  unfold hexString.
  now rewrite substring_string_of_list_ascii, skipn_map, firstn_map.
Qed.

Lemma hexString_zeros (n : nat) : hexString (repeat 0 n) = zeros n.
Proof.
  induction n as [|n IH]; [reflexivity|].
  cbn [repeat zeros]. rewrite <- IH. reflexivity.
Qed.

Lemma zeros_snoc (n : nat) :
  (zeros n ++ String "0" EmptyString)%string = zeros (S n).
Proof. induction n as [|n IH]; cbn; [reflexivity | now rewrite IH]. Qed.

Lemma ascii_to_digit_hexDigit (d : Z) :
  0 <= d < 16 ->
  HexString.ascii_to_digit (hexDigit d) = Some (Z.to_N d).
Proof.
  intros Hd.
  assert (d = 0 \/ d = 1 \/ d = 2 \/ d = 3 \/ d = 4 \/ d = 5 \/ d = 6
          \/ d = 7 \/ d = 8 \/ d = 9 \/ d = 10 \/ d = 11 \/ d = 12
          \/ d = 13 \/ d = 14 \/ d = 15) as Hcases by lia.
  repeat (destruct Hcases as [-> | Hcases]; [reflexivity|]).
  subst d. reflexivity.
Qed.

(** Parsing a string of hex digits reads back their value. *)
Lemma parseDigits_hexString (l : list Z) (acc : Z) (seen : bool) :
  Forall (fun d => 0 <= d < 16) l ->
  parseDigits (hexString l) acc seen
  = (valueBE 16 l acc, match l with [] => seen | _ => true end).
Proof.
  intros Hl. revert acc seen.
  induction Hl as [|d l Hd Hl IH]; intros acc seen; [reflexivity|].
  change (hexString (d :: l)) with (String (hexDigit d) (hexString l)).
  cbn [parseDigits]. rewrite (ascii_to_digit_hexDigit d Hd), IH.
  rewrite Z2N.id by lia. cbn [valueBE].
  destruct l; reflexivity.
Qed.

(** Equal digit strings denote equal numbers. *)
Lemma hexString_value (a b : list Z) :
  Forall (fun d => 0 <= d < 16) a ->
  Forall (fun d => 0 <= d < 16) b ->
  hexString a = hexString b ->
  valueBE 16 a 0 = valueBE 16 b 0.
Proof.
  intros Ha Hb Heq.
  pose proof (parseDigits_hexString a 0 false Ha) as Pa.
  pose proof (parseDigits_hexString b 0 false Hb) as Pb.
  rewrite Heq, Pb in Pa. now injection Pa.
Qed.

(** [toString(16)] of a number below 16 is its digit. *)
Lemma of_pos_small (p : positive) (rest : string) :
  Z.pos p < 16 ->
  HexString.Raw.of_pos p rest = String (hexDigit (Z.pos p)) rest.
Proof.
  do 4 (try destruct p as [p|p|]); intros H; try lia; reflexivity.
Qed.

(** Finds the last hex digit of [Z.pos x], trying [d], [d + 1], ... *)
Ltac last_digit x d :=
  first
    [ assert (Z.pos x mod 16 = d) as ->
        by (Z.to_euclidean_division_equations; lia)
    | let d' := eval compute in (d + 1) in last_digit x d' ].

(** [toString(16)] of a number from 16 on: the digits of its quotient by
    16, then its last digit. *)
Lemma of_pos_big (p : positive) :
  16 <= Z.pos p ->
  exists q,
    Z.pos p / 16 = Z.pos q
    /\ forall rest,
         HexString.Raw.of_pos p rest
         = HexString.Raw.of_pos q
             (String (hexDigit (Z.pos p mod 16)) rest).
Proof.
  do 4 (try destruct p as [p|p|]); intros H; try lia;
    (exists p; split;
     [ Z.to_euclidean_division_equations; lia
     | intros rest;
       match goal with
       | |- context [Z.pos ?x mod 16] => last_digit x 0
       end;
       reflexivity ]).
Qed.

Lemma zeros_length (n : nat) : String.length (zeros n) = n.
Proof. induction n as [|n IH]; cbn; [reflexivity | now rewrite IH]. Qed.

(** Left-padded with zeros, [toString(16)] is the fixed-width digit
    string. *)
Lemma of_pos_padded (width : nat) (p : positive) :
  Z.pos p < 16 ^ Z.of_nat width ->
  exists z, forall rest,
    (zeros z ++ HexString.Raw.of_pos p rest)%string
    = (hexString (digitsBE 16 width (Z.pos p)) ++ rest)%string.
Proof.
  revert p. induction width as [|width IH]; intros p Hp.
  - cbn in Hp. lia.
  - rewrite Nat2Z.inj_succ, Z.pow_succ_r in Hp by lia.
    cbn [digitsBE].
    destruct (Z_lt_le_dec (Z.pos p) 16) as [Hsmall|Hbig].
    + exists width. intros rest.
      rewrite of_pos_small, Z.div_small, Z.mod_small by lia.
      rewrite digitsBE_zero, hexString_app, hexString_zeros, str_app_assoc.
      reflexivity.
    + destruct (of_pos_big p Hbig) as [q [Hq Hstep]].
      assert (Z.pos q < 16 ^ Z.of_nat width) as Hq'.
      { rewrite <- Hq. apply Z.div_lt_upper_bound; lia. }
      destruct (IH q Hq') as [z Hz].
      exists z. intros rest.
      rewrite Hstep, Hz, Hq, hexString_app, str_app_assoc.
      reflexivity.
Qed.

(** [value.toString(16).padStart(width, "0")] spells the [width] hex
    digits of [value], and nothing is cut off. *)
Lemma padStart_toString16 (width : nat) (n : Z) :
  (0 < width)%nat ->
  0 <= n < 16 ^ Z.of_nat width ->
  (String.length (toString16 n) <= width)%nat
  /\ padStart (toString16 n) width = hexString (digitsBE 16 width n).
Proof.
  intros Hw [Hn0 Hn]. unfold padStart. destruct n as [|p|p]; [| |lia].
  - cbn [toString16 String.length]. split; [lia|].
    destruct width as [|width]; [lia|].
    rewrite digitsBE_zero, hexString_zeros.
    replace (S width - 1)%nat with width by lia.
    apply zeros_snoc.
  - cbn [toString16].
    destruct (of_pos_padded width p Hn) as [z Hz].
    specialize (Hz EmptyString). rewrite !str_app_nil_r in Hz.
    assert (z + String.length (HexString.Raw.of_pos p EmptyString)
            = width)%nat as Hlen.
    { rewrite <- (zeros_length z) at 1.
      rewrite <- str_length_app, Hz, hexString_length.
      apply digitsBE_length. }
    split; [lia|].
    replace (width - String.length (HexString.Raw.of_pos p EmptyString))%nat
      with z by lia.
    exact Hz.
Qed.

(** Two hex digits per byte: the hex digits of a number are those of its
    bytes. *)
Lemma digitsBE_16_256 (k : nat) (n : Z) :
  digitsBE 16 (k + k) n
  = flat_map (fun b => [b / 16; b mod 16]) (digitsBE 256 k n).
Proof.
  revert n. induction k as [|k IH]; intros n; [reflexivity|].
  rewrite Nat.add_succ_r. cbn [Nat.add digitsBE].
  rewrite flat_map_app. cbn [flat_map]. rewrite app_nil_r.
  rewrite <- app_assoc. cbn [app].
  rewrite <- IH. f_equal; [f_equal|f_equal; [|f_equal]];
    Z.to_euclidean_division_equations; lia.
Qed.

(** ** Hex strings of [viem] on fixed-width digit strings *)

Lemma replace0x_prefixed (s : string) :
  replace0x (String "0" (String "x" s)) = s.
Proof. reflexivity. Qed.

(** [pad(toHex(w), { size: 32 })] spells the 64 hex digits of a u256. *)
Lemma pad_toHex (w : Z) :
  0 <= w < 2 ^ 256 ->
  toHex w = Some (String "0" (String "x" (toString16 w)))
  /\ pad (String "0" (String "x" (toString16 w))) 32
     = Some (String "0" (String "x" (hexString (digitsBE 16 64 w)))).
Proof.
  intros Hw. unfold toHex.
  destruct (Z.ltb_spec w 0); [lia|]. split; [reflexivity|]. unfold pad.
  rewrite replace0x_prefixed.
  destruct (padStart_toString16 64 w) as [Hlen Hpad]; [lia|exact Hw|].
  change (32 * 2)%nat with 64%nat.
  destruct (Nat.ltb_spec 64 (String.length (toString16 w))); [lia|].
  now rewrite Hpad.
Qed.

(** [slice] on a hex string of digits [l]: the digits from [2 * start]
    up to [2 * end]. *)
Lemma slice_hexString (l : list Z) (start : nat) (end_ : option nat) :
  (start = 0 \/ 2 * start < List.length l)%nat ->
  slice (String "0" (String "x" (hexString l))) start end_
  = Some (String "0" (String "x"
            (hexString
               (firstn
                  (match end_ with
                   | Some e => e
                   | None => S (S (List.length l))
                   end * 2 - start * 2)
                  (skipn (start * 2) l))))).
Proof.
  intros Hstart. unfold slice, size, jsSlice.
  rewrite replace0x_prefixed. cbn [String.length].
  rewrite hexString_length.
  assert ((0 <? Z.of_nat start)
          && ((Z.of_nat (S (S (List.length l))) - 2 + 1) / 2 - 1
              <? Z.of_nat start) = false) as ->.
  { destruct Hstart as [-> | Hlt]; [reflexivity|].
    apply andb_false_iff. right. apply Z.ltb_ge.
    Z.to_euclidean_division_equations. lia. }
  now rewrite substring_hexString.
Qed.

Lemma parseInt16_hexString (l : list Z) :
  Forall (fun d => 0 <= d < 16) l ->
  l <> [] ->
  parseInt16 (String "0" (String "x" (hexString l)))
  = Some (valueBE 16 l 0).
Proof.
  intros Hl Hne. unfold parseInt16.
  change (match String "0" (String "x" (hexString l)) with
          | String "0" (String "x" rest) => rest
          | String "0" (String "X" rest) => rest
          | _ => String "0" (String "x" (hexString l))
          end) with (hexString l).
  rewrite parseDigits_hexString by exact Hl.
  destruct l; [contradiction|reflexivity].
Qed.

End HexStrings.

(** * Properties of the validator *)

Section UnsafeValidatorFacts.
Import viem UnsafeValidator.

(** ** Merging validation data *)

(** C8: the merged result has [accountSigFailed] iff the account
    aggregator is not the zero address, [paymasterSigFailed] iff the
    paymaster aggregator is not the zero address, [validAfter] the
    maximum and [validUntil] the minimum of the two values. *)
Theorem mergeValidationData_spec (account paymaster' : ValidationData) :
  (merged_accountSigFailed (mergeValidationData account paymaster') = true
   <-> aggregator account <> zeroAddress)
  /\ (merged_paymasterSigFailed (mergeValidationData account paymaster')
      = true
      <-> aggregator paymaster' <> zeroAddress)
  /\ merged_validAfter (mergeValidationData account paymaster')
     = Z.max (validAfter account) (validAfter paymaster')
  /\ merged_validUntil (mergeValidationData account paymaster')
     = Z.min (validUntil account) (validUntil paymaster').
Proof.
  unfold mergeValidationData; cbn.
  repeat split; try (intros H; rewrite negb_true_iff in H;
                     now apply String.eqb_neq in H);
    intros H; apply negb_true_iff; now apply String.eqb_neq.
Qed.

(** ** The time window *)

Lemma Qgtb_ms (a ms k : Z) :
  Qgtb (inject_Z a) (inject_Z ms / 1000 - inject_Z k)%Q
  = (a * 1000 >? ms - k * 1000).
Proof.
  unfold Qgtb, Qle_bool. cbn.
  destruct (Z.leb_spec (a * 1000) ((ms * 1 * 1 + - k * 1000) * 1));
    destruct (Z.gtb_spec (a * 1000) (ms - k * 1000)); cbn; lia.
Qed.

Lemma Qltb_ms (u ms k : Z) :
  Qltb (inject_Z u) (inject_Z ms / 1000 + inject_Z k)%Q
  = (u * 1000 <? ms + k * 1000).
Proof.
  unfold Qltb, Qle_bool. cbn.
  destruct (Z.leb_spec ((ms * 1 * 1 + k * 1000) * 1) (u * 1000));
    destruct (Z.ltb_spec (u * 1000) (ms + k * 1000)); cbn; lia.
Qed.

(** The v0.6 path, for an operation that reaches the time-window check:
    the two comparisons in milliseconds. *)
Lemma getValidationResultV06_expiry (this : t) (w : World)
    (op : V06.UserOperation) (entryPoint : Address)
    (args : SimulatedValidationResultV06) :
  simulateValidationV06 w = ValidationResultError args ->
  sigFailed (returnInfo06 args) = false ->
  isExpiresShortly (getValidationResultV06 this w op entryPoint)
  = negb (disableExpirationCheck this)
    && ((validAfter06 (returnInfo06 args) * 1000 >? Date_now w - 5000)
        || (validUntil06 (returnInfo06 args) * 1000
            <? Date_now w + 30000)).
Proof.
  intros Hsim Hsig. unfold getValidationResultV06.
  rewrite Hsim. cbn. rewrite Hsig.
  change 5%Q with (inject_Z 5). change 30%Q with (inject_Z 30).
  rewrite Qgtb_ms, Qltb_ms.
  change (5 * 1000) with 5000. change (30 * 1000) with 30000.
  destruct (disableExpirationCheck this); cbn.
  - now rewrite !andb_false_r.
  - rewrite !andb_true_r.
    destruct (_ >? _); [reflexivity|]. destruct (_ <? _); reflexivity.
Qed.

(** On a whole second, and with the check enabled, the v0.6 path follows
    the specified rule. *)
Lemma getValidationResultV06_expiry_whole_second (this : t) (w : World)
    (op : V06.UserOperation) (entryPoint : Address)
    (args : SimulatedValidationResultV06) :
  simulateValidationV06 w = ValidationResultError args ->
  sigFailed (returnInfo06 args) = false ->
  disableExpirationCheck this = false ->
  Date_now w mod 1000 = 0 ->
  isExpiresShortly (getValidationResultV06 this w op entryPoint)
  = expiresShortlySpec (validAfter06 (returnInfo06 args))
      (Some (validUntil06 (returnInfo06 args))) (Date_now w).
Proof.
  intros Hsim Hsig Hdis Hwhole.
  rewrite (getValidationResultV06_expiry this w op entryPoint args)
    by assumption.
  rewrite Hdis. cbn [negb andb]. unfold expiresShortlySpec.
  assert (Date_now w = 1000 * (Date_now w / 1000)) as Hms
    by (pose proof (Z.div_mod (Date_now w) 1000); lia).
  set (now := Date_now w / 1000) in *.
  f_equal.
  - destruct (Z.gtb_spec (validAfter06 (returnInfo06 args) * 1000)
                         (Date_now w - 5000));
      destruct (Z.gtb_spec (validAfter06 (returnInfo06 args)) (now - 5));
      lia.
  - destruct (Z.ltb_spec (validUntil06 (returnInfo06 args) * 1000)
                         (Date_now w + 30000));
      destruct (Z.ltb_spec (validUntil06 (returnInfo06 args)) (now + 30));
      lia.
Qed.

(** With [disableExpirationCheck] the v0.6 path never answers
    [ExpiresShortly]. *)
Lemma getValidationResultV06_expiry_disabled (this : t) (w : World)
    (op : V06.UserOperation) (entryPoint : Address) :
  disableExpirationCheck this = true ->
  isExpiresShortly (getValidationResultV06 this w op entryPoint) = false.
Proof.
  intros Hdis. unfold getValidationResultV06.
  destruct (simulateValidationV06 w) as [[|] reason|reason|args|]; cbn;
    try reflexivity.
  rewrite Hdis, !andb_false_r.
  destruct (sigFailed (returnInfo06 args)); reflexivity.
Qed.

(** The v0.7 path, for an operation that reaches the time-window check,
    follows the specified rule, whatever [disableExpirationCheck] is. *)
Lemma getValidationResultV07_expiry (this : t) (w : World)
    (op : V07.UserOperation) (entryPoint : Address)
    (simulation : SimulatedValidationResultV07)
    (merged : MergedValidationData) :
  truthyOpt (entryPointSimulationsAddress this) = true ->
  simulateValidationV07 w = validation simulation ->
  mergeValidationDataValues
    (accountValidationData (sim_returnInfo simulation))
    (paymasterValidationData (sim_returnInfo simulation)) = Some merged ->
  merged_accountSigFailed merged = false ->
  merged_paymasterSigFailed merged = false ->
  isExpiresShortly (getValidationResultV07 this w op entryPoint)
  = expiresShortlySpec (merged_validAfter merged)
      (Some (merged_validUntil merged)) (Date_now w).
Proof.
  intros Haddr Hsim Hmerge Hacc Hpm. unfold getValidationResultV07.
  rewrite Haddr, Hsim, Hmerge. cbn. rewrite Hacc, Hpm.
  unfold expiresShortlySpec.
  destruct (_ >? _); [reflexivity|]. destruct (_ <? _); reflexivity.
Qed.

(** C2 (the code departs from the claim): on the v0.6 path [now] is not
    floored.  Half a second past 1 700 000 000 s, an operation with
    [validAfter = 0] and [validUntil = 1 700 000 030] is rejected with
    [ExpiresShortly], although neither [validAfter > now - 5] nor
    [validUntil < now + 30] holds for [now = 1 700 000 000]. *)
Theorem getValidationResultV06_fractional_now :
  getValidationResultV06 (validatorV2 false)
    (worldOf (simulatedV06 450000 0 1700000030) (failed "unused") 1700000000500)
    plainOpV06 entryPoint06
  = throw (RpcError (Literal "expires too soon") ExpiresShortly)
  /\ expiresShortlySpec 0 (Some 1700000030) 1700000000500 = false.
Proof. split; reflexivity. Qed.

(** C3 (the code departs from the claim): the v0.7 path does not read
    [disableExpirationCheck]; with the flag set, an operation whose
    account validation data expire ten seconds from now is rejected with
    [ExpiresShortly]. *)
Theorem validateUserOperation_v07_ignores_disableExpirationCheck :
  disableExpirationCheck (validatorV2 true) = true
  /\ fst (validateUserOperation declaredLimits (validatorV2 true)
            (worldOf (Unparsed false None)
               (simulatedV07 450000 (packWindow 0 1700000010) 0)
               1700000000000)
            (UserOperationV07 sponsoredOpV07) entryPoint07)
     = throw (RpcError (ExpiresTooSoon (Some 1700000010) 1700000000)
                ExpiresShortly).
Proof. split; reflexivity. Qed.

(** ** The prefund check *)

(** The multiplier is 3 exactly for a v0.6 operation whose
    [paymasterAndData] is a non-empty string (["0x"] included) and for a
    v0.7 operation whose [paymaster] is the string ["0x"]. *)
Lemma mul_cases (userOperation : UserOperation) :
  mul userOperation =
    match userOperation with
    | UserOperationV06 op =>
        if String.eqb (V06.paymasterAndData op) EmptyString then 1 else 3
    | UserOperationV07 op =>
        match V07.paymaster op with
        | Some pm => if String.eqb pm "0x" then 3 else 1
        | None => 1
        end
    end.
Proof.
  destruct userOperation as [op|op]; unfold mul, truthy; cbn.
  - destruct (String.eqb _ _); reflexivity.
  - reflexivity.
Qed.

(** An operation that reaches the prefund check is rejected with
    [SimulateValidation] exactly when [requiredPreFund] exceeds the
    simulated prefund. *)
Lemma validateUserOperation_try_prefund
    (calcLimits : UserOperation -> Z -> Z -> Z -> Z * Z)
    (this : t) (w : World) (userOperation : UserOperation)
    (entryPoint : Address) (validationResult : ValidationResult) :
  getValidationResult this w userOperation entryPoint
  = ok validationResult ->
  apiVersion this <> "v1"%string ->
  validateUserOperation_try calcLimits this w userOperation entryPoint
  = if requiredPreFund calcLimits this userOperation validationResult
       >? prefund validationResult
    then throw (RpcError
                  (PrefundNotEnough
                     (requiredPreFund calcLimits this userOperation
                        validationResult)
                     (prefund validationResult))
                  SimulateValidation)
    else ok validationResult.
Proof.
  intros Hres Hapi. unfold validateUserOperation_try.
  rewrite Hres. cbn [bindErr ok].
  apply String.eqb_neq in Hapi. rewrite Hapi. reflexivity.
Qed.

(** A v0.6 operation without a paymaster is charged the triple
    verification gas all the same. *)
Lemma mul_plain_v06 :
  declaresPaymaster (UserOperationV06 plainOpV06) = false
  /\ mul (UserOperationV06 plainOpV06) = 3.
Proof. split; reflexivity. Qed.

(** C1 (the code departs from the claim): a v0.7 operation that declares
    a paymaster gets the multiplier 1.  With call gas 100 000,
    verification gas 100 000, pre-verification gas 50 000 and a prefund
    of 250 000 it is admitted, where the claimed requirement is
    100 000 + 3 * 100 000 + 50 000 = 450 000. *)
Theorem validateUserOperation_sponsored_v07_multiplier :
  declaresPaymaster (UserOperationV07 sponsoredOpV07) = true
  /\ mul (UserOperationV07 sponsoredOpV07) = 1
  /\ requiredPrefundSpec (UserOperationV07 sponsoredOpV07) 100000 100000
     = 450000
  /\ exists validationResult,
       fst (validateUserOperation declaredLimits (validatorV2 false)
              (worldOf (Unparsed false None) (simulatedV07 250000 0 0)
                 1700000000000)
              (UserOperationV07 sponsoredOpV07) entryPoint07)
       = ok validationResult
       /\ prefund validationResult = 250000
       /\ requiredPreFund declaredLimits (validatorV2 false)
            (UserOperationV07 sponsoredOpV07) validationResult
          = 250000.
Proof.
  repeat split. eexists. repeat split.
Qed.

(** ** Pre-verification gas *)

(** C6 as stated fails: [validateUserOperation] admits an operation whose
    computed pre-verification gas (60 000) exceeds the declared one
    (50 000) under API version "v2"; the check sits in
    [validatePreVerificationGas], which [validateUserOperation] does not
    call. *)
Lemma validateUserOperation_no_preVerificationGas_check :
  apiVersion (validatorV2 false) <> "v1"%string
  /\ sixtyThousand (UserOperationV07 sponsoredOpV07) entryPoint07
       (chainId (validatorV2 false))
     > preVerificationGas (UserOperationV07 sponsoredOpV07)
  /\ (exists validationResult,
        fst (validateUserOperation declaredLimits (validatorV2 false)
               (worldOf (Unparsed false None) (simulatedV07 450000 0 0)
                  1700000000000)
               (UserOperationV07 sponsoredOpV07) entryPoint07)
        = ok validationResult)
  /\ validatePreVerificationGas sixtyThousand (validatorV2 false)
       (UserOperationV07 sponsoredOpV07) entryPoint07
     = throw (RpcError (PreVerificationGasNotEnough 60000 50000)
                SimulateValidation).
Proof.
  split; [discriminate|]. split; [reflexivity|].
  split; [eexists; reflexivity | reflexivity].
Qed.

(** C6, as amended: [validatePreVerificationGas], a method of its own,
    when the API version is not "v1" accepts exactly when the computed
    pre-verification gas is at most the declared one and otherwise
    throws a [SimulateValidation] error that quotes both values; when the
    API version is "v1" it accepts without computing anything. *)
Theorem validatePreVerificationGas_spec
    (calcPreVerificationGas : UserOperation -> Address -> Z -> Z)
    (this : t) (userOperation : UserOperation) (entryPoint : Address) :
  (apiVersion this <> "v1"%string ->
   (calcPreVerificationGas userOperation entryPoint (chainId this)
    <= preVerificationGas userOperation ->
    validatePreVerificationGas calcPreVerificationGas this userOperation
      entryPoint = ok tt)
   /\ (calcPreVerificationGas userOperation entryPoint (chainId this)
       > preVerificationGas userOperation ->
       validatePreVerificationGas calcPreVerificationGas this userOperation
         entryPoint
       = throw (RpcError
                  (PreVerificationGasNotEnough
                     (calcPreVerificationGas userOperation entryPoint
                        (chainId this))
                     (preVerificationGas userOperation))
                  SimulateValidation)))
  /\ (apiVersion this = "v1"%string ->
      validatePreVerificationGas calcPreVerificationGas this userOperation
        entryPoint = ok tt).
Proof.
  unfold validatePreVerificationGas. split.
  - intros Hapi. apply String.eqb_neq in Hapi. rewrite Hapi. cbn [negb].
    split; intros Hcmp.
    + destruct (Z.gtb_spec
                  (calcPreVerificationGas userOperation entryPoint
                     (chainId this))
                  (preVerificationGas userOperation)); [lia|reflexivity].
    + destruct (Z.gtb_spec
                  (calcPreVerificationGas userOperation entryPoint
                     (chainId this))
                  (preVerificationGas userOperation)); [reflexivity|lia].
  - intros ->. reflexivity.
Qed.

Lemma validatePreVerificationGas_spec_witness :
  validatePreVerificationGas sixtyThousand (validatorV2 false)
    (UserOperationV07 sponsoredOpV07) entryPoint07
  = throw (RpcError (PreVerificationGasNotEnough 60000 50000)
             SimulateValidation).
Proof.
  refine (proj2 (proj1 (validatePreVerificationGas_spec sixtyThousand
                          (validatorV2 false)
                          (UserOperationV07 sponsoredOpV07) entryPoint07)
                   _) _).
  - discriminate.
  - reflexivity.
Defined.

(** ** Unpacking validation data *)

(** The three fields of a u256 word, arithmetically. *)
Lemma parseValidationData_fields (w : Z) :
  0 <= w < 2 ^ 256 ->
  parseValidationData w
  = Some {| aggregator :=
              String "0" (String "x" (hexString (digitsBE 16 40 w)));
            validAfter := w / 2 ^ 208;
            validUntil :=
              if (w / 2 ^ 160) mod 2 ^ 48 =? 0 then 2 ^ 48 - 1
              else (w / 2 ^ 160) mod 2 ^ 48 |}.
Proof.
  intros Hw. unfold parseValidationData.
  destruct (pad_toHex w Hw) as [-> Hpad]. cbn [bindOpt].
  rewrite Hpad. cbn [bindOpt].
  pose proof (digitsBE_length 16 64 w) as Hlen.
  rewrite !slice_hexString by (rewrite Hlen; cbn; lia).
  rewrite Hlen. cbn [Nat.sub Nat.mul Nat.add bindOpt].
  assert (firstn 108 (skipn 24 (digitsBE 16 64 w)) = digitsBE 16 40 w)
    as ->.
  { change 64%nat with (24 + 40)%nat. rewrite (skipn_digitsBE 16) by lia.
    apply firstn_all2. rewrite digitsBE_length. cbn. lia. }
  assert (firstn 12 (skipn 12 (digitsBE 16 64 w))
          = digitsBE 16 12 (w / 16 ^ 40)) as ->
    by apply (digitsBE_slice 16 ltac:(lia) 12 12 40).
  assert (firstn 12 (skipn 0 (digitsBE 16 64 w))
          = digitsBE 16 12 (w / 16 ^ 52)) as ->
    by apply (digitsBE_slice 16 ltac:(lia) 0 12 52).
  rewrite !parseInt16_hexString
    by (try apply digitsBE_range; try lia;
        intros Hnil; apply (f_equal (@List.length Z)) in Hnil;
        rewrite digitsBE_length in Hnil; discriminate).
  cbn [bindOpt]. rewrite !(valueBE_digitsBE 16) by lia.
  change (Z.of_nat 12) with 12.
  change (16 ^ 40) with (2 ^ 160). change (16 ^ 12) with (2 ^ 48).
  change (16 ^ 52) with (2 ^ 208).
  rewrite !Z.mul_0_l, !Z.add_0_l.
  rewrite (Z.mod_small (w / 2 ^ 208)); [reflexivity|].
  split; [apply Z.div_pos; lia|].
  apply Z.div_lt_upper_bound; [lia|].
  change (2 ^ 208 * 2 ^ 48) with (2 ^ 256). lia.
Qed.

(** The same three fields, read off the 32 big-endian bytes. *)
Lemma unpackSpec_fields (w : Z) :
  unpackSpec w
  = {| aggregator :=
         String "0" (String "x" (hexString (digitsBE 16 40 w)));
       validAfter := (w / 2 ^ 208) mod 2 ^ 48;
       validUntil :=
         if (w / 2 ^ 160) mod 2 ^ 48 =? 0 then 2 ^ 48 - 1
         else (w / 2 ^ 160) mod 2 ^ 48 |}.
Proof.
  unfold unpackSpec, wordBytes, bytesRange, bytesToZ, bytesToHex.
  cbn [Nat.sub].
  assert (firstn 20 (skipn 12 (digitsBE 256 32 w)) = digitsBE 256 20 w)
    as ->.
  { change 32%nat with (12 + 20)%nat. rewrite (skipn_digitsBE 256) by lia.
    apply firstn_all2. rewrite digitsBE_length. lia. }
  assert (firstn 6 (skipn 6 (digitsBE 256 32 w))
          = digitsBE 256 6 (w / 256 ^ 20)) as ->
    by apply (digitsBE_slice 256 ltac:(lia) 6 6 20).
  assert (firstn 6 (skipn 0 (digitsBE 256 32 w))
          = digitsBE 256 6 (w / 256 ^ 26)) as ->
    by apply (digitsBE_slice 256 ltac:(lia) 0 6 26).
  rewrite <- (digitsBE_16_256 20 w).
  rewrite !(valueBE_digitsBE 256) by lia.
  change (Z.of_nat 6) with 6.
  change (256 ^ 20) with (2 ^ 160). change (256 ^ 6) with (2 ^ 48).
  change (256 ^ 26) with (2 ^ 208).
  rewrite !Z.mul_0_l, !Z.add_0_l. reflexivity.
Qed.

(** C7: [parseValidationData] maps a u256 word, viewed as 32 big-endian
    bytes, to aggregator = bytes [12..32), validUntil = bytes [6..12) and
    validAfter = bytes [0..6), with [2^48 - 1] in place of a zero
    validUntil field; the all-zero word gives the zero address,
    [validAfter = 0] and [validUntil = 2^48 - 1]. *)
Theorem parseValidationData_unpack (w : Z) :
  0 <= w < 2 ^ 256 ->
  parseValidationData w = Some (unpackSpec w)
  /\ parseValidationData 0
     = Some {| aggregator := zeroAddress;
               validAfter := 0;
               validUntil := 2 ^ 48 - 1 |}.
Proof.
  intros Hw. split; [|reflexivity].
  rewrite parseValidationData_fields, unpackSpec_fields by exact Hw.
  rewrite (Z.mod_small (w / 2 ^ 208)); [reflexivity|].
  split; [apply Z.div_pos; lia|].
  apply Z.div_lt_upper_bound; [lia|].
  change (2 ^ 208 * 2 ^ 48) with (2 ^ 256). lia.
Qed.

Lemma parseValidationData_unpack_witness :
  0 <= packWindow 100 200 < 2 ^ 256
  /\ parseValidationData (packWindow 100 200)
     = Some (unpackSpec (packWindow 100 200))
  /\ unpackSpec (packWindow 100 200)
     = {| aggregator := zeroAddress; validAfter := 100; validUntil := 200 |}.
Proof.
  assert (0 <= packWindow 100 200 < 2 ^ 256) as Hw
    by (vm_compute; split; [discriminate|reflexivity]).
  split; [exact Hw|].
  split; [exact (proj1 (parseValidationData_unpack _ Hw))|].
  vm_compute. reflexivity.
Defined.

(** The aggregator that [parseValidationData] returns is the zero address
    exactly when the low 160 bits of the word are zero. *)
Lemma parseValidationData_zero_aggregator (w : Z) :
  0 <= w < 2 ^ 256 ->
  (option_map aggregator (parseValidationData w) = Some zeroAddress
   <-> w mod 2 ^ 160 = 0).
Proof.
  intros Hw.
  rewrite parseValidationData_fields by exact Hw.
  cbn [option_map aggregator].
  change zeroAddress
    with (String "0" (String "x" (hexString (repeat 0 40)))).
  rewrite <- (digitsBE_zero 16 40). split.
  - intros Heq.
    assert (hexString (digitsBE 16 40 w) = hexString (digitsBE 16 40 0))
      as Hdigits by congruence.
    apply hexString_value in Hdigits; try (apply digitsBE_range; lia).
    rewrite !(valueBE_digitsBE 16) in Hdigits by lia.
    rewrite Z.mod_0_l in Hdigits by (apply Z.pow_nonzero; lia).
    rewrite !Z.mul_0_l, !Z.add_0_l in Hdigits. exact Hdigits.
  - intros Hmod. do 3 f_equal.
    rewrite <- (digitsBE_mod 16 ltac:(lia) 40 w).
    change (16 ^ Z.of_nat 40) with (2 ^ 160). rewrite Hmod. reflexivity.
Qed.

End UnsafeValidatorFacts.


(** * Further properties of the gas price manager *)

Section GasPriceManagerFurther.
Import GasPriceManager.

Lemma getDefaultGasFee_nonneg (chainId : Z) : 0 <= getDefaultGasFee chainId.
Proof.
  unfold getDefaultGasFee, MIN_POLYGON_GAS_PRICE, MIN_MUMBAI_GAS_PRICE,
    parseGwei.
  destruct (_ =? _); [lia|]. destruct (_ =? _); lia.
Qed.

Lemma getBumpAmount_ge_100 (chainId : Z) : 100 <= getBumpAmount chainId.
Proof.
  unfold getBumpAmount.
  repeat match goal with
         | |- context [if ?b then _ else _] => destruct b
         end; lia.
Qed.

(** A non-negative amount is not lowered by a bump of at least 100%. *)
Lemma bump_not_lower (x b : Z) : 0 <= x -> 100 <= b -> x <= x * b ÷ 100.
Proof.
  intros Hx Hb.
  rewrite <- (Z.quot_mul x 100) at 1 by lia.
  apply Z.quot_le_mono; [lia|]. apply Z.mul_le_mono_nonneg_l; lia.
Qed.

Lemma bumpTheGasPrice_bounds (this : t) (p : GasPriceParameters) :
  maxFeePerGas p <= maxFeePerGas (bumpTheGasPrice this p)
  /\ maxPriorityFeePerGas p <= maxPriorityFeePerGas (bumpTheGasPrice this p)
  /\ getDefaultGasFee (chain_id this)
     <= maxPriorityFeePerGas (bumpTheGasPrice this p)
  /\ 0 <= maxPriorityFeePerGas (bumpTheGasPrice this p).
Proof.
  unfold bumpTheGasPrice.
  pose proof (getBumpAmount_ge_100 (chain_id this)) as Hb.
  pose proof (getDefaultGasFee_nonneg (chain_id this)) as Hd.
  set (prio := maxBigInt (maxPriorityFeePerGas p) _).
  set (fee := maxBigInt (maxFeePerGas p) prio).
  assert (Hprio : maxPriorityFeePerGas p <= prio
                  /\ getDefaultGasFee (chain_id this) <= prio)
    by (subst prio; rewrite maxBigInt_max; lia).
  assert (Hfee : maxFeePerGas p <= fee /\ prio <= fee)
    by (subst fee; rewrite maxBigInt_max; lia).
  pose proof (bump_not_lower prio (getBumpAmount (chain_id this))) as Bp.
  pose proof (bump_not_lower fee (getBumpAmount (chain_id this))) as Bf.
  destruct (_ || _ || _); cbn [maxFeePerGas maxPriorityFeePerGas];
    rewrite ?maxBigInt_max; lia.
Qed.

(** X1: [bumpTheGasPrice] never lowers a fee: on every chain both returned
    fees are at least the ones passed in, and the returned priority fee is
    at least the chain's default gas fee (31 gwei on Polygon, 1 gwei on
    Mumbai, 0 elsewhere), hence never negative. *)
Theorem bumpTheGasPrice_raises (this : t) (p : GasPriceParameters) :
  maxFeePerGas p <= maxFeePerGas (bumpTheGasPrice this p)
  /\ maxPriorityFeePerGas p <= maxPriorityFeePerGas (bumpTheGasPrice this p)
  /\ getDefaultGasFee (chain_id this)
     <= maxPriorityFeePerGas (bumpTheGasPrice this p)
  /\ 0 <= maxPriorityFeePerGas (bumpTheGasPrice this p).
Proof. exact (bumpTheGasPrice_bounds this p). Qed.

(** ** What a recorded price leaves in a queue *)

Lemma lastEntry_snoc (queue : list Entry) (e : Entry) :
  lastEntry (queue ++ [e]) = Some e.
Proof.
  induction queue as [|a queue IH]; [reflexivity|].
  cbn [app]. destruct (queue ++ [e]) eqn:E.
  - destruct queue; discriminate.
  - rewrite <- E. cbn [lastEntry]. rewrite E in *. exact IH.
Qed.

Lemma lastEntry_In (queue : list Entry) (e : Entry) :
  lastEntry queue = Some e -> In e queue.
Proof.
  induction queue as [|a [|b rest] IH]; cbn; try discriminate.
  - intros [= ->]. now left.
  - intros H. right. apply IH. exact H.
Qed.

(** After [saveMaxFeePerGas] the tail of the fee queue holds a price that
    is at most the recorded one. *)
Lemma saveMaxFeePerGas_tail (this : t) (gasPrice ts : Z) :
  exists e,
    lastEntry (queueMaxFeePerGas (saveMaxFeePerGas this gasPrice ts)) = Some e
    /\ price e <= gasPrice.
Proof.
  unfold saveMaxFeePerGas, push, overwriteLast.
  destruct (lastEntry (queueMaxFeePerGas this)) as [last|] eqn:E;
    [destruct (_ - timestamp last >=? 1000);
     [|destruct (Z.ltb_spec gasPrice (price last))]|];
    cbn [queueMaxFeePerGas set_queueMaxFeePerGas];
    try (eexists; split; [apply lastEntry_snoc | cbn; lia]).
  exists last. split; [exact E | lia].
Qed.

Lemma saveMaxPriorityFeePerGas_tail (this : t) (gasPrice ts : Z) :
  exists e,
    lastEntry (queueMaxPriorityFeePerGas
                 (saveMaxPriorityFeePerGas this gasPrice ts)) = Some e
    /\ price e <= gasPrice.
Proof.
  unfold saveMaxPriorityFeePerGas, push, overwriteLast.
  destruct (lastEntry (queueMaxPriorityFeePerGas this)) as [last|] eqn:E;
    [destruct (_ - timestamp last >=? 1000);
     [|destruct (Z.ltb_spec gasPrice (price last))]|];
    cbn [queueMaxPriorityFeePerGas set_queueMaxPriorityFeePerGas];
    try (eexists; split; [apply lastEntry_snoc | cbn; lia]).
  exists last. split; [exact E | lia].
Qed.

Lemma saveMaxPriorityFeePerGas_other_queue (this : t) (gasPrice ts : Z) :
  queueMaxFeePerGas (saveMaxPriorityFeePerGas this gasPrice ts)
  = queueMaxFeePerGas this.
Proof.
  unfold saveMaxPriorityFeePerGas.
  destruct (lastEntry _) as [last|];
    [destruct (_ >=? 1000); [|destruct (_ <? _)]|]; reflexivity.
Qed.

Lemma saveMaxFeePerGas_other_queue (this : t) (gasPrice ts : Z) :
  queueMaxPriorityFeePerGas (saveMaxFeePerGas this gasPrice ts)
  = queueMaxPriorityFeePerGas this.
Proof.
  unfold saveMaxFeePerGas.
  destruct (lastEntry _) as [last|];
    [destruct (_ >=? 1000); [|destruct (_ <? _)]|]; reflexivity.
Qed.

(** The [reduce] of [getMinMaxFeePerGas]: below its start value, below
    every price of the queue, and one of them. *)
Lemma fold_min_spec (queue : list Entry) (init : Z) :
  let m := fold_left (fun acc cur => minBigInt (price cur) acc) queue init in
  m <= init
  /\ (forall e, In e queue -> m <= price e)
  /\ (m = init \/ exists e, In e queue /\ price e = m).
Proof.
  revert init. induction queue as [|a queue IH]; intros init; cbn.
  - split; [lia|]. split; [intros e []|now left].
  - specialize (IH (minBigInt (price a) init)). cbn in IH.
    destruct IH as [Hle [Hall Hex]]. rewrite minBigInt_min in *.
    split; [lia|]. split.
    + intros e [<- | Hin]; [lia | now apply Hall].
    + destruct Hex as [Heq | [e [Hin He]]].
      * destruct (Z.min_spec (price a) init) as [[_ Hm] | [_ Hm]].
        -- right. exists a. split; [now left | lia].
        -- left. lia.
      * right. exists e. split; [now right | exact He].
Qed.

(** [queueMinimum] of a non-empty queue is its least price. *)
Lemma queueMinimum_spec (queue : list Entry) :
  queue <> [] ->
  exists m,
    queueMinimum queue = Some m
    /\ (forall e, In e queue -> m <= price e)
    /\ (exists e, In e queue /\ price e = m).
Proof.
  destruct queue as [|first rest]; [congruence|]. intros _.
  eexists. split; [reflexivity|].
  destruct (fold_min_spec (first :: rest) (price first)) as [Hle [Hall Hex]].
  split; [exact Hall|].
  destruct Hex as [Heq | Hex]; [|exact Hex].
  exists first. split; [now left | now rewrite Heq].
Qed.

(** ** Validating a submitted price *)

(** With both queues warm, [validateGasPrice] compares against the two
    minima, asks the outside world nothing and leaves the manager as it
    is. *)
Lemma validateGasPrice_warm (this : t) (w : World) (p : GasPriceParameters)
    (lowestFee lowestPriority : Z) :
  queueMinimum (queueMaxFeePerGas this) = Some lowestFee ->
  queueMinimum (queueMaxPriorityFeePerGas this) = Some lowestPriority ->
  validateGasPrice this w p
  = Some (if maxFeePerGas p <? lowestFee
          then MaxFeePerGasTooLow lowestFee (maxFeePerGas p)
          else if maxPriorityFeePerGas p <? lowestPriority
          then MaxPriorityFeePerGasTooLow lowestPriority
                 (maxPriorityFeePerGas p)
          else Accepted,
          this).
Proof.
  intros Hf Hp. unfold validateGasPrice, getMinMaxFeePerGas.
  destruct (queueMaxFeePerGas this) as [|f0 fq] eqn:Ef; [discriminate|].
  cbn [bindOpt]. rewrite Ef, Hf. cbn [bindOpt].
  unfold getMinMaxPriorityFeePerGas.
  destruct (queueMaxPriorityFeePerGas this) as [|p0 pq] eqn:Ep;
    [discriminate|].
  cbn [bindOpt]. rewrite Ep, Hp. cbn [bindOpt].
  destruct (_ <? lowestFee); [reflexivity|].
  destruct (_ <? lowestPriority); reflexivity.
Qed.



(** X3: [validateGasPrice] is monotone: if a submission is accepted, so is
    every submission that is at least as high in both fees, with the same
    effect on the manager (also when the call first has to prime an empty
    queue through [getGasPrice]). *)
Theorem validateGasPrice_monotone (this this' : t) (w : World)
    (low high : GasPriceParameters) :
  validateGasPrice this w low = Some (Accepted, this') ->
  maxFeePerGas low <= maxFeePerGas high ->
  maxPriorityFeePerGas low <= maxPriorityFeePerGas high ->
  validateGasPrice this w high = Some (Accepted, this').
Proof.
  unfold validateGasPrice. intros Hlow Hfee Hprio.
  destruct (getMinMaxFeePerGas this w) as [[mf st1]|]; [|discriminate].
  cbn [bindOpt] in *.
  destruct (getMinMaxPriorityFeePerGas st1 w) as [[mp st2]|]; [|discriminate].
  cbn [bindOpt] in *.
  destruct (Z.ltb_spec (maxFeePerGas low) mf); [discriminate|].
  destruct (Z.ltb_spec (maxPriorityFeePerGas low) mp); [discriminate|].
  destruct (Z.ltb_spec (maxFeePerGas high) mf); [lia|].
  destruct (Z.ltb_spec (maxPriorityFeePerGas high) mp); [lia|].
  exact Hlow.
Qed.

Lemma validateGasPrice_monotone_witness :
  validateGasPrice (constructor chains.mainnet false None) oneGweiWorld
    {| maxFeePerGas := 2000000000; maxPriorityFeePerGas := 1110000000 |}
  = Some (Accepted,
          saveGasPrice (constructor chains.mainnet false None)
            {| maxFeePerGas := 1110000000;
               maxPriorityFeePerGas := 1110000000 |} 1700000000000).
Proof.
  apply (validateGasPrice_monotone
           (constructor chains.mainnet false None) _ oneGweiWorld
           {| maxFeePerGas := 1110000000;
              maxPriorityFeePerGas := 1110000000 |}).
  - reflexivity.
  - cbn. lia.
  - cbn. lia.
Defined.

(** ** Recording and validating together *)

(** What [getGasPrice] writes to the queues: the returned fees raised to
    the chain's floor, at the current time. *)
Lemma getGasPrice_records (this this' : t) (w : World)
    (gp : GasPriceParameters) :
  getGasPrice this w = Some (gp, this') ->
  this' = saveGasPrice this
            (floored gp
               (if chain_id this =? chains.dfk then 5000000000 else 0)
               (if chain_id this =? chains.dfk then 5000000000 else 0))
            (Date_now w).
Proof.
  unfold getGasPrice, getPolygonGasPriceParameters.
  destruct (_ || _); [destruct (gasStation w) as [est|]|];
    try (intros [= <- <-]; reflexivity);
    (destruct (noEip1559Support this);
     [destruct (getNoEip1559SupportGasPrice w) | destruct (estimateGasPrice w)];
     cbn [bindOpt]; try discriminate;
     intros [= <- <-]; reflexivity).
Qed.

(** After [saveGasPrice] both queues are warm and their minima are at most
    the recorded fees. *)
Lemma saveGasPrice_minima (this : t) (recorded : GasPriceParameters)
    (ts : Z) :
  exists lowestFee lowestPriority,
    queueMinimum (queueMaxFeePerGas (saveGasPrice this recorded ts))
    = Some lowestFee
    /\ queueMinimum (queueMaxPriorityFeePerGas (saveGasPrice this recorded ts))
       = Some lowestPriority
    /\ lowestFee <= maxFeePerGas recorded
    /\ lowestPriority <= maxPriorityFeePerGas recorded.
Proof.
  unfold saveGasPrice.
  set (this1 := saveMaxFeePerGas this (maxFeePerGas recorded) ts).
  destruct (saveMaxFeePerGas_tail this (maxFeePerGas recorded) ts)
    as [ef [Ef Hef]].
  destruct (saveMaxPriorityFeePerGas_tail this1
              (maxPriorityFeePerGas recorded) ts) as [ep [Ep Hep]].
  fold this1 in Ef.
  rewrite saveMaxPriorityFeePerGas_other_queue.
  destruct (queueMinimum_spec (queueMaxFeePerGas this1))
    as [mf [Emf [Hallf _]]];
    [intros Hnil; rewrite Hnil in Ef; discriminate|].
  destruct (queueMinimum_spec
              (queueMaxPriorityFeePerGas
                 (saveMaxPriorityFeePerGas this1
                    (maxPriorityFeePerGas recorded) ts)))
    as [mp [Emp [Hallp _]]];
    [intros Hnil; rewrite Hnil in Ep; discriminate|].
  exists mf, mp. repeat split; trivial.
  - specialize (Hallf ef (lastEntry_In _ _ Ef)). lia.
  - specialize (Hallp ep (lastEntry_In _ _ Ep)). lia.
Qed.

(** X4: on every chain but DFK, the fees that [getGasPrice] has just
    returned, and any fees at least as high, are accepted by
    [validateGasPrice] on the manager that the call leaves behind, whatever
    the outside world answers then. *)
Theorem getGasPrice_then_validateGasPrice (this this' : t) (w w' : World)
    (gp submitted : GasPriceParameters) :
  chain_id this <> chains.dfk ->
  getGasPrice this w = Some (gp, this') ->
  maxFeePerGas gp <= maxFeePerGas submitted ->
  maxPriorityFeePerGas gp <= maxPriorityFeePerGas submitted ->
  validateGasPrice this' w' submitted = Some (Accepted, this').
Proof.
  intros Hchain Hget Hfee Hprio.
  pose proof (getGasPrice_records _ _ _ _ Hget) as ->.
  apply getGasPrice_returns_bumped in Hget as [p ->].
  apply Z.eqb_neq in Hchain. rewrite Hchain.
  destruct (bumpTheGasPrice_bounds this p) as [_ [_ [_ Hnonneg]]].
  pose proof (bumpTheGasPrice_ordered this p) as Hord.
  destruct (saveGasPrice_minima this
              (floored (bumpTheGasPrice this p) 0 0) (Date_now w))
    as [mf [mp [Emf [Emp [Hmf Hmp]]]]].
  rewrite (validateGasPrice_warm _ w' submitted mf mp Emf Emp).
  unfold floored in Hmf, Hmp. cbn [maxFeePerGas maxPriorityFeePerGas] in *.
  rewrite maxBigInt_max in Hmf, Hmp.
  destruct (Z.ltb_spec (maxFeePerGas submitted) mf); [lia|].
  destruct (Z.ltb_spec (maxPriorityFeePerGas submitted) mp); [lia|].
  reflexivity.
Qed.

Lemma getGasPrice_then_validateGasPrice_witness :
  validateGasPrice
    (saveGasPrice (constructor chains.polygon false None)
       {| maxFeePerGas := 50000000000;
          maxPriorityFeePerGas := 50000000000 |} 1700000000000)
    emptyBlockWorld
    {| maxFeePerGas := 50000000000; maxPriorityFeePerGas := 50000000000 |}
  = Some (Accepted,
          saveGasPrice (constructor chains.polygon false None)
            {| maxFeePerGas := 50000000000;
               maxPriorityFeePerGas := 50000000000 |} 1700000000000).
Proof.
  apply (getGasPrice_then_validateGasPrice
           (constructor chains.polygon false None) _ invertedStationWorld
           emptyBlockWorld
           {| maxFeePerGas := 50000000000;
              maxPriorityFeePerGas := 50000000000 |}).
  - discriminate.
  - reflexivity.
  - cbn. lia.
  - cbn. lia.
Defined.

(** ** When validation can fail *)







(** ** One entry per second *)

Lemma lastEntry_cons (a b : Entry) (rest : list Entry) :
  lastEntry (a :: b :: rest) = lastEntry (b :: rest).
Proof. reflexivity. Qed.

Lemma spaced_snoc (queue : list Entry) (e : Entry) :
  spaced queue ->
  (forall last, lastEntry queue = Some last ->
                1000 <= timestamp e - timestamp last) ->
  spaced (queue ++ [e]).
Proof.
  induction queue as [|a queue IH]; intros Hs Hgap; [cbn; tauto|].
  destruct Hs as [Hnext Hs]. cbn [app spaced]. split.
  - destruct queue as [|b rest]; [|exact Hnext].
    cbn. apply Hgap. reflexivity.
  - apply IH; [exact Hs|].
    intros last Hlast. apply Hgap.
    destruct queue as [|b rest]; [discriminate|].
    rewrite lastEntry_cons. exact Hlast.
Qed.

Lemma spaced_tl (queue : list Entry) : spaced queue -> spaced (tl queue).
Proof. destruct queue; [trivial | intros [_ H]; exact H]. Qed.

Lemma lastEntry_tl (queue : list Entry) (last : Entry) :
  lastEntry (tl queue) = Some last -> lastEntry queue = Some last.
Proof.
  destruct queue as [|a [|b rest]]; cbn [tl]; try discriminate.
  rewrite lastEntry_cons. trivial.
Qed.

Lemma spaced_overwriteLast (queue : list Entry) (last e : Entry) :
  spaced queue ->
  lastEntry queue = Some last ->
  timestamp last <= timestamp e ->
  spaced (overwriteLast queue e).
Proof.
  unfold overwriteLast.
  induction queue as [|a queue IH]; intros Hs Hlast Hle; [discriminate|].
  destruct queue as [|b rest]; [cbn; tauto|].
  destruct Hs as [Hnext Hs]. rewrite lastEntry_cons in Hlast.
  change (removelast (a :: b :: rest)) with (a :: removelast (b :: rest)).
  cbn [app spaced]. split; [|apply IH; assumption].
  destruct rest as [|c rest'].
  - cbn in Hlast. injection Hlast as <-. cbn. lia.
  - exact Hnext.
Qed.

(** One [save...] step on one queue keeps the entries a second apart, as
    long as the clock has not gone back behind the tail. *)
Lemma guarded_save_spaced (W : Z) (queue : list Entry) (gasPrice ts : Z) :
  spaced queue ->
  notAfter queue ts ->
  let incoming := {| price := gasPrice; timestamp := ts |} in
  let pushed :=
    push (if Z.of_nat (List.length queue) >=? W
          then shift queue else queue) incoming in
  let queue' :=
    match lastEntry queue with
    | None => pushed
    | Some last =>
        if ts - timestamp last >=? 1000 then pushed
        else if gasPrice <? price last then overwriteLast queue incoming
        else queue
    end in
  spaced queue' /\ notAfter queue' ts.
Proof.
  intros Hs Hclock. cbn zeta.
  assert (Hpush :
    (forall last, lastEntry queue = Some last ->
                  1000 <= ts - timestamp last) ->
    spaced (push (if Z.of_nat (List.length queue) >=? W
                  then shift queue else queue)
              {| price := gasPrice; timestamp := ts |})
    /\ notAfter (push (if Z.of_nat (List.length queue) >=? W
                       then shift queue else queue)
                   {| price := gasPrice; timestamp := ts |}) ts).
  { intros Hgap. unfold push, shift, notAfter. split.
    - destruct (_ >=? W).
      + apply spaced_snoc; [apply spaced_tl, Hs|].
        intros last Hlast. apply lastEntry_tl in Hlast. now apply Hgap.
      + apply spaced_snoc; assumption.
    - intros last. rewrite lastEntry_snoc. intros [= <-]. cbn. lia. }
  destruct (lastEntry queue) as [last|] eqn:E.
  - destruct (Z.geb_spec (ts - timestamp last) 1000) as [Hfar|Hnear].
    + apply Hpush. intros l [= <-]. cbn. lia.
    + destruct (gasPrice <? price last).
      * split.
        -- apply (spaced_overwriteLast queue last); trivial.
           cbn. now apply Hclock.
        -- unfold notAfter, overwriteLast. intros l.
           rewrite lastEntry_snoc. intros [= <-]. cbn. lia.
      * split; assumption.
  - apply Hpush. intros l Hl. discriminate.
Qed.

(** X6: under a clock that does not run backwards, the queues hold at most
    one entry per second: if in both queues consecutive entries are at
    least 1000 ms apart and no entry is younger than [Date.now()], the same
    holds after a successful [getGasPrice] call. *)
Theorem getGasPrice_keeps_spacing (this this' : t) (w : World)
    (gp : GasPriceParameters) :
  getGasPrice this w = Some (gp, this') ->
  spaced (queueMaxFeePerGas this) ->
  spaced (queueMaxPriorityFeePerGas this) ->
  notAfter (queueMaxFeePerGas this) (Date_now w) ->
  notAfter (queueMaxPriorityFeePerGas this) (Date_now w) ->
  spaced (queueMaxFeePerGas this')
  /\ spaced (queueMaxPriorityFeePerGas this')
  /\ notAfter (queueMaxFeePerGas this') (Date_now w)
  /\ notAfter (queueMaxPriorityFeePerGas this') (Date_now w).
Proof.
  intros Hget Hsf Hsp Hcf Hcp.
  rewrite (getGasPrice_records _ _ _ _ Hget). unfold saveGasPrice.
  set (recorded := floored gp _ _).
  set (this1 := saveMaxFeePerGas this (maxFeePerGas recorded) (Date_now w)).
  assert (spaced (queueMaxFeePerGas this1)
          /\ notAfter (queueMaxFeePerGas this1) (Date_now w)) as [Hsf1 Hcf1].
  { pose proof (guarded_save_spaced (maxQueueSize this)
                  (queueMaxFeePerGas this) (maxFeePerGas recorded)
                  (Date_now w) Hsf Hcf) as H.
    cbn zeta in H. subst this1. unfold saveMaxFeePerGas.
    destruct (lastEntry (queueMaxFeePerGas this)) as [last|];
      [destruct (_ >=? 1000); [|destruct (_ <? price last)]|];
      cbn [queueMaxFeePerGas set_queueMaxFeePerGas]; exact H. }
  assert (queueMaxPriorityFeePerGas this1 = queueMaxPriorityFeePerGas this)
    as Hsame by apply saveMaxFeePerGas_other_queue.
  assert (maxQueueSize this1 = maxQueueSize this) as Hsize
    by apply saveMaxFeePerGas_maxQueueSize.
  rewrite saveMaxPriorityFeePerGas_other_queue.
  split; [exact Hsf1|]. split; [|split; [exact Hcf1|]].
  - pose proof (guarded_save_spaced (maxQueueSize this1)
                  (queueMaxPriorityFeePerGas this1)
                  (maxPriorityFeePerGas recorded) (Date_now w)) as H.
    rewrite Hsame in H. specialize (H Hsp Hcp). cbn zeta in H.
    unfold saveMaxPriorityFeePerGas. rewrite Hsame.
    destruct (lastEntry (queueMaxPriorityFeePerGas this)) as [last|];
      [destruct (_ >=? 1000); [|destruct (_ <? price last)]|];
      cbn [queueMaxPriorityFeePerGas set_queueMaxPriorityFeePerGas];
      try rewrite Hsame; apply H.
  - pose proof (guarded_save_spaced (maxQueueSize this1)
                  (queueMaxPriorityFeePerGas this1)
                  (maxPriorityFeePerGas recorded) (Date_now w)) as H.
    rewrite Hsame in H. specialize (H Hsp Hcp). cbn zeta in H.
    unfold saveMaxPriorityFeePerGas. rewrite Hsame.
    destruct (lastEntry (queueMaxPriorityFeePerGas this)) as [last|];
      [destruct (_ >=? 1000); [|destruct (_ <? price last)]|];
      cbn [queueMaxPriorityFeePerGas set_queueMaxPriorityFeePerGas];
      try rewrite Hsame; apply H.
Qed.

Lemma getGasPrice_keeps_spacing_witness :
  spaced
    (queueMaxFeePerGas
       (saveGasPrice
          (saveGasPrice (constructor chains.mainnet false None)
             {| maxFeePerGas := 1110000000;
                maxPriorityFeePerGas := 1110000000 |} 1700000000000)
          {| maxFeePerGas := 555000000; maxPriorityFeePerGas := 555000000 |}
          1700000000400)).
Proof.
  refine (proj1 (getGasPrice_keeps_spacing
                   (saveGasPrice (constructor chains.mainnet false None)
                      {| maxFeePerGas := 1110000000;
                         maxPriorityFeePerGas := 1110000000 |} 1700000000000)
                   _ halfGweiWorld
                   {| maxFeePerGas := 555000000;
                      maxPriorityFeePerGas := 555000000 |} _ _ _ _ _)).
  - reflexivity.
  - cbn. tauto.
  - cbn. tauto.
  - intros last [= <-]. cbn. lia.
  - intros last [= <-]. cbn. lia.
Defined.

(** ** Estimating fees *)

(** X7: [getNextBaseFee] throws in exactly three situations: the block
    cannot be fetched; the block has no base fee (null or 0) and the gas
    price call fails; or the gas target [gasLimit / 2] is zero while gas
    was used (a division by zero). *)
Theorem getNextBaseFee_throws_iff (w : World) :
  getNextBaseFee w = None
  <-> match getBlock w with
      | None => True
      | Some block =>
          ((baseFeePerGas block = None \/ baseFeePerGas block = Some 0)
           /\ rpcGasPrice w = None)
          \/ (gasLimit block ÷ 2 = 0 /\ gasUsed block <> 0)
      end.
Proof.
  unfold getNextBaseFee, bigDiv.
  destruct (getBlock w) as [block|]; cbn [bindOpt]; [|tauto].
  set (target := gasLimit block ÷ 2).
  assert (Hrest : forall base,
    (if gasUsed block =? target then Some base
     else if gasUsed block >? target
     then let? q := (if target =? 0 then None
                     else Some (base * (gasUsed block - target) ÷ target))
          in Some (base + maxBigInt (q ÷ 8) 1)
     else let? q := (if target =? 0 then None
                     else Some (base * (gasUsed block - target) ÷ target))
          in Some (base - q ÷ 8)) = None
    <-> target = 0 /\ gasUsed block <> 0).
  { intros base.
    destruct (Z.eqb_spec (gasUsed block) target) as [Heq|Hne].
    - split; [discriminate | intros [H0 Hu]; congruence].
    - destruct (Z.eqb_spec target 0) as [Ht|Ht];
        destruct (gasUsed block >? target); cbn [bindOpt];
        split; try discriminate; try tauto;
        intros _; split; congruence. }
  destruct (baseFeePerGas block) as [b|].
  - destruct (Z.eqb_spec b 0) as [-> | Hb].
    + destruct (rpcGasPrice w) as [g|]; cbn [bindOpt].
      * rewrite Hrest. split; [tauto|].
        intros [[_ H] | H]; [discriminate | exact H].
      * split; [intros _; left; split; [now right | reflexivity]
               | reflexivity].
    + cbn [bindOpt]. rewrite Hrest. split; [tauto|].
      intros [[[H | H] _] | H]; [discriminate | congruence | exact H].
  - destruct (rpcGasPrice w) as [g|]; cbn [bindOpt].
    + rewrite Hrest. split; [tauto|].
      intros [[_ H] | H]; [discriminate | exact H].
    + split; [intros _; left; split; [now left | reflexivity]
             | reflexivity].
Qed.

(** X8: on a chain without EIP-1559 support (and when the Polygon gas
    station is not used), [getGasPrice] returns the same amount for both
    fees. *)
Theorem getGasPrice_legacy_equal_fees (this this' : t) (w : World)
    (gp : GasPriceParameters) :
  noEip1559Support this = true ->
  (chain_id this =? chains.polygon) || (chain_id this =? chains.polygonMumbai)
  = false \/ gasStation w = None ->
  getGasPrice this w = Some (gp, this') ->
  maxFeePerGas gp = maxPriorityFeePerGas gp.
Proof.
  intros Hlegacy Hstation. unfold getGasPrice, getPolygonGasPriceParameters.
  rewrite Hlegacy.
  assert (Hrest :
    (let? fees := getNoEip1559SupportGasPrice w
     in Some (bumpTheGasPrice this fees,
              saveGasPrice this
                (floored (bumpTheGasPrice this fees)
                   (if chain_id this =? chains.dfk then 5000000000 else 0)
                   (if chain_id this =? chains.dfk then 5000000000 else 0))
                (Date_now w))) = Some (gp, this') ->
    maxFeePerGas gp = maxPriorityFeePerGas gp).
  { unfold getNoEip1559SupportGasPrice.
    destruct (match match estimateFeesPerGasLegacy w with
                    | Some gasInfo => fees_gasPrice gasInfo
                    | None => None
                    end with
              | Some g => Some g
              | None => rpcGasPrice w
              end) as [g|]; cbn [bindOpt]; [|discriminate].
    intros [= <- _]. unfold bumpTheGasPrice.
    cbn [maxFeePerGas maxPriorityFeePerGas].
    rewrite !maxBigInt_max.
    destruct (_ || _ || _); cbn [maxFeePerGas maxPriorityFeePerGas];
      [reflexivity|].
    do 2 f_equal. lia. }
  destruct Hstation as [-> | ->]; [exact Hrest|].
  destruct (_ || _); exact Hrest.
Qed.

Lemma getGasPrice_legacy_equal_fees_witness :
  maxFeePerGas {| maxFeePerGas := 3330000000;
                  maxPriorityFeePerGas := 3330000000 |}
  = maxPriorityFeePerGas {| maxFeePerGas := 3330000000;
                            maxPriorityFeePerGas := 3330000000 |}.
Proof.
  apply (getGasPrice_legacy_equal_fees
           (constructor chains.mainnet true None)
           (saveGasPrice (constructor chains.mainnet true None)
              {| maxFeePerGas := 3330000000;
                 maxPriorityFeePerGas := 3330000000 |} 1700000000000)
           legacyWorld).
  - reflexivity.
  - left. reflexivity.
  - reflexivity.
Defined.

(** X9: when the node reports a non-negative max fee but no priority fee,
    [estimateGasPrice] keeps the max fee and returns a priority fee that
    does not exceed it (the fee-history average is capped by the max fee,
    and a zero priority fee becomes max fee / 200). *)
Theorem estimateGasPrice_missing_priority (w : World) (fees : FeeValues)
    (maxFee : Z) (estimate : GasPriceParameters) :
  estimateFeesPerGas w = Some fees ->
  fees_maxFeePerGas fees = Some maxFee ->
  fees_maxPriorityFeePerGas fees = None ->
  0 <= maxFee ->
  estimateGasPrice w = Some estimate ->
  maxFeePerGas estimate = maxFee
  /\ maxPriorityFeePerGas estimate <= maxFee.
Proof.
  intros Hfees Hmax Hprio Hnonneg. unfold estimateGasPrice.
  rewrite Hfees, Hmax, Hprio.
  unfold getFallBackMaxPriorityFeePerGas.
  destruct (getFeeHistory w) as [[reward|]|]; cbn [bindOpt];
    [destruct (sumFirstRewards reward 0) as [total|]; cbn [bindOpt]| |];
    try discriminate;
    intros [= <-]; cbn [maxFeePerGas maxPriorityFeePerGas];
    (split; [reflexivity|]).
  - rewrite minBigInt_min.
    destruct (Z.eqb_spec (Z.min (total ÷ 10) maxFee) 0); [|lia].
    apply Z.quot_le_upper_bound; lia.
  - destruct (Z.eqb_spec maxFee 0); [|lia].
    apply Z.quot_le_upper_bound; lia.
Qed.

Lemma estimateGasPrice_missing_priority_witness :
  maxFeePerGas {| maxFeePerGas := 2000000000;
                  maxPriorityFeePerGas := 600000000 |} = 2000000000
  /\ maxPriorityFeePerGas {| maxFeePerGas := 2000000000;
                             maxPriorityFeePerGas := 600000000 |}
     <= 2000000000.
Proof.
  apply (estimateGasPrice_missing_priority noPriorityWorld
           {| fees_gasPrice := None;
              fees_maxFeePerGas := Some 2000000000;
              fees_maxPriorityFeePerGas := None |}).
  - reflexivity.
  - reflexivity.
  - reflexivity.
  - lia.
  - reflexivity.
Defined.

(** X10: when [estimateFeesPerGas] throws, the fee history does not enter
    the estimate: for any history with a non-negative reward sum the
    fallback priority fee is capped at 0, so the estimate is the projected
    next base fee with a priority fee of one 200th of it. *)
Theorem estimateGasPrice_without_node_estimate (w : World)
    (reward : list (list Z)) (total nextBaseFee : Z) :
  estimateFeesPerGas w = None ->
  getFeeHistory w = Some (Some reward) ->
  sumFirstRewards reward 0 = Some total ->
  0 <= total ->
  getNextBaseFee w = Some nextBaseFee ->
  estimateGasPrice w
  = Some {| maxFeePerGas := nextBaseFee;
            maxPriorityFeePerGas := nextBaseFee ÷ 200 |}.
Proof.
  intros Hfees Hhist Hsum Hnonneg Hnext. unfold estimateGasPrice.
  rewrite Hfees. unfold getFallBackMaxPriorityFeePerGas.
  rewrite Hhist. cbn [bindOpt]. rewrite Hsum. cbn [bindOpt].
  assert (minBigInt (total ÷ 10) 0 = 0) as ->.
  { rewrite minBigInt_min. pose proof (Z.quot_pos total 10). lia. }
  rewrite Hnext. cbn [bindOpt]. rewrite Z.add_0_r. reflexivity.
Qed.

Lemma estimateGasPrice_without_node_estimate_witness :
  estimateGasPrice noEstimateWorld
  = Some {| maxFeePerGas := 1000; maxPriorityFeePerGas := 1000 ÷ 200 |}.
Proof.
  apply (estimateGasPrice_without_node_estimate noEstimateWorld
           [[1000000000]; [5000000000]] 6000000000 1000).
  - reflexivity.
  - reflexivity.
  - reflexivity.
  - lia.
  - reflexivity.
Defined.

(** X21: every price that [getGasPrice] returns respects the chain
    minimum: its priority fee is at least the chain's default gas fee
    (31 gwei on Polygon, 1 gwei on Mumbai) and never negative, whatever
    the node or the gas station answered. *)
Theorem getGasPrice_respects_minimum (this this' : t) (w : World)
    (gp : GasPriceParameters) :
  getGasPrice this w = Some (gp, this') ->
  getDefaultGasFee (chain_id this) <= maxPriorityFeePerGas gp
  /\ 0 <= maxPriorityFeePerGas gp.
Proof.
  intros Hget. apply getGasPrice_returns_bumped in Hget as [p ->].
  destruct (bumpTheGasPrice_bounds this p) as [_ [_ [Hmin Hnonneg]]].
  now split.
Qed.

Lemma getGasPrice_respects_minimum_witness :
  getDefaultGasFee chains.polygon <= 50000000000 /\ 0 <= 50000000000.
Proof.
  apply (getGasPrice_respects_minimum
           (constructor chains.polygon false None)
           (saveGasPrice (constructor chains.polygon false None)
              {| maxFeePerGas := 50000000000;
                 maxPriorityFeePerGas := 50000000000 |} 1700000000000)
           invertedStationWorld
           {| maxFeePerGas := 50000000000;
              maxPriorityFeePerGas := 50000000000 |}).
  reflexivity.
Defined.

Lemma sumFirstRewards_None_iff (reward : list (list Z)) (acc : Z) :
  sumFirstRewards reward acc = None <-> In [] reward.
Proof.
  revert acc. induction reward as [|cur rest IH]; intros acc; cbn.
  - split; [discriminate | intros []].
  - destruct cur as [|r cur'].
    + split; [intros _; now left | reflexivity].
    + rewrite IH. split; [intros H; now right|].
      intros [H | H]; [discriminate | exact H].
Qed.

(** X22: [getFallBackMaxPriorityFeePerGas] throws exactly when the fee
    history cannot be fetched or one of its blocks has an empty reward
    list; otherwise its result never exceeds the gas price it was given
    as a cap. *)
Theorem getFallBackMaxPriorityFeePerGas_behaviour (w : World)
    (gasPrice : Z) :
  (getFallBackMaxPriorityFeePerGas w gasPrice = None
   <-> getFeeHistory w = None
       \/ exists reward,
            getFeeHistory w = Some (Some reward) /\ In [] reward)
  /\ (forall fee,
        getFallBackMaxPriorityFeePerGas w gasPrice = Some fee ->
        fee <= gasPrice).
Proof.
  unfold getFallBackMaxPriorityFeePerGas.
  destruct (getFeeHistory w) as [[reward|]|]; cbn [bindOpt].
  - destruct (sumFirstRewards reward 0) as [total|] eqn:Esum; cbn [bindOpt].
    + split.
      * split; [discriminate|].
        intros [H | [reward' [[= <-] Hin]]]; [discriminate|].
        apply sumFirstRewards_None_iff with (acc := 0) in Hin. congruence.
      * intros fee [= <-]. rewrite minBigInt_min. lia.
    + split; [|discriminate].
      split; [intros _|reflexivity].
      right. exists reward. split; [reflexivity|].
      now apply (sumFirstRewards_None_iff reward 0).
  - split.
    + split; [discriminate|].
      intros [H | [reward' [H _]]]; discriminate.
    + intros fee [= <-]. lia.
  - split; [|discriminate].
    split; [intros _; now left | reflexivity].
Qed.

Lemma getFallBackMaxPriorityFeePerGas_behaviour_witness :
  600000000 <= 2000000000.
Proof.
  apply (proj2 (getFallBackMaxPriorityFeePerGas_behaviour noPriorityWorld
                  2000000000) 600000000).
  reflexivity.
Defined.

End GasPriceManagerFurther.

(** * Further properties of the validator *)

Section UnsafeValidatorFurther.
Import viem UnsafeValidator.

(** ** Words that cannot be unpacked *)

Lemma ascii_to_digit_bound (c : ascii) (v : N) :
  HexString.ascii_to_digit c = Some v -> (v < 16)%N.
Proof.
  unfold HexString.ascii_to_digit.
  repeat match goal with
         | |- context [if ?b then _ else _] => destruct b
         end;
    intros [= <-]; reflexivity.
Qed.

(** A string of [n] characters denotes a number below [16^n]. *)
Lemma to_N_bound (s : string) (acc : N) :
  (HexString.Raw.to_N s acc
   < (acc + 1) * 16 ^ N.of_nat (String.length s))%N.
Proof.
  revert acc. induction s as [|c s IH]; intros acc.
  - cbn. lia.
  - cbn [HexString.Raw.to_N String.length].
    rewrite Nat2N.inj_succ, N.pow_succ_r'.
    eapply N.lt_le_trans; [apply IH|].
    rewrite (N.mul_comm 16), N.mul_assoc.
    apply N.mul_le_mono_r.
    destruct (HexString.ascii_to_digit c) as [v|] eqn:E; [|lia].
    apply ascii_to_digit_bound in E. lia.
Qed.

(** [toString(16)] of a number from [16^k] on has more than [k] digits. *)
Lemma toString16_long (k : nat) (n : Z) :
  16 ^ Z.of_nat k <= n -> (k < String.length (toString16 n))%nat.
Proof.
  intros Hn.
  assert (0 < 16 ^ Z.of_nat k) as Hpos by (apply Z.pow_pos_nonneg; lia).
  destruct n as [|p|p]; try lia.
  cbn [toString16].
  pose proof (to_N_bound (HexString.Raw.of_pos p EmptyString) 0) as Hb.
  rewrite HexString.Raw.to_N_of_pos in Hb. cbn [HexString.Raw.to_N] in Hb.
  destruct (Nat.lt_ge_cases k
              (String.length (HexString.Raw.of_pos p EmptyString)))
    as [Hlt|Hge]; [exact Hlt|].
  exfalso.
  assert (16 ^ N.of_nat (String.length (HexString.Raw.of_pos p EmptyString))
          <= 16 ^ N.of_nat k)%N as Hmono
    by (apply N.pow_le_mono_r; lia).
  assert (Z.of_N (N.pos p) < Z.of_N (16 ^ N.of_nat k)) as Hz
    by (apply N2Z.inj_lt; lia).
  rewrite N2Z.inj_pow, nat_N_Z in Hz. cbn [Z.of_N] in Hz. lia.
Qed.

Lemma parseValidationData_None_iff (w : Z) :
  parseValidationData w = None <-> w < 0 \/ 2 ^ 256 <= w.
Proof.
  split.
  - intros Hnone.
    destruct (Z_lt_le_dec w 0) as [Hneg|Hnonneg]; [now left|].
    destruct (Z_lt_le_dec w (2 ^ 256)) as [Hlt|Hge]; [|now right].
    rewrite parseValidationData_fields in Hnone by lia. discriminate.
  - intros [Hneg|Hbig]; unfold parseValidationData, toHex.
    + destruct (Z.ltb_spec w 0); [reflexivity|lia].
    + destruct (Z.ltb_spec w 0); [reflexivity|]. cbn [bindOpt].
      unfold pad. rewrite replace0x_prefixed.
      change (32 * 2)%nat with 64%nat.
      pose proof (toString16_long 64 w Hbig) as Hlong.
      destruct (Nat.ltb_spec 64 (String.length (toString16 w)));
        [reflexivity|lia].
Qed.

(** X11: [parseValidationData] throws exactly on the words that are not a
    u256: negative ones ([toHex] refuses them) and those from [2^256] on
    ([pad] refuses more than 32 bytes). *)
Theorem parseValidationData_throws_iff (w : Z) :
  parseValidationData w = None <-> w < 0 \/ 2 ^ 256 <= w.
Proof. exact (parseValidationData_None_iff w). Qed.

(** ** The fields as numbers *)

Lemma aggregator_is_zeroAddress (w : Z) :
  0 <= w < 2 ^ 256 ->
  String.eqb (String "0" (String "x" (hexString (digitsBE 16 40 w))))
    zeroAddress
  = (aggregatorBits w =? 0).
Proof.
  intros Hw. unfold aggregatorBits.
  pose proof (parseValidationData_zero_aggregator w Hw) as H.
  rewrite parseValidationData_fields in H by exact Hw.
  assert (Some (String "0" (String "x" (hexString (digitsBE 16 40 w))))
          = Some zeroAddress <-> w mod 2 ^ 160 = 0) as H' by exact H.
  clear H.
  destruct (String.eqb_spec
              (String "0" (String "x" (hexString (digitsBE 16 40 w))))
              zeroAddress) as [Heq|Hne];
    destruct (Z.eqb_spec (w mod 2 ^ 160) 0) as [Hz|Hnz]; trivial.
  - exfalso. apply Hnz, H'. now rewrite Heq.
  - exfalso. apply Hne. apply H' in Hz. congruence.
Qed.

Lemma parseValidationData_bits (w : Z) :
  0 <= w < 2 ^ 256 ->
  exists v,
    parseValidationData w = Some v
    /\ String.eqb (aggregator v) zeroAddress = (aggregatorBits w =? 0)
    /\ String.length (aggregator v) = 42%nat
    /\ validAfter v = validAfterBits w
    /\ validUntil v = neverIfZero (validUntilBits w).
Proof.
  intros Hw. eexists. split; [apply parseValidationData_fields, Hw|].
  cbn [aggregator validAfter validUntil].
  split; [apply aggregator_is_zeroAddress, Hw|].
  split; [|split; reflexivity].
  cbn [String.length]. rewrite hexString_length, digitsBE_length.
  reflexivity.
Qed.

Lemma validAfterBits_range (w : Z) :
  0 <= w < 2 ^ 256 -> 0 <= validAfterBits w < 2 ^ 48.
Proof.
  intros Hw. unfold validAfterBits. split; [apply Z.div_pos; lia|].
  apply Z.div_lt_upper_bound; [lia|].
  change (2 ^ 208 * 2 ^ 48) with (2 ^ 256). lia.
Qed.

Lemma neverIfZero_range (w : Z) :
  0 < neverIfZero (validUntilBits w) < 2 ^ 48.
Proof.
  unfold neverIfZero, validUntilBits.
  pose proof (Z.mod_pos_bound (w / 2 ^ 160) (2 ^ 48) ltac:(lia)) as Hb.
  destruct (Z.eqb_spec ((w / 2 ^ 160) mod 2 ^ 48) 0); lia.
Qed.

(** X12: for every u256 word the unpacked triple is well formed: the
    aggregator is a string of 42 characters, [validAfter] lies in
    [0, 2^48) and [validUntil] in (0, 2^48): an unpacked [validUntil] is
    never zero. *)
Theorem parseValidationData_ranges (w : Z) (v : ValidationData) :
  0 <= w < 2 ^ 256 ->
  parseValidationData w = Some v ->
  String.length (aggregator v) = 42%nat
  /\ 0 <= validAfter v < 2 ^ 48
  /\ 0 < validUntil v < 2 ^ 48.
Proof.
  intros Hw Hparse.
  destruct (parseValidationData_bits w Hw) as [v' [Hv' [_ [Hlen [Ha Hu]]]]].
  assert (v' = v) as <- by congruence.
  split; [exact Hlen|].
  rewrite Ha, Hu.
  split; [apply validAfterBits_range, Hw | apply neverIfZero_range].
Qed.

Lemma parseValidationData_ranges_witness :
  String.length
    (aggregator
       {| aggregator := zeroAddress; validAfter := 100; validUntil := 200 |})
  = 42%nat
  /\ 0 <= 100 < 2 ^ 48
  /\ 0 < 200 < 2 ^ 48.
Proof.
  apply (parseValidationData_ranges (packWindow 100 200)
           {| aggregator := zeroAddress; validAfter := 100;
              validUntil := 200 |}).
  - vm_compute. split; [discriminate|reflexivity].
  - vm_compute. reflexivity.
Defined.

Lemma mergeValidationDataValues_bits (account paymaster' : Z) :
  0 <= account < 2 ^ 256 ->
  0 <= paymaster' < 2 ^ 256 ->
  exists merged,
    mergeValidationDataValues account paymaster' = Some merged
    /\ merged_accountSigFailed merged = negb (aggregatorBits account =? 0)
    /\ merged_paymasterSigFailed merged
       = negb (aggregatorBits paymaster' =? 0)
    /\ merged_validAfter merged
       = Z.max (validAfterBits account) (validAfterBits paymaster')
    /\ merged_validUntil merged
       = Z.min (neverIfZero (validUntilBits account))
               (neverIfZero (validUntilBits paymaster')).
Proof.
  intros Ha Hp.
  destruct (parseValidationData_bits account Ha)
    as [va [Eva [Haz [_ [Haa Hau]]]]].
  destruct (parseValidationData_bits paymaster' Hp)
    as [vp [Evp [Hpz [_ [Hpa Hpu]]]]].
  exists (mergeValidationData va vp).
  unfold mergeValidationDataValues. rewrite Eva, Evp. cbn [bindOpt].
  split; [reflexivity|]. unfold mergeValidationData.
  cbn [merged_accountSigFailed merged_paymasterSigFailed merged_validAfter
       merged_validUntil].
  rewrite Haz, Hpz, Haa, Hpa, Hau, Hpu. repeat split.
Qed.

(** X13: [mergeValidationDataValues] on two u256 words never throws and
    reads its result off the bits: a signature counts as failed exactly
    when the low 160 bits of its word are not zero, [validAfter] is the
    larger of the two top-48-bit fields and [validUntil] the smaller of
    the two middle-48-bit fields, where a zero field counts as
    [2^48 - 1] and so never shortens the window. *)
Theorem mergeValidationDataValues_composed (account paymaster' : Z) :
  0 <= account < 2 ^ 256 ->
  0 <= paymaster' < 2 ^ 256 ->
  exists merged,
    mergeValidationDataValues account paymaster' = Some merged
    /\ merged_accountSigFailed merged = negb (aggregatorBits account =? 0)
    /\ merged_paymasterSigFailed merged
       = negb (aggregatorBits paymaster' =? 0)
    /\ merged_validAfter merged
       = Z.max (validAfterBits account) (validAfterBits paymaster')
    /\ merged_validUntil merged
       = Z.min (neverIfZero (validUntilBits account))
               (neverIfZero (validUntilBits paymaster')).
Proof. exact (mergeValidationDataValues_bits account paymaster'). Qed.

Lemma mergeValidationDataValues_composed_witness :
  exists merged,
    mergeValidationDataValues (packWindow 100 0) (packWindow 50 200)
    = Some merged
    /\ merged_accountSigFailed merged
       = negb (aggregatorBits (packWindow 100 0) =? 0)
    /\ merged_paymasterSigFailed merged
       = negb (aggregatorBits (packWindow 50 200) =? 0)
    /\ merged_validAfter merged
       = Z.max (validAfterBits (packWindow 100 0))
               (validAfterBits (packWindow 50 200))
    /\ merged_validUntil merged
       = Z.min (neverIfZero (validUntilBits (packWindow 100 0)))
               (neverIfZero (validUntilBits (packWindow 50 200))).
Proof.
  apply (mergeValidationDataValues_composed (packWindow 100 0)
           (packWindow 50 200)).
  - vm_compute. split; [discriminate|reflexivity].
  - vm_compute. split; [discriminate|reflexivity].
Defined.

(** Whatever [mergeValidationDataValues] accepts is a pair of u256
    words. *)
Lemma mergeValidationDataValues_Some_range (account paymaster' : Z)
    (merged : MergedValidationData) :
  mergeValidationDataValues account paymaster' = Some merged ->
  0 <= account < 2 ^ 256 /\ 0 <= paymaster' < 2 ^ 256.
Proof.
  unfold mergeValidationDataValues. intros H.
  destruct (parseValidationData account) as [va|] eqn:Ea; [|discriminate].
  cbn [bindOpt] in H.
  destruct (parseValidationData paymaster') as [vp|] eqn:Ep; [|discriminate].
  pose proof (parseValidationData_None_iff account) as Na.
  pose proof (parseValidationData_None_iff paymaster') as Np.
  split.
  - destruct (Z_lt_le_dec account 0); [|destruct (Z_lt_le_dec account (2 ^ 256))];
      try lia; exfalso;
      (assert (parseValidationData account = None) as Hn
         by (apply Na; lia)); congruence.
  - destruct (Z_lt_le_dec paymaster' 0);
      [|destruct (Z_lt_le_dec paymaster' (2 ^ 256))];
      try lia; exfalso;
      (assert (parseValidationData paymaster' = None) as Hn
         by (apply Np; lia)); congruence.
Qed.

(** ** What rejection and admission tell about the simulation (v0.7) *)

(** X14: on the v0.7 path an operation whose account or paymaster
    validation data name an aggregator (low 160 bits not zero) is always
    rejected with [InvalidSignature], before any time-window check: with
    the account message when the account word has one, otherwise with the
    paymaster message. *)
Theorem getValidationResultV07_aggregator_rejected (this : t) (w : World)
    (op : V07.UserOperation) (entryPoint : Address)
    (sim : SimulatedValidationResultV07) :
  truthyOpt (entryPointSimulationsAddress this) = true ->
  simulateValidationV07 w = validation sim ->
  0 <= accountValidationData (sim_returnInfo sim) < 2 ^ 256 ->
  0 <= paymasterValidationData (sim_returnInfo sim) < 2 ^ 256 ->
  aggregatorBits (accountValidationData (sim_returnInfo sim)) <> 0
  \/ aggregatorBits (paymasterValidationData (sim_returnInfo sim)) <> 0 ->
  getValidationResultV07 this w op entryPoint
  = throw (RpcError
             (Literal
                (if aggregatorBits (accountValidationData (sim_returnInfo sim))
                    =? 0
                 then "Invalid UserOp paymasterData"%string
                 else "Invalid UserOp signature"%string))
             InvalidSignature).
Proof.
  intros Haddr Hsim Ha Hp Hagg.
  destruct (mergeValidationDataValues_bits _ _ Ha Hp)
    as [m [Em [Hacc [Hpm _]]]].
  unfold getValidationResultV07. rewrite Haddr, Hsim, Em.
  cbn [negb bindErr ok returnInfo07 accountSigFailed paymasterSigFailed].
  rewrite Hacc, Hpm.
  destruct (Z.eqb_spec
              (aggregatorBits (accountValidationData (sim_returnInfo sim))) 0)
    as [Hz|Hnz]; cbn [negb]; [|reflexivity].
  destruct (Z.eqb_spec
              (aggregatorBits (paymasterValidationData (sim_returnInfo sim)))
              0) as [Hz'|Hnz']; cbn [negb]; [|reflexivity].
  destruct Hagg; contradiction.
Qed.

Lemma getValidationResultV07_aggregator_rejected_witness :
  getValidationResultV07 (validatorV2 false)
    (worldOf (Unparsed false None) (simulatedV07 450000 1 0) 1700000000000)
    sponsoredOpV07 entryPoint07
  = throw (RpcError (Literal "Invalid UserOp signature") InvalidSignature).
Proof.
  refine (getValidationResultV07_aggregator_rejected (validatorV2 false)
            (worldOf (Unparsed false None) (simulatedV07 450000 1 0)
               1700000000000)
            sponsoredOpV07 entryPoint07 _ _ eq_refl _ _ _).
  - reflexivity.
  - vm_compute. split; [discriminate|reflexivity].
  - vm_compute. split; [discriminate|reflexivity].
  - left. vm_compute. discriminate.
Defined.

(** What a successful [getValidationResultV07] went through. *)
Lemma getValidationResultV07_ok_inv (this : t) (w : World)
    (op : V07.UserOperation) (entryPoint : Address)
    (res : ValidationResultV07) :
  getValidationResultV07 this w op entryPoint = ok res ->
  exists sim merged,
    simulateValidationV07 w = validation sim
    /\ mergeValidationDataValues
         (accountValidationData (sim_returnInfo sim))
         (paymasterValidationData (sim_returnInfo sim)) = Some merged
    /\ merged_accountSigFailed merged = false
    /\ merged_paymasterSigFailed merged = false
    /\ merged_validAfter merged <= Date_now w / 1000 - 5
    /\ Date_now w / 1000 + 30 <= merged_validUntil merged
    /\ validAfter07 (returnInfo07 res) = merged_validAfter merged
    /\ validUntil07 (returnInfo07 res) = Some (merged_validUntil merged)
    /\ senderInfo07 res
       = withAddr (sim_senderInfo sim) (V07.sender op)
    /\ storageMap07 res = [].
Proof.
  unfold getValidationResultV07.
  destruct (truthyOpt (entryPointSimulationsAddress this));
    cbn [negb]; [|discriminate].
  destruct (simulateValidationV07 w) as [data|sim]; [discriminate|].
  destruct (mergeValidationDataValues _ _) as [m|] eqn:Em;
    [|discriminate].
  cbn [bindErr ok returnInfo07 accountSigFailed paymasterSigFailed
       validAfter07 validUntil07].
  destruct (merged_accountSigFailed m) eqn:Hacc; [discriminate|].
  destruct (merged_paymasterSigFailed m) eqn:Hpm; [discriminate|].
  destruct (Z.gtb_spec (merged_validAfter m) (Date_now w / 1000 - 5));
    [discriminate|].
  destruct (Z.ltb_spec (merged_validUntil m) (Date_now w / 1000 + 30));
    [discriminate|].
  intros [= <-]. exists sim, m. repeat split; trivial.
Qed.

Lemma validateUserOperation_ok_inv
    (calcLimits : UserOperation -> Z -> Z -> Z -> Z * Z)
    (this : t) (w : World) (userOperation : UserOperation)
    (entryPoint : Address) (r : ValidationResult) :
  fst (validateUserOperation calcLimits this w userOperation entryPoint)
  = ok r ->
  getValidationResult this w userOperation entryPoint = ok r
  /\ (apiVersion this <> "v1"%string ->
      requiredPreFund calcLimits this userOperation r <= prefund r).
Proof.
  unfold validateUserOperation.
  destruct (validateUserOperation_try calcLimits this w userOperation
              entryPoint) as [e|r'] eqn:Etry; cbn [fst]; [discriminate|].
  intros [= ->]. unfold validateUserOperation_try in Etry.
  destruct (getValidationResult this w userOperation entryPoint)
    as [e|r0] eqn:Eres; cbn [bindErr] in Etry; [discriminate|].
  destruct (String.eqb_spec (apiVersion this) "v1") as [Hv1|Hv2];
    cbn [negb] in Etry.
  - injection Etry as ->. split; [reflexivity | contradiction].
  - destruct (Z.gtb_spec (requiredPreFund calcLimits this userOperation r0)
                (prefund r0)); [discriminate|].
    injection Etry as ->. split; [reflexivity | intros _; lia].
Qed.

(** X15: a v0.7 operation that [validateUserOperation] admits had both
    validation-data words within u256, no aggregator in either of them
    (both signatures valid), and a merged time window that starts at
    least 5 s before and ends at least 30 s after the floored current
    time; the admitted result carries that window, the sender's address
    and an empty storage map.  This holds whatever the configuration
    flags and the API version are. *)
Theorem validateUserOperation_v07_admitted
    (calcLimits : UserOperation -> Z -> Z -> Z -> Z * Z)
    (this : t) (w : World) (op : V07.UserOperation) (entryPoint : Address)
    (sim : SimulatedValidationResultV07) (res : ValidationResultV07) :
  simulateValidationV07 w = validation sim ->
  fst (validateUserOperation calcLimits this w (UserOperationV07 op)
         entryPoint) = ok (ResultV07 res) ->
  (0 <= accountValidationData (sim_returnInfo sim) < 2 ^ 256
   /\ 0 <= paymasterValidationData (sim_returnInfo sim) < 2 ^ 256
   /\ aggregatorBits (accountValidationData (sim_returnInfo sim)) = 0
   /\ aggregatorBits (paymasterValidationData (sim_returnInfo sim)) = 0
   /\ Z.max (validAfterBits (accountValidationData (sim_returnInfo sim)))
            (validAfterBits (paymasterValidationData (sim_returnInfo sim)))
      <= Date_now w / 1000 - 5
   /\ Date_now w / 1000 + 30
      <= Z.min (neverIfZero
                  (validUntilBits
                     (accountValidationData (sim_returnInfo sim))))
               (neverIfZero
                  (validUntilBits
                     (paymasterValidationData (sim_returnInfo sim)))))
  /\ validAfter07 (returnInfo07 res)
     = Z.max (validAfterBits (accountValidationData (sim_returnInfo sim)))
             (validAfterBits (paymasterValidationData (sim_returnInfo sim)))
  /\ validUntil07 (returnInfo07 res)
     = Some (Z.min (neverIfZero
                      (validUntilBits
                         (accountValidationData (sim_returnInfo sim))))
                   (neverIfZero
                      (validUntilBits
                         (paymasterValidationData (sim_returnInfo sim)))))
  /\ addr (senderInfo07 res) = Some (V07.sender op)
  /\ storageMap07 res = [].
Proof.
  intros Hsim Hok.
  apply validateUserOperation_ok_inv in Hok as [Hres _].
  cbn [getValidationResult] in Hres.
  destruct (getValidationResultV07 this w op entryPoint) as [e|res'] eqn:E7;
    cbn [bindErr] in Hres; [discriminate|].
  injection Hres as ->.
  apply getValidationResultV07_ok_inv in E7
    as (sim' & m & Hsim' & Em & Hacc & Hpm & Hafter & Huntil & Hva & Hvu
        & Hsender & Hstorage).
  assert (sim' = sim) as -> by congruence.
  destruct (mergeValidationDataValues_Some_range _ _ _ Em) as [Ha Hp].
  destruct (mergeValidationDataValues_bits _ _ Ha Hp)
    as (m' & Em' & Bacc & Bpm & Bva & Bvu).
  assert (m' = m) as -> by congruence.
  rewrite Hacc in Bacc. rewrite Hpm in Bpm.
  rewrite Hva, Hvu, Hsender, Hstorage, <- Bva, <- Bvu.
  repeat split; trivial; lia.
Qed.

Lemma validateUserOperation_v07_admitted_witness :
  0 <= 0 < 2 ^ 256
  /\ 0 <= 0 < 2 ^ 256
  /\ aggregatorBits 0 = 0
  /\ aggregatorBits 0 = 0
  /\ Z.max (validAfterBits 0) (validAfterBits 0) <= 1700000000000 / 1000 - 5
  /\ 1700000000000 / 1000 + 30
     <= Z.min (neverIfZero (validUntilBits 0)) (neverIfZero (validUntilBits 0)).
Proof.
  refine (proj1 (validateUserOperation_v07_admitted declaredLimits
                   (validatorV2 false)
                   (worldOf (Unparsed false None) (simulatedV07 250000 0 0)
                      1700000000000)
                   sponsoredOpV07 entryPoint07 _ _ eq_refl _)).
  reflexivity.
Defined.

(** ** What admission tells about the simulation (v0.6) *)

(** X16: a v0.6 operation that [validateUserOperation] admits was
    simulated with [sigFailed = false]; the result is the decoded
    [ValidationResult] with an empty storage map; and unless
    [disableExpirationCheck] is set, its window starts at least 5 s before
    and ends at least 30 s after the floored current time. *)
Theorem validateUserOperation_v06_admitted
    (calcLimits : UserOperation -> Z -> Z -> Z -> Z * Z)
    (this : t) (w : World) (op : V06.UserOperation) (entryPoint : Address)
    (args : SimulatedValidationResultV06) (r : ValidationResult) :
  simulateValidationV06 w = ValidationResultError args ->
  fst (validateUserOperation calcLimits this w (UserOperationV06 op)
         entryPoint) = ok r ->
  r = ResultV06 {| simulated06 := args; storageMap06 := [] |}
  /\ sigFailed (returnInfo06 args) = false
  /\ (disableExpirationCheck this = false ->
      validAfter06 (returnInfo06 args) <= Date_now w / 1000 - 5
      /\ Date_now w / 1000 + 30 <= validUntil06 (returnInfo06 args)).
Proof.
  intros Hsim Hok.
  apply validateUserOperation_ok_inv in Hok as [Hres _].
  cbn [getValidationResult] in Hres.
  destruct (getValidationResultV06 this w op entryPoint) as [e|r06] eqn:E6;
    cbn [bindErr] in Hres; [discriminate|].
  injection Hres as <-.
  unfold getValidationResultV06 in E6. rewrite Hsim in E6. cbn in E6.
  destruct (sigFailed (returnInfo06 args)) eqn:Hsig; [discriminate|].
  change 5%Q with (inject_Z 5) in E6. change 30%Q with (inject_Z 30) in E6.
  rewrite Qgtb_ms, Qltb_ms in E6.
  change (5 * 1000) with 5000 in E6. change (30 * 1000) with 30000 in E6.
  destruct (disableExpirationCheck this) eqn:Hflag; cbn [negb] in E6.
  - rewrite !andb_false_r in E6. injection E6 as <-.
    split; [reflexivity|]. split; [reflexivity|]. discriminate.
  - rewrite !andb_true_r in E6.
    destruct (Z.gtb_spec (validAfter06 (returnInfo06 args) * 1000)
                (Date_now w - 5000)); [discriminate|].
    destruct (Z.ltb_spec (validUntil06 (returnInfo06 args) * 1000)
                (Date_now w + 30000)); [discriminate|].
    injection E6 as <-.
    split; [reflexivity|]. split; [reflexivity|]. intros _.
    split; Z.to_euclidean_division_equations; lia.
Qed.

Lemma validateUserOperation_v06_admitted_witness :
  ResultV06
    {| simulated06 :=
         {| returnInfo06 :=
              {| preOpGas06 := 50000;
                 prefund06 := 450000;
                 sigFailed := false;
                 validAfter06 := 0;
                 validUntil06 := 1700000030;
                 paymasterContext06 := "0x"%string |};
            senderInfo06 := noStake;
            factoryInfo06 := noStake;
            paymasterInfo06 := noStake;
            aggregatorInfo06 := None |};
       storageMap06 := [] |}
  = ResultV06
      {| simulated06 :=
           {| returnInfo06 :=
                {| preOpGas06 := 50000;
                   prefund06 := 450000;
                   sigFailed := false;
                   validAfter06 := 0;
                   validUntil06 := 1700000030;
                   paymasterContext06 := "0x"%string |};
              senderInfo06 := noStake;
              factoryInfo06 := noStake;
              paymasterInfo06 := noStake;
              aggregatorInfo06 := None |};
         storageMap06 := [] |}
  /\ false = false
  /\ (false = false ->
      0 <= 1700000000000 / 1000 - 5
      /\ 1700000000000 / 1000 + 30 <= 1700000030).
Proof.
  refine (validateUserOperation_v06_admitted declaredLimits
            (validatorV2 false)
            (worldOf (simulatedV06 450000 0 1700000030) (failed "unused")
               1700000000000)
            plainOpV06 entryPoint06 _ _ eq_refl _).
  reflexivity.
Defined.

(** ** The prefund at admission *)

(** X17: when the API version is not "v1", every admitted operation has a
    prefund of at least [callGasLimit + mul * verificationGasLimit +
    preVerificationGas] with the computed limits and a multiplier that is
    1 or 3; the admission is counted in the success counter and in no
    other. *)
Theorem validateUserOperation_admitted_prefund
    (calcLimits : UserOperation -> Z -> Z -> Z -> Z * Z)
    (this : t) (w : World) (userOperation : UserOperation)
    (entryPoint : Address) (r : ValidationResult) :
  fst (validateUserOperation calcLimits this w userOperation entryPoint)
  = ok r ->
  apiVersion this <> "v1"%string ->
  fst (calcLimits userOperation (preOpGas r) (prefund r) (chainId this))
    * mul userOperation
  + snd (calcLimits userOperation (preOpGas r) (prefund r) (chainId this))
  + preVerificationGas userOperation
  <= prefund r
  /\ (mul userOperation = 1 \/ mul userOperation = 3)
  /\ metrics (snd (validateUserOperation calcLimits this w userOperation
                     entryPoint))
     = {| userOperationsValidationSuccess :=
            userOperationsValidationSuccess (metrics this) + 1;
          userOperationsValidationFailure :=
            userOperationsValidationFailure (metrics this) |}.
Proof.
  intros Hok Hapi.
  pose proof (validateUserOperation_ok_inv _ _ _ _ _ _ Hok) as [_ Hpre].
  specialize (Hpre Hapi). unfold requiredPreFund in Hpre.
  destruct (calcLimits userOperation (preOpGas r) (prefund r)
              (chainId this)) as [verificationGasLimit callGasLimit].
  cbn [fst snd]. split; [lia|]. split.
  - rewrite mul_cases. destruct userOperation as [op|op].
    + destruct (String.eqb _ _); tauto.
    + destruct (V07.paymaster op) as [pm|]; [|tauto].
      destruct (String.eqb _ _); tauto.
  - unfold validateUserOperation in *.
    destruct (validateUserOperation_try _ this w userOperation entryPoint);
      [discriminate|reflexivity].
Qed.

Lemma validateUserOperation_admitted_prefund_witness :
  100000 * 1 + 100000 + 50000 <= 250000.
Proof.
  eassert (fst (validateUserOperation declaredLimits (validatorV2 false)
                  (worldOf (Unparsed false None) (simulatedV07 250000 0 0)
                     1700000000000)
                  (UserOperationV07 sponsoredOpV07) entryPoint07)
           = ok _) as Hok by reflexivity.
  assert (apiVersion (validatorV2 false) <> "v1"%string) as Hapi
    by discriminate.
  exact (proj1 (validateUserOperation_admitted_prefund declaredLimits
                  (validatorV2 false)
                  (worldOf (Unparsed false None) (simulatedV07 250000 0 0)
                     1700000000000)
                  (UserOperationV07 sponsoredOpV07) entryPoint07 _ Hok Hapi)).
Defined.

(** ** The v0.6 time window in whole seconds *)

(** X18: the two v0.6 time-window rejections in integer terms, with
    [now = floor (Date.now() / 1000)] and for an operation whose simulation
    succeeded with a valid signature.  "Not valid yet" is thrown exactly
    when the check is enabled and [validAfter > now - 5]; "expires too
    soon" exactly when the check is enabled, the first test passed, and
    [validUntil < now + 30] or [validUntil = now + 30] at a time that is
    not a whole second. *)
Theorem getValidationResultV06_time_window (this : t) (w : World)
    (op : V06.UserOperation) (entryPoint : Address)
    (args : SimulatedValidationResultV06) :
  simulateValidationV06 w = ValidationResultError args ->
  sigFailed (returnInfo06 args) = false ->
  (getValidationResultV06 this w op entryPoint
   = throw (RpcError (Literal "User operation is not valid yet")
              ExpiresShortly)
   <-> disableExpirationCheck this = false
       /\ validAfter06 (returnInfo06 args) > Date_now w / 1000 - 5)
  /\ (getValidationResultV06 this w op entryPoint
      = throw (RpcError (Literal "expires too soon") ExpiresShortly)
      <-> disableExpirationCheck this = false
          /\ validAfter06 (returnInfo06 args) <= Date_now w / 1000 - 5
          /\ (validUntil06 (returnInfo06 args) < Date_now w / 1000 + 30
              \/ (validUntil06 (returnInfo06 args) = Date_now w / 1000 + 30
                  /\ Date_now w mod 1000 <> 0))).
Proof.
  intros Hsim Hsig. unfold getValidationResultV06.
  rewrite Hsim. cbn. rewrite Hsig.
  change 5%Q with (inject_Z 5). change 30%Q with (inject_Z 30).
  rewrite Qgtb_ms, Qltb_ms.
  change (5 * 1000) with 5000. change (30 * 1000) with 30000.
  destruct (disableExpirationCheck this); cbn [negb].
  - rewrite !andb_false_r.
    split; (split; [discriminate | intros [H _]; discriminate]).
  - rewrite !andb_true_r.
    destruct (Z.gtb_spec (validAfter06 (returnInfo06 args) * 1000)
                (Date_now w - 5000)) as [Hearly|Hstarted].
    + split.
      * split; [intros _; split; [reflexivity|]|reflexivity].
        Z.to_euclidean_division_equations; lia.
      * split; [discriminate|].
        intros [_ [Hle _]]. exfalso.
        revert Hle Hearly. Z.to_euclidean_division_equations; lia.
    + destruct (Z.ltb_spec (validUntil06 (returnInfo06 args) * 1000)
                  (Date_now w + 30000)) as [Hsoon|Hlate].
      * split.
        -- split; [discriminate|].
           intros [_ Hgt]. exfalso.
           revert Hgt Hstarted. Z.to_euclidean_division_equations; lia.
        -- split; [intros _|reflexivity].
           split; [reflexivity|].
           split; Z.to_euclidean_division_equations; lia.
      * split.
        -- split; [discriminate|].
           intros [_ Hgt]. exfalso.
           revert Hgt Hstarted. Z.to_euclidean_division_equations; lia.
        -- split; [discriminate|].
           intros [_ [_ Hor]]. exfalso.
           revert Hor Hlate. Z.to_euclidean_division_equations; lia.
Qed.

Lemma getValidationResultV06_time_window_witness :
  getValidationResultV06 (validatorV2 false)
    (worldOf (simulatedV06 450000 0 1700000030) (failed "unused")
       1700000000500)
    plainOpV06 entryPoint06
  = throw (RpcError (Literal "expires too soon") ExpiresShortly).
Proof.
  refine (proj2 (proj2 (getValidationResultV06_time_window
                          (validatorV2 false)
                          (worldOf (simulatedV06 450000 0 1700000030)
                             (failed "unused") 1700000000500)
                          plainOpV06 entryPoint06 _ eq_refl eq_refl)) _).
  split; [reflexivity|]. split; [cbn; lia|].
  right. split; [reflexivity | discriminate].
Defined.

(** ** Round trip through the packed layout *)

Lemma packed_fields (A B g u a : Z) :
  0 < A -> 0 < B -> 0 <= g < A -> 0 <= u < B ->
  (a * (A * B) + u * A + g) mod A = g
  /\ ((a * (A * B) + u * A + g) / A) mod B = u
  /\ (a * (A * B) + u * A + g) / (A * B) = a.
Proof.
  intros HA HB Hg Hu.
  replace (a * (A * B) + u * A + g) with (g + (a * B + u) * A) by ring.
  assert ((g + (a * B + u) * A) / A = a * B + u) as Hdiv.
  { rewrite Z.div_add by lia. rewrite Z.div_small by lia. lia. }
  split; [rewrite Z.mod_add by lia; apply Z.mod_small; lia|].
  split.
  - rewrite Hdiv, (Z.add_comm (a * B)), Z.mod_add by lia.
    apply Z.mod_small; lia.
  - rewrite <- Z.div_div by lia. rewrite Hdiv.
    rewrite (Z.add_comm (a * B)), Z.div_add by lia.
    rewrite Z.div_small by lia. lia.
Qed.

(** X19: unpacking inverts the packed layout: for an aggregator below
    [2^160] and validity bounds below [2^48], the word
    [validAfter * 2^208 + validUntil * 2^160 + aggregator] is unpacked to
    the 20 bytes of the aggregator as a hex string, the same [validAfter],
    and the same [validUntil], except that a [validUntil] of 0 comes back
    as [2^48 - 1]. *)
Theorem parseValidationData_packed (aggregator' validUntil' validAfter' : Z) :
  0 <= aggregator' < 2 ^ 160 ->
  0 <= validUntil' < 2 ^ 48 ->
  0 <= validAfter' < 2 ^ 48 ->
  parseValidationData
    (validAfter' * 2 ^ 208 + validUntil' * 2 ^ 160 + aggregator')
  = Some {| aggregator := bytesToHex (digitsBE 256 20 aggregator');
            validAfter := validAfter';
            validUntil := neverIfZero validUntil' |}.
Proof.
  intros Hg Hu Ha.
  set (word := validAfter' * 2 ^ 208 + validUntil' * 2 ^ 160 + aggregator').
  destruct (packed_fields (2 ^ 160) (2 ^ 48) aggregator' validUntil'
              validAfter') as [Hmod [Hmid Htop]]; try lia.
  change (2 ^ 160 * 2 ^ 48) with (2 ^ 208) in Hmod, Hmid, Htop.
  fold word in Hmod, Hmid, Htop.
  assert (0 <= word < 2 ^ 256) as Hw.
  { subst word. change (2 ^ 256) with (2 ^ 48 * 2 ^ 208).
    change (2 ^ 208) with (2 ^ 48 * 2 ^ 160) at 1. nia. }
  rewrite parseValidationData_fields by exact Hw.
  rewrite Hmid, Htop. unfold bytesToHex, neverIfZero.
  rewrite <- (digitsBE_16_256 20 aggregator').
  change (20 + 20)%nat with 40%nat.
  rewrite <- (digitsBE_mod 16 ltac:(lia) 40 word).
  change (16 ^ Z.of_nat 40) with (2 ^ 160). rewrite Hmod. reflexivity.
Qed.

Lemma parseValidationData_packed_witness :
  parseValidationData (100 * 2 ^ 208 + 0 * 2 ^ 160 + 1)
  = Some {| aggregator := bytesToHex (digitsBE 256 20 1);
            validAfter := 100;
            validUntil := neverIfZero 0 |}.
Proof.
  apply (parseValidationData_packed 1 0 100); lia.
Defined.

(** ** Admission needs a successful simulation *)

(** X20: [validateUserOperation] admits an operation only if its
    simulation succeeded: for v0.6 the call reverted with a decoded
    [ValidationResult] (never on [FailedOp], an [ExecutionResult] or an
    undecodable answer); for v0.7 [entryPointSimulationsAddress] is
    configured and the simulation did not fail. *)
Theorem validateUserOperation_admits_only_simulated
    (calcLimits : UserOperation -> Z -> Z -> Z -> Z * Z)
    (this : t) (w : World) (userOperation : UserOperation)
    (entryPoint : Address) (r : ValidationResult) :
  fst (validateUserOperation calcLimits this w userOperation entryPoint)
  = ok r ->
  match userOperation with
  | UserOperationV06 _ =>
      exists args, simulateValidationV06 w = ValidationResultError args
  | UserOperationV07 _ =>
      truthyOpt (entryPointSimulationsAddress this) = true
      /\ exists sim, simulateValidationV07 w = validation sim
  end.
Proof.
  intros Hok. apply validateUserOperation_ok_inv in Hok as [Hres _].
  destruct userOperation as [op|op]; cbn [getValidationResult] in Hres.
  - destruct (getValidationResultV06 this w op entryPoint) as [e|r06] eqn:E6;
      cbn [bindErr] in Hres; [discriminate|].
    unfold getValidationResultV06 in E6.
    destruct (simulateValidationV06 w) as [[|] reason|reason|args|];
      try discriminate.
    now exists args.
  - destruct (getValidationResultV07 this w op entryPoint) as [e|r07] eqn:E7;
      cbn [bindErr] in Hres; [discriminate|].
    unfold getValidationResultV07 in E7.
    destruct (truthyOpt (entryPointSimulationsAddress this));
      cbn [negb] in E7; [|discriminate].
    destruct (simulateValidationV07 w) as [data|sim]; [discriminate|].
    split; [reflexivity | now exists sim].
Qed.

Lemma validateUserOperation_admits_only_simulated_witness :
  truthyOpt (entryPointSimulationsAddress (validatorV2 false)) = true
  /\ exists sim,
       simulateValidationV07
         (worldOf (Unparsed false None) (simulatedV07 250000 0 0)
            1700000000000) = validation sim.
Proof.
  eassert (fst (validateUserOperation declaredLimits (validatorV2 false)
                  (worldOf (Unparsed false None) (simulatedV07 250000 0 0)
                     1700000000000)
                  (UserOperationV07 sponsoredOpV07) entryPoint07)
           = ok _) as Hok by reflexivity.
  exact (validateUserOperation_admits_only_simulated declaredLimits
           (validatorV2 false)
           (worldOf (Unparsed false None) (simulatedV07 250000 0 0)
              1700000000000)
           (UserOperationV07 sponsoredOpV07) entryPoint07 _ Hok).
Defined.

End UnsafeValidatorFurther.
